(** * Traffic Control System: the control core, embedded and verified

    A shallow embedding of the tick-driven core of
    [Software for Traffic Control System.py]: the adaptive signal controller
    ([AdvancedTrafficLight]), the sensor monitor ([TrafficMonitoringSystem])
    and the emergency registry ([EmergencyManagementSystem]).

    Numbers are the ones the interpreter computes with: Python [int] is [Z],
    Python [float] is IEEE 754 binary64, here the primitive type [float]
    whose operations round to nearest-even exactly as the hardware does.
    Dictionaries are [gmap]s.  Sensor objects are mutable and are retained by
    reference in the monitor's history, so the monitor works over a store of
    sensor objects and lists of addresses. *)

From Stdlib Require Import ZArith List Bool Lia Floats Ascii.
From stdpp Require Import base option list gmap strings pretty.
Import ListNotations.

Set Warnings "-inexact-float".
Local Open Scope Z_scope.

(* ===================================================================== *)
(** ** The numbers of the Python runtime *)
(* ===================================================================== *)

Module Py.

(** An [int] seen as an exact binary number. *)
Definition Z2SF (z : Z) : spec_float :=
  match z with
  | Z0 => S754_zero false
  | Zpos p => S754_finite false p 0
  | Zneg p => S754_finite true p 0
  end.

(** [float(z)]: the nearest binary64 value, ties to even.  (Past the largest
    float CPython raises OverflowError; here the result is an infinity.) *)
Definition float_of_int (z : Z) : float :=
  SF2Prim (binary_normalize prec emax z 0 false).

(** [a / b] on two [int]s: the correctly rounded quotient.  The callers
    guard against [b = 0]. *)
Definition int_truediv (a b : Z) : float :=
  SF2Prim (SFdiv prec emax (Z2SF a) (Z2SF b)).

(** [int(f)]: truncation towards zero, for a finite [f]. *)
Definition int_of_float (f : float) : Z :=
  match Prim2SF f with
  | S754_finite s m e =>
      let v := if 0 <=? e then Zpos m * 2 ^ e
               else Z.quot (Zpos m) (2 ^ (- e)) in
      if s then - v else v
  | _ => 0
  end.

(** [z >= f] for an [int] and a [float]: CPython compares the two exactly,
    without rounding the integer. *)
Definition int_ge_float (z : Z) (f : float) : bool :=
  match Prim2SF f with
  | S754_nan => false
  | S754_infinity s => s
  | S754_zero _ => 0 <=? z
  | S754_finite s m e =>
      let v := if s then Zneg m else Zpos m in
      if 0 <=? e then v * 2 ^ e <=? z else v <=? z * 2 ^ (- e)
  end.

(** The builtins [min(a, b)] and [max(a, b)]: the first argument is kept
    unless the second is strictly smaller (resp. greater). *)
Definition min (a b : float) : float := if (b <? a)%float then b else a.
Definition max (a b : float) : float := if (a <? b)%float then b else a.

(** A value that is an [int] or a [float] depending on the path taken. *)
Inductive num :=
| Int (z : Z)
| Float (f : float).

Definition to_float (n : num) : float :=
  match n with
  | Int z => float_of_int z
  | Float f => f
  end.

(** [x - n] for an [int] [x]. *)
Definition int_sub (x : Z) (n : num) : num :=
  match n with
  | Int k => Int (x - k)
  | Float f => Float (float_of_int x - f)
  end.

Definition abs (n : num) : num :=
  match n with
  | Int k => Int (Z.abs k)
  | Float f => Float (PrimFloat.abs f)
  end.

(** [sum] of [int]s, and of [float]s: left to right from the integer 0
    (plain additions, as CPython does up to 3.11). *)
Definition sum_int (xs : list Z) : Z := fold_left Z.add xs 0.

Definition sum_float (xs : list float) : float :=
  match xs with
  | [] => 0%float
  | x :: xs' => fold_left PrimFloat.add xs' (0 + x)%float
  end.

Definition len {A} (xs : list A) : Z := Z.of_nat (length xs).

(** [xs[-n:]]: the last [n] elements. *)
Definition last_n {A} (n : nat) (xs : list A) : list A :=
  drop (length xs - n)%nat xs.

(** *** The [statistics] module on lists of [int]s

    [statistics] computes exactly over rationals and rounds once, at the
    end. *)

(** [statistics.mean]: an [int] when the mean is integral, else the float
    nearest to the exact mean. *)
Definition mean (xs : list Z) : num :=
  let total := sum_int xs in
  let n := len xs in
  if total mod n =? 0 then Int (total / n) else Float (int_truediv total n).

(** [n.bit_length()] *)
Definition bit_length (n : Z) : Z :=
  if n =? 0 then 0 else Z.log2 (Z.abs n) + 1.

(** [statistics._integer_sqrt_of_frac_rto]: the square root of [n/m]
    rounded to an integer, to odd. *)
Definition _integer_sqrt_of_frac_rto (n m : Z) : Z :=
  let a := Z.sqrt (n / m) in
  Z.lor a (if a * a * m =? n then 0 else 1).

(** [statistics._float_sqrt_of_frac]: the square root of [n/m] as a float,
    correctly rounded (CPython 3.11 and later). *)
Definition _float_sqrt_of_frac (n m : Z) : float :=
  let q := (bit_length n - bit_length m - 109) / 2 in
  if 0 <=? q then
    int_truediv
      (Z.shiftl (_integer_sqrt_of_frac_rto n (Z.shiftl m (2 * q))) q) 1
  else
    int_truediv
      (_integer_sqrt_of_frac_rto (Z.shiftl n (- 2 * q)) m) (Z.shiftl 1 (- q)).

(** The exact sum of squared deviations from the mean is
    [(n * sum x^2 - (sum x)^2) / n], as [statistics._ss] computes it. *)
Definition ss_times_n (xs : list Z) : Z :=
  len xs * sum_int (map (fun x => x * x) xs) - sum_int xs * sum_int xs.

(** [statistics.stdev]: the square root of the sample variance
    [ss / (n - 1)], taken on the fraction in lowest terms. *)
Definition stdev (xs : list Z) : float :=
  let numerator := ss_times_n xs in
  let denominator := len xs * (len xs - 1) in
  let g := Z.gcd numerator denominator in
  _float_sqrt_of_frac (numerator / g) (denominator / g).

End Py.

(* ===================================================================== *)
(** ** Enumerations *)
(* ===================================================================== *)

Inductive TrafficLightState :=
| RED | YELLOW | GREEN | PRE_GREEN | FLASHING_RED | FLASHING_YELLOW.

Inductive VehicleType :=
| CAR | JEEP | TRUCK | BUS | MOTORCYCLE | EMERGENCY | PEDESTRIAN.

Inductive EmergencyLevel :=
| NONE | LOW | MEDIUM | HIGH | CRITICAL.

Inductive WeatherCondition :=
| CLEAR | RAIN | SNOW | FOG | STORM | NIGHT.

Inductive Direction :=
| NORTH | SOUTH | EAST | WEST | UNKNOWN.

#[global] Instance TrafficLightState_eq_dec : EqDecision TrafficLightState.
Proof. solve_decision. Defined.
#[global] Instance VehicleType_eq_dec : EqDecision VehicleType.
Proof. solve_decision. Defined.
#[global] Instance EmergencyLevel_eq_dec : EqDecision EmergencyLevel.
Proof. solve_decision. Defined.
#[global] Instance WeatherCondition_eq_dec : EqDecision WeatherCondition.
Proof. solve_decision. Defined.

(** Enumeration members are hashable: they serve as dictionary keys. *)
Definition EmergencyLevel_code (l : EmergencyLevel) : nat :=
  match l with NONE => 0 | LOW => 1 | MEDIUM => 2 | HIGH => 3 | CRITICAL => 4 end.
Definition EmergencyLevel_decode (n : nat) : option EmergencyLevel :=
  match n with
  | 0 => Some NONE | 1 => Some LOW | 2 => Some MEDIUM | 3 => Some HIGH
  | 4 => Some CRITICAL | _ => None
  end%nat.
#[global] Instance EmergencyLevel_countable : Countable EmergencyLevel.
Proof.
  apply (inj_countable EmergencyLevel_code EmergencyLevel_decode).
  intros []; reflexivity.
Defined.

Definition WeatherCondition_code (w : WeatherCondition) : nat :=
  match w with
  | CLEAR => 0 | RAIN => 1 | SNOW => 2 | FOG => 3 | STORM => 4 | NIGHT => 5
  end.
Definition WeatherCondition_decode (n : nat) : option WeatherCondition :=
  match n with
  | 0 => Some CLEAR | 1 => Some RAIN | 2 => Some SNOW | 3 => Some FOG
  | 4 => Some STORM | 5 => Some NIGHT | _ => None
  end%nat.
#[global] Instance WeatherCondition_countable : Countable WeatherCondition.
Proof.
  apply (inj_countable WeatherCondition_code WeatherCondition_decode).
  intros []; reflexivity.
Defined.

(* ===================================================================== *)
(** ** Data classes *)
(* ===================================================================== *)

(** A [datetime], as a point on the time line. *)
Definition datetime := Z.

Module Vehicle.
Record t := mk {
  id : string;
  type : VehicleType;
  speed : float;
  position : float * float;
  destination : float * float;
  priority : Z;
  emergency_level : EmergencyLevel;
  direction : Direction;
  timestamp : datetime
}.
End Vehicle.

Module TrafficSensor.
Record t := mk {
  id : string;
  position : float * float;
  vehicle_count : Z;
  average_speed : float;
  queue_length : Z;
  last_update : datetime;
  is_active : bool
}.
End TrafficSensor.

Module IntersectionConfig.
Record t := mk {
  id : string;
  position : float * float;
  roads : list string;
  default_green_time : float;
  default_yellow_time : float;
  default_pre_green_time : float;
  default_red_time : float;
  max_green_time : float;
  min_green_time : float;
  pedestrian_crossing_time : float;
  emergency_override : bool
}.

(** The field defaults of the data class. *)
Definition default (id : string) : t :=
  mk id (0, 0)%float [] 30 5 1.5 30 60 10 20 true.
End IntersectionConfig.

(* ===================================================================== *)
(** ** AdvancedTrafficLight *)
(* ===================================================================== *)

(** The dictionary returned by [calculate_optimal_timing]. *)
Record Timing := mkTiming {
  green : float;
  yellow : float;
  pre_green : float;
  red : float
}.

Definition set_green (g : float) (t : Timing) : Timing :=
  mkTiming g (yellow t) (pre_green t) (red t).

(** The attributes of a controller.  [traffic_patterns] is initialised to an
    empty dictionary and never touched again; it is left out. *)
Record AdvancedTrafficLight := mkLight {
  intersection_id : string;
  config : IntersectionConfig.t;
  current_state : TrafficLightState;
  state_start_time : Z;
  green_time_elapsed : Py.num;
  cycle_count : Z;
  emergency_active : bool;
  last_state_change : Z;
  adaptation_factor : float
}.

Definition set_current_state (s : TrafficLightState) (self : AdvancedTrafficLight) :=
  mkLight (intersection_id self) (config self) s (state_start_time self)
    (green_time_elapsed self) (cycle_count self) (emergency_active self)
    (last_state_change self) (adaptation_factor self).

Definition set_state_start_time (n : Z) (self : AdvancedTrafficLight) :=
  mkLight (intersection_id self) (config self) (current_state self) n
    (green_time_elapsed self) (cycle_count self) (emergency_active self)
    (last_state_change self) (adaptation_factor self).

Definition set_green_time_elapsed (d : Py.num) (self : AdvancedTrafficLight) :=
  mkLight (intersection_id self) (config self) (current_state self)
    (state_start_time self) d (cycle_count self) (emergency_active self)
    (last_state_change self) (adaptation_factor self).

Definition set_cycle_count (n : Z) (self : AdvancedTrafficLight) :=
  mkLight (intersection_id self) (config self) (current_state self)
    (state_start_time self) (green_time_elapsed self) n (emergency_active self)
    (last_state_change self) (adaptation_factor self).

Definition set_emergency_active (b : bool) (self : AdvancedTrafficLight) :=
  mkLight (intersection_id self) (config self) (current_state self)
    (state_start_time self) (green_time_elapsed self) (cycle_count self) b
    (last_state_change self) (adaptation_factor self).

Definition set_last_state_change (n : Z) (self : AdvancedTrafficLight) :=
  mkLight (intersection_id self) (config self) (current_state self)
    (state_start_time self) (green_time_elapsed self) (cycle_count self)
    (emergency_active self) n (adaptation_factor self).

Definition set_adaptation_factor (a : float) (self : AdvancedTrafficLight) :=
  mkLight (intersection_id self) (config self) (current_state self)
    (state_start_time self) (green_time_elapsed self) (cycle_count self)
    (emergency_active self) (last_state_change self) a.

(** [__init__] *)
Definition new_light (intersection_id : string) (config : IntersectionConfig.t)
  : AdvancedTrafficLight :=
  mkLight intersection_id config RED 0 (Py.Float 0) 0 false 0 1.

Definition get_current_state_duration (self : AdvancedTrafficLight)
    (current_step : Z) : Z :=
  current_step - state_start_time self.

Definition change_state (self : AdvancedTrafficLight)
    (new_state : TrafficLightState) (current_step : Z) : AdvancedTrafficLight :=
  let self := set_current_state new_state self in
  let self := set_state_start_time current_step self in
  let self := set_last_state_change current_step self in
  if decide (current_state self = GREEN) then
    let self := set_green_time_elapsed (Py.Float 0) self in
    set_cycle_count (cycle_count self + 1) self
  else self.

(** The controller only reads its sensors during the call, so it takes them
    by value.  The method returns the timing and updates [emergency_active]. *)
Definition calculate_optimal_timing (self : AdvancedTrafficLight)
    (sensor_data : list TrafficSensor.t) (weather : WeatherCondition)
    (emergency_level : EmergencyLevel) (is_rush_hour is_night : bool)
  : Timing * AdvancedTrafficLight :=
  let cfg := config self in
  (* Base timings from config *)
  let timing :=
    mkTiming (IntersectionConfig.default_green_time cfg)
             (IntersectionConfig.default_yellow_time cfg)
             (IntersectionConfig.default_pre_green_time cfg)
             (IntersectionConfig.default_red_time cfg) in
  let '(timing, self) :=
    if decide (emergency_level <> NONE)
    then (set_green (IntersectionConfig.min_green_time cfg) timing,
          set_emergency_active true self)
    else (timing, set_emergency_active false self) in
  (* Density-based logic: 3.0s base + 3.5s per car *)
  let timing :=
    match sensor_data with
    | [] => timing
    | _ :: _ =>
        let avg_vehicle_count :=
          Py.int_truediv
            (Py.sum_int (map TrafficSensor.vehicle_count sensor_data))
            (Py.len sensor_data) in
        let g := (3.0 + avg_vehicle_count * 3.5)%float in
        let g := if decide (weather ∈ [RAIN; SNOW; STORM])
                 then (g + 4.0)%float else g in
        let g := if is_rush_hour then (g * 1.2)%float else g in
        let g := if is_night then (g * 0.8)%float else g in
        set_green g timing
    end in
  (* Apply bounds *)
  let timing :=
    set_green (Py.max (IntersectionConfig.min_green_time cfg)
                      (Py.min (IntersectionConfig.max_green_time cfg)
                              (green timing)))
              timing in
  (timing, self).

Definition _update_adaptation_factor (self : AdvancedTrafficLight)
    (sensor_data : list TrafficSensor.t) : AdvancedTrafficLight :=
  match sensor_data with
  | [] => self
  | _ :: _ =>
      let total_queue_length :=
        Py.sum_int (map TrafficSensor.queue_length sensor_data) in
      let avg_queue_length :=
        Py.int_truediv total_queue_length (Py.len sensor_data) in
      (* the integers 5 and 2 are compared as the floats of the same value *)
      if (5 <? avg_queue_length)%float then
        set_adaptation_factor
          (Py.min 2.0 (adaptation_factor self + 0.01)%float) self
      else if (avg_queue_length <? 2)%float then
        set_adaptation_factor
          (Py.max 0.5 (adaptation_factor self - 0.01)%float) self
      else self
  end.

Definition update_state (self : AdvancedTrafficLight) (current_step : Z)
    (sensor_data : list TrafficSensor.t) (weather : WeatherCondition)
    (emergency_level : EmergencyLevel)
    (power_outage is_scramble is_rush_hour : bool) : AdvancedTrafficLight :=
  (* Scenario: Power Outage (Flashing Yellow) *)
  if power_outage then
    if current_step mod 2 =? 0
    then set_current_state FLASHING_YELLOW self
    else set_current_state RED self
  (* Scenario: Pedestrian Scramble (All Red) *)
  else if is_scramble then
    set_state_start_time current_step (set_current_state RED self)
  (* Emergency override *)
  else if decide (emergency_level <> NONE) then
    if decide (current_state self <> GREEN)
    then change_state self GREEN current_step
    else self
  else
    let '(timing, self) :=
      calculate_optimal_timing self sensor_data weather emergency_level
        is_rush_hour (bool_decide (weather = NIGHT)) in
    let current_duration := get_current_state_duration self current_step in
    let self :=
      match current_state self with
      | RED =>
          if Py.int_ge_float current_duration (red timing)
          then change_state self PRE_GREEN current_step else self
      | PRE_GREEN =>
          if Py.int_ge_float current_duration (pre_green timing)
          then change_state self GREEN current_step else self
      | GREEN =>
          let self := set_green_time_elapsed (Py.Int current_duration) self in
          if Py.int_ge_float current_duration (green timing)
          then change_state self YELLOW current_step else self
      | YELLOW | FLASHING_YELLOW =>
          if Py.int_ge_float current_duration (yellow timing)
          then change_state self RED current_step else self
      | FLASHING_RED => self
      end in
    _update_adaptation_factor self sensor_data.


(* ===================================================================== *)
(** ** TrafficMonitoringSystem *)
(* ===================================================================== *)

(** Sensor objects live in a store; a list of sensors is a list of
    addresses, and two occurrences of one address are one object. *)
Definition addr := nat.
Definition store := addr -> TrafficSensor.t.

(** One entry of the [anomalies] list. *)
Module Anomaly.
Record t := mk {
  sensor_id : string;
  type : string;
  value : Z;
  expected_range : float * float;
  timestamp : datetime
}.
End Anomaly.

(** The dictionary returned by [process_sensor_data]; its [predictions]
    entry is always the empty dictionary and is left out. *)
Module ProcessedData.
Record t := mk {
  total_vehicles : Z;
  average_speed : float;
  congestion_level : float;
  anomalies : list Anomaly.t
}.
End ProcessedData.

Record TrafficMonitoringSystem := mkMonitor {
  sensor_data_history : gmap string (list addr);
  anomaly_threshold : float
}.

(** [__init__] *)
Definition new_monitor : TrafficMonitoringSystem := mkMonitor ∅ 2.0.

Definition set_history (h : gmap string (list addr))
    (self : TrafficMonitoringSystem) : TrafficMonitoringSystem :=
  mkMonitor h (anomaly_threshold self).

(** [if sensor.id not in self.sensor_data_history:
        self.sensor_data_history[sensor.id] = []] *)
Definition ensure_history (self : TrafficMonitoringSystem) (sid : string)
  : TrafficMonitoringSystem :=
  match sensor_data_history self !! sid with
  | Some _ => self
  | None => set_history (<[sid := []]> (sensor_data_history self)) self
  end.

(** [self.sensor_data_history[sid]]; the empty list stands for a key that
    is not there yet. *)
Definition history_of (self : TrafficMonitoringSystem) (sid : string)
  : list addr :=
  default [] (sensor_data_history self !! sid).

(** [abs(sensor.vehicle_count - mean_count) / stdev_count] *)
Definition z_score (vehicle_count : Z) (vehicle_counts : list Z) : float :=
  (Py.to_float (Py.abs (Py.int_sub vehicle_count (Py.mean vehicle_counts)))
   / Py.stdev vehicle_counts)%float.

(** The record appended for a flagged sensor. *)
Definition anomaly_record (sensor : TrafficSensor.t) (vehicle_counts : list Z)
  : Anomaly.t :=
  let mean_count := Py.to_float (Py.mean vehicle_counts) in
  let stdev_count := Py.stdev vehicle_counts in
  Anomaly.mk (TrafficSensor.id sensor) "vehicle_count"
    (TrafficSensor.vehicle_count sensor)
    ((mean_count - 2 * stdev_count)%float, (mean_count + 2 * stdev_count)%float)
    (TrafficSensor.last_update sensor).

(** The body of the loop of [_detect_anomalies], for the sensor at [a]. *)
Definition detect_step (H : store)
    (acc : list Anomaly.t * TrafficMonitoringSystem) (a : addr)
  : list Anomaly.t * TrafficMonitoringSystem :=
  let '(anomalies, self) := acc in
  let sensor := H a in
  let self := ensure_history self (TrafficSensor.id sensor) in
  let history := history_of self (TrafficSensor.id sensor) in
  if (length history <? 5)%nat then (anomalies, self)
  else
    let vehicle_counts :=
      map (fun s => TrafficSensor.vehicle_count (H s)) (Py.last_n 10 history) in
    match vehicle_counts with
    | [] => (anomalies, self)
    | _ :: _ =>
        if (1 <? length vehicle_counts)%nat then
          let stdev_count := Py.stdev vehicle_counts in
          if (0 <? stdev_count)%float then
            if (anomaly_threshold self
                <? z_score (TrafficSensor.vehicle_count sensor) vehicle_counts)%float
            then (anomalies ++ [anomaly_record sensor vehicle_counts], self)
            else (anomalies, self)
          else (anomalies, self)
        else (anomalies, self)
    end.

Definition _detect_anomalies (H : store) (self : TrafficMonitoringSystem)
    (sensors : list addr) : list Anomaly.t * TrafficMonitoringSystem :=
  fold_left (detect_step H) sensors ([], self).

(** The body of the loop of [_update_history]. *)
Definition update_step (H : store) (self : TrafficMonitoringSystem) (a : addr)
  : TrafficMonitoringSystem :=
  let sid := TrafficSensor.id (H a) in
  let self := ensure_history self sid in
  let self :=
    set_history (<[sid := history_of self sid ++ [a]]> (sensor_data_history self))
                self in
  if (100 <? length (history_of self sid))%nat
  then set_history (<[sid := Py.last_n 100 (history_of self sid)]>
                      (sensor_data_history self)) self
  else self.

Definition _update_history (H : store) (self : TrafficMonitoringSystem)
    (sensors : list addr) : TrafficMonitoringSystem :=
  fold_left (update_step H) sensors self.

Definition process_sensor_data (H : store) (self : TrafficMonitoringSystem)
    (sensors : list addr) : ProcessedData.t * TrafficMonitoringSystem :=
  let processed_data := ProcessedData.mk 0 0.0 0.0 [] in
  match sensors with
  | [] => (processed_data, self)
  | _ :: _ =>
      let total_vehicles :=
        Py.sum_int (map (fun s => TrafficSensor.vehicle_count (H s)) sensors) in
      let active_sensors :=
        List.filter (fun s => TrafficSensor.is_active (H s)) sensors in
      let processed_data :=
        match active_sensors with
        | [] => processed_data
        | _ :: _ =>
            let average_speed :=
              (Py.sum_float
                 (map (fun s => TrafficSensor.average_speed (H s)) active_sensors)
               / Py.float_of_int (Py.len active_sensors))%float in
            let avg_queue_length :=
              Py.int_truediv
                (Py.sum_int
                   (map (fun s => TrafficSensor.queue_length (H s)) active_sensors))
                (Py.len active_sensors) in
            ProcessedData.mk total_vehicles average_speed
              (Py.min 1.0 (avg_queue_length / 10.0)%float)
              (ProcessedData.anomalies processed_data)
        end in
      let '(anomalies, self) := _detect_anomalies H self sensors in
      let processed_data :=
        ProcessedData.mk (ProcessedData.total_vehicles processed_data)
          (ProcessedData.average_speed processed_data)
          (ProcessedData.congestion_level processed_data)
          anomalies in
      let self := _update_history H self sensors in
      (processed_data, self)
  end.

(** The monitor over a run of calls; each call comes with the store as it is
    at that moment. *)
Definition monitor_run (self : TrafficMonitoringSystem)
    (calls : list (store * list addr)) : TrafficMonitoringSystem :=
  fold_left (fun self c => snd (process_sensor_data (fst c) self (snd c)))
            calls self.

(* ===================================================================== *)
(** ** EmergencyManagementSystem *)
(* ===================================================================== *)

Record EmergencyManagementSystem := mkEmergency {
  active_emergencies : gmap string Vehicle.t;
  priority_routes : gmap string (list string);
  weather_impact_factors : gmap WeatherCondition float
}.

(** [__init__] *)
Definition new_emergency_system : EmergencyManagementSystem :=
  mkEmergency ∅ ∅
    (list_to_map [(CLEAR, 1.0); (RAIN, 1.2); (SNOW, 1.5); (FOG, 1.8);
                  (STORM, 2.5)]%float).

Definition set_active_emergencies (m : gmap string Vehicle.t)
    (self : EmergencyManagementSystem) : EmergencyManagementSystem :=
  mkEmergency m (priority_routes self) (weather_impact_factors self).

Definition register_emergency_vehicle (self : EmergencyManagementSystem)
    (vehicle : Vehicle.t) : bool * EmergencyManagementSystem :=
  if decide (Vehicle.emergency_level vehicle <> NONE) then
    (true,
     set_active_emergencies
       (<[Vehicle.id vehicle := vehicle]> (active_emergencies self)) self)
  else (false, self).

Definition unregister_emergency_vehicle (self : EmergencyManagementSystem)
    (vehicle_id : string) : bool * EmergencyManagementSystem :=
  match active_emergencies self !! vehicle_id with
  | Some _ =>
      (true,
       set_active_emergencies (delete vehicle_id (active_emergencies self)) self)
  | None => (false, self)
  end.

Definition priority_map : gmap EmergencyLevel Z :=
  list_to_map [(NONE, 0); (LOW, 1); (MEDIUM, 3); (HIGH, 7); (CRITICAL, 10)].

Definition calculate_priority (self : EmergencyManagementSystem)
    (vehicle : Vehicle.t) (weather : WeatherCondition) : Z :=
  let base_priority := default 0 (priority_map !! Vehicle.emergency_level vehicle) in
  let weather_factor := default 1.0%float (weather_impact_factors self !! weather) in
  let base_priority :=
    if decide (Vehicle.type vehicle = EMERGENCY)
    then base_priority + 5 else base_priority in
  Py.int_of_float (Py.float_of_int base_priority * weather_factor)%float.

(* ===================================================================== *)
(** ** Runs and sample data used by the statements below *)
(* ===================================================================== *)

(** The arguments of one call of [update_state]. *)
Record Tick := mkTick {
  tick_step : Z;
  tick_sensors : list TrafficSensor.t;
  tick_weather : WeatherCondition;
  tick_emergency : EmergencyLevel;
  tick_power_outage : bool;
  tick_scramble : bool;
  tick_rush_hour : bool
}.

Definition update_tick (self : AdvancedTrafficLight) (t : Tick)
  : AdvancedTrafficLight :=
  update_state self (tick_step t) (tick_sensors t) (tick_weather t)
    (tick_emergency t) (tick_power_outage t) (tick_scramble t)
    (tick_rush_hour t).

Definition light_run (self : AdvancedTrafficLight) (ticks : list Tick)
  : AdvancedTrafficLight :=
  fold_left update_tick ticks self.

(** [clamp(x, lo, hi)] as the source writes it: [max(lo, min(hi, x))]. *)
Definition clamp (x lo hi : float) : float := Py.max lo (Py.min hi x).

(** A sensor with the given readings and the defaults elsewhere. *)
Definition sample_sensor (sid : string) (vehicle_count queue_length : Z)
    (is_active : bool) : TrafficSensor.t :=
  TrafficSensor.mk sid (0, 0)%float vehicle_count 0 queue_length 0 is_active.

Definition sample_config : IntersectionConfig.t :=
  IntersectionConfig.default "intersection_0_0".

Definition sample_light : AdvancedTrafficLight :=
  new_light "intersection_0_0" sample_config.

(** The two moves of the adaptation factor. *)
Definition factor_up (a : float) : float :=
  (if a + 0.01 <? 2.0 then a + 0.01 else 2.0)%float.
Definition factor_down (a : float) : float :=
  (if 0.5 <? a - 0.01 then a - 0.01 else 0.5)%float.

(** The mean queue length as [_update_adaptation_factor] computes it. *)
Definition mean_queue_length (sensor_data : list TrafficSensor.t) : float :=
  Py.int_truediv (Py.sum_int (map TrafficSensor.queue_length sensor_data))
                 (Py.len sensor_data).

(** What one call makes of the factor, as a function of the factor alone. *)
Definition next_factor (a : float) (sensor_data : list TrafficSensor.t) : float :=
  match sensor_data with
  | [] => a
  | _ :: _ =>
      if (5 <? mean_queue_length sensor_data)%float then factor_up a
      else if (mean_queue_length sensor_data <? 2)%float then factor_down a
      else a
  end.

(** Membership in a list of binary64 values, bit for bit. *)
Definition float_mem (x : float) (l : list float) : bool :=
  existsb (PrimFloat.Leibniz.eqb x) l.

Definition add_new (seen_new : list float * list float) (x : float)
  : list float * list float :=
  let '(seen, new) := seen_new in
  if float_mem x seen then (seen, new) else (x :: seen, x :: new).

(** Breadth-first closure of [frontier] under the two moves. *)
Fixpoint saturate (fuel : nat) (seen frontier : list float) : list float :=
  match fuel, frontier with
  | O, _ | _, [] => seen
  | S fuel', _ :: _ =>
      let '(seen', new) :=
        fold_left add_new
          (flat_map (fun a => [factor_up a; factor_down a]) frontier)
          (seen, []) in
      saturate fuel' seen' new
  end.

(** Every value the adaptation factor takes from its initial value 1.0. *)
Definition reachable_factors : list float :=
  Eval vm_compute in saturate 1000 [1.0%float] [1.0%float].

(** The priority score in the words of the specification: a level table,
    +5 for the emergency type, a weather table with 1.0 for anything else. *)
Definition spec_base (l : EmergencyLevel) : Z :=
  match l with
  | NONE => 0 | LOW => 1 | MEDIUM => 3 | HIGH => 7 | CRITICAL => 10
  end.

Definition spec_bonus (t : VehicleType) : Z :=
  match t with EMERGENCY => 5 | _ => 0 end.

Definition spec_weather_factor (w : WeatherCondition) : float :=
  match w with
  | CLEAR => 1.0 | RAIN => 1.2 | SNOW => 1.5 | FOG => 1.8 | STORM => 2.5
  | _ => 1.0
  end.

Definition spec_priority (vehicle : Vehicle.t) (weather : WeatherCondition) : Z :=
  Py.int_of_float
    (Py.float_of_int (spec_base (Vehicle.emergency_level vehicle)
                      + spec_bonus (Vehicle.type vehicle))
     * spec_weather_factor weather)%float.

(** The weather table in tenths, for the same score over the integers. *)
Definition spec_weather_tenths (w : WeatherCondition) : Z :=
  match w with
  | CLEAR => 10 | RAIN => 12 | SNOW => 15 | FOG => 18 | STORM => 25
  | _ => 10
  end.

Definition sample_vehicle (vid : string) (type : VehicleType)
    (emergency_level : EmergencyLevel) : Vehicle.t :=
  Vehicle.mk vid type 0 (0, 0)%float (0, 0)%float 0 emergency_level UNKNOWN 0.

(** The vehicle counts [_detect_anomalies] reads for a sensor id: those of
    the last 10 objects of its history, as the store has them now. *)
Definition window_counts (H : store) (self : TrafficMonitoringSystem)
    (sid : string) : list Z :=
  map (fun s => TrafficSensor.vehicle_count (H s))
      (Py.last_n 10 (history_of self sid)).

(** The test a sensor has to pass to be reported. *)
Definition flagged (H : store) (self : TrafficMonitoringSystem) (a : addr)
  : bool :=
  let sensor := H a in
  let vehicle_counts := window_counts H self (TrafficSensor.id sensor) in
  (5 <=? length (history_of self (TrafficSensor.id sensor)))%nat
  && (0 <? Py.stdev vehicle_counts)%float
  && (anomaly_threshold self
      <? z_score (TrafficSensor.vehicle_count sensor) vehicle_counts)%float.

Definition detect_one (H : store) (self : TrafficMonitoringSystem) (a : addr)
  : list Anomaly.t :=
  if flagged H self a
  then [anomaly_record (H a) (window_counts H self (TrafficSensor.id (H a)))]
  else [].

(** Two monitor states that detection cannot tell apart. *)
Definition same_histories (self1 self2 : TrafficMonitoringSystem) : Prop :=
  anomaly_threshold self1 = anomaly_threshold self2
  /\ forall sid, history_of self1 sid = history_of self2 sid.

(** The sensors of a call that carry a given id, in order. *)
Definition arrivals (H : store) (sid : string) (sensors : list addr)
  : list addr :=
  List.filter (fun a => bool_decide (TrafficSensor.id (H a) = sid)) sensors.

Definition total_arrivals (calls : list (store * list addr)) (sid : string)
  : nat :=
  fold_right (fun c n => (length (arrivals (fst c) sid (snd c)) + n)%nat) O calls.

(** Ten sensor objects under one id: nine that count [c] vehicles, then one
    that counts [x]. *)
Definition steady_store (c x : Z) : store :=
  fun a => sample_sensor "sensor_0_0_0" (if (a <? 9)%nat then c else x) 2 true.

(** Ten sensor objects under one id: nine counting 4, 6, 4, ... vehicles,
    then one that counts 20. *)
Definition wavering_store : store :=
  fun a => sample_sensor "sensor_0_0_0"
             (if (a <? 9)%nat then (if Nat.even a then 4 else 6) else 20) 2 true.

(** One sensor object, at address 0, counting [c] vehicles at the moment. *)
Definition single_store (c : Z) : store :=
  fun _ => sample_sensor "sensor_0_0_0" c 2 true.

(** One call per object, for the objects 0 .. n-1. *)
Definition one_by_one (H : store) (n : nat) : list (store * list addr) :=
  map (fun a => (H, [a])) (seq 0 n).

(* ===================================================================== *)
(** ** Further definitions: the controller's cycle *)
(* ===================================================================== *)

(** The state that follows in the normal cycle.  FLASHING_YELLOW, left
    behind by a power outage, is handled like YELLOW; FLASHING_RED has no
    branch and stays. *)
Definition next_state (s : TrafficLightState) : TrafficLightState :=
  match s with
  | RED => PRE_GREEN
  | PRE_GREEN => GREEN
  | GREEN => YELLOW
  | YELLOW | FLASHING_YELLOW => RED
  | FLASHING_RED => FLASHING_RED
  end.

(** A tick on which an override scenario (outage or scramble) is on. *)
Definition override_tick (t : Tick) : bool :=
  tick_power_outage t || tick_scramble t.

(** The number of ticks of a run on which the light turns GREEN from
    another state. *)
Fixpoint green_entries (self : AdvancedTrafficLight) (ticks : list Tick) : Z :=
  match ticks with
  | [] => 0
  | t :: ticks' =>
      (if decide (current_state self <> GREEN
                  /\ current_state (update_tick self t) = GREEN)
       then 1 else 0)
      + green_entries (update_tick self t) ticks'
  end.

(* ===================================================================== *)
(** ** Further definitions: the emergency registry *)
(* ===================================================================== *)

(** The builtin [max(x, *xs, key=key)] on a non-empty sequence: the current
    best is replaced only by an item with a strictly greater key, so among
    equal keys the first one met wins. *)
Definition py_max_by {A} (key : A -> Z) (x : A) (xs : list A) : A :=
  fold_left (fun best y => if key best <? key y then y else best) xs x.

(** [get_highest_priority_vehicle].  A dictionary is iterated in insertion
    order, which the map does not record; [values] stands for
    [list(self.active_emergencies.values())] as the interpreter yields it. *)
Definition get_highest_priority_vehicle (self : EmergencyManagementSystem)
    (values : list Vehicle.t) : option Vehicle.t :=
  if (size (active_emergencies self) =? 0)%nat then None
  else
    match values with
    | [] => None
    | v :: vs =>
        Some (py_max_by (fun v => calculate_priority self v CLEAR) v vs)
    end.

(** [values] lists the values of the dictionary [m], each entry once. *)
Definition dict_values {V} (m : gmap string V) (values : list V) : Prop :=
  values ≡ₚ (map_to_list m).*2.

Definition set_priority_routes (r : gmap string (list string))
    (self : EmergencyManagementSystem) : EmergencyManagementSystem :=
  mkEmergency (active_emergencies self) r (weather_impact_factors self).

Definition generate_priority_route (self : EmergencyManagementSystem)
    (vehicle : Vehicle.t) (intersections : list IntersectionConfig.t)
  : list string * EmergencyManagementSystem :=
  let route := map IntersectionConfig.id (take 3 intersections) in
  (route,
   set_priority_routes (<[Vehicle.id vehicle := route]> (priority_routes self))
                       self).

(** A call on the registry. *)
Inductive RegistryCall :=
| Register (vehicle : Vehicle.t)
| Unregister (vehicle_id : string)
| Route (vehicle : Vehicle.t) (intersections : list IntersectionConfig.t).

Definition registry_call (self : EmergencyManagementSystem) (c : RegistryCall)
  : EmergencyManagementSystem :=
  match c with
  | Register vehicle => snd (register_emergency_vehicle self vehicle)
  | Unregister vehicle_id => snd (unregister_emergency_vehicle self vehicle_id)
  | Route vehicle intersections =>
      snd (generate_priority_route self vehicle intersections)
  end.

Definition registry_run (self : EmergencyManagementSystem)
    (calls : list RegistryCall) : EmergencyManagementSystem :=
  fold_left registry_call calls self.

(** What every reachable registry satisfies. *)
Definition registry_ok (self : EmergencyManagementSystem) : Prop :=
  (forall vid v, active_emergencies self !! vid = Some v ->
                 Vehicle.id v = vid /\ Vehicle.emergency_level v <> NONE)
  /\ weather_impact_factors self = weather_impact_factors new_emergency_system.

(* ===================================================================== *)
(** ** ConfigurationManager *)
(* ===================================================================== *)

(** What a configuration holds: the values JSON can express.  Only
    dictionaries are walked by [get] and [set]. *)
#[warnings="-register-all"]
Inductive ConfigValue :=
| CNone
| CBool (b : bool)
| CInt (z : Z)
| CFloat (f : float)
| CStr (s : string)
| CList (items : list ConfigValue)
| CDict (entries : gmap string ConfigValue).

Definition is_dict (v : ConfigValue) : bool :=
  match v with CDict _ => true | _ => false end.

(** [s.split('.')]: the pieces between the dots, at least one, possibly
    empty. *)
Fixpoint split_dot (s : string) : list string :=
  match s with
  | EmptyString => [EmptyString]
  | String c s' =>
      if Ascii.eqb c "."%char then EmptyString :: split_dot s'
      else
        match split_dot s' with
        | w :: ws => String c w :: ws
        | [] => [String c EmptyString]
        end
  end.

Definition DEFAULT_CONFIG : gmap string ConfigValue :=
  list_to_map
    [("system",
      CDict (list_to_map
        [("name", CStr "Advanced Traffic Control System");
         ("version", CStr "2.0.0");
         ("auto_save_interval", CInt 60);
         ("log_level", CStr "INFO")]));
     ("intersections",
      CDict (list_to_map
        [("default_green_time", CFloat 10.0);
         ("default_yellow_time", CFloat 3.0);
         ("default_pre_green_time", CFloat 1.5);
         ("default_red_time", CFloat 10.0);
         ("max_green_time", CFloat 35.0);
         ("min_green_time", CFloat 3.0);
         ("pedestrian_crossing_time", CFloat 15.0);
         ("max_cars_per_lane", CInt 4)]));
     ("sensors",
      CDict (list_to_map
        [("anomaly_threshold", CFloat 2.0);
         ("history_size", CInt 100);
         ("update_interval", CFloat 1.0)]));
     ("emergency",
      CDict (list_to_map
        [("priority_multiplier", CFloat 2.0);
         ("route_optimization", CBool true)]));
     ("reporting",
      CDict (list_to_map
        [("export_format", CStr "json");
         ("report_interval", CInt 300)]))].

Module ConfigurationManager.

(** The manager's [config] dictionary.  ([DEFAULT_CONFIG.copy()] is a
    shallow copy: the section dictionaries are shared with the module-level
    default; a manager on its own behaves as the tree below.) *)
Record t := mk { config : gmap string ConfigValue }.

(** The loop of [get]: a missing key yields [default] and the walk goes on
    from there; a value that is no dictionary ends it with [default]. *)
Fixpoint get_loop (value : ConfigValue) (keys : list string)
    (default : ConfigValue) : ConfigValue :=
  match keys with
  | [] => value
  | key :: keys' =>
      match value with
      | CDict m => get_loop (from_option id default (m !! key)) keys' default
      | _ => default
      end
  end.

Definition get (self : t) (key_path : string) (default : ConfigValue)
  : ConfigValue :=
  get_loop (CDict (config self)) (split_dot key_path) default.

(** The loop of [set] and the final assignment.  Missing dictionaries are
    created on the way; a value on the way that is no dictionary raises
    TypeError, before anything was written: [None]. *)
Fixpoint set_loop (config : ConfigValue) (keys : list string)
    (value : ConfigValue) : option ConfigValue :=
  match config, keys with
  | CDict m, [key] => Some (CDict (<[key := value]> m))
  | CDict m, key :: (_ :: _) as keys' =>
      match set_loop (from_option id (CDict ∅) (m !! key)) keys' value with
      | Some child => Some (CDict (<[key := child]> m))
      | None => None
      end
  | _, _ => None
  end.

Definition set (self : t) (key_path : string) (value : ConfigValue)
  : option t :=
  match set_loop (CDict (config self)) (split_dot key_path) value with
  | Some (CDict m) => Some (mk m)
  | _ => None
  end.

(** [load_config] for a file that holds a JSON object: [update] replaces
    the top-level entries the file names and keeps the others. *)
Definition load_config (self : t) (loaded_config : gmap string ConfigValue)
  : t :=
  mk (loaded_config ∪ config self).

(** [__init__], with the object of the configuration file if there is
    one. *)
Definition new (loaded_config : option (gmap string ConfigValue)) : t :=
  let self := mk DEFAULT_CONFIG in
  match loaded_config with
  | Some m => load_config self m
  | None => self
  end.

End ConfigurationManager.

(** The value found by following [keys] strictly, if every step is a key
    of a dictionary. *)
Fixpoint lookup_path (value : ConfigValue) (keys : list string)
  : option ConfigValue :=
  match keys with
  | [] => Some value
  | key :: keys' =>
      match value with
      | CDict m =>
          match m !! key with
          | Some child => lookup_path child keys'
          | None => None
          end
      | _ => None
      end
  end.


(* ===================================================================== *)
(** ** PerformanceMonitor *)
(* ===================================================================== *)

(** [statistics.mean] on a list of [float]s: the exact sum of the values,
    divided by their number and rounded once.  Values that are not finite
    are summed as floats and take over the result. *)
Definition exact_ratio (f : float) : option (Z * Z) :=
  match Prim2SF f with
  | S754_zero _ => Some (0, 0)
  | S754_finite s m e =>
      let v := if s then Zneg m else Zpos m in
      if 0 <=? e then Some (v * 2 ^ e, 0) else Some (v, - e)
  | _ => None
  end.

(** [a / 2^i + b / 2^j] as a numerator over a power of two. *)
Definition add_ratio (x y : Z * Z) : Z * Z :=
  let '(a, i) := x in
  let '(b, j) := y in
  if i <=? j then (a * 2 ^ (j - i) + b, j) else (a + b * 2 ^ (i - j), i).

Definition has_ratio (f : float) : bool :=
  match exact_ratio f with Some _ => true | None => false end.

Definition mean_float (xs : list float) : float :=
  let not_finite := List.filter (fun x => negb (has_ratio x)) xs in
  match not_finite with
  | _ :: _ => (Py.sum_float not_finite / Py.float_of_int (Py.len xs))%float
  | [] =>
      let '(total, k) :=
        fold_left (fun acc x =>
                     match exact_ratio x with
                     | Some r => add_ratio acc r
                     | None => acc
                     end) xs (0, 0) in
      Py.int_truediv total (Py.len xs * 2 ^ k)
  end.

#[global] Instance num_inhabited : Inhabited Py.num := populate (Py.Int 0).

(** [n + k] and [n > m] on values that are [int] or [float]; an [int] and
    a [float] are compared exactly. *)
Definition num_add_int (n : Py.num) (k : Z) : Py.num :=
  match n with
  | Py.Int z => Py.Int (z + k)
  | Py.Float f => Py.Float (f + Py.float_of_int k)
  end.

Definition int_gt_float (z : Z) (f : float) : bool :=
  match Prim2SF f with
  | S754_nan => false
  | S754_infinity s => s
  | S754_zero _ => 0 <? z
  | S754_finite s m e =>
      let v := if s then Zneg m else Zpos m in
      if 0 <=? e then v * 2 ^ e <? z else v <? z * 2 ^ (- e)
  end.

Definition float_gt_int (f : float) (z : Z) : bool :=
  match Prim2SF f with
  | S754_nan => false
  | S754_infinity s => negb s
  | S754_zero _ => z <? 0
  | S754_finite s m e =>
      let v := if s then Zneg m else Zpos m in
      if 0 <=? e then z <? v * 2 ^ e else z * 2 ^ (- e) <? v
  end.

Definition num_gt (a b : Py.num) : bool :=
  match a, b with
  | Py.Int x, Py.Int y => y <? x
  | Py.Float x, Py.Float y => (y <? x)%float
  | Py.Int x, Py.Float y => int_gt_float x y
  | Py.Float x, Py.Int y => float_gt_int x y
  end.

Module PerformanceMonitor.

(** [start_time] and every other [datetime] count microseconds. *)
Record t := mk {
  metrics : gmap string Py.num;
  start_time : datetime;
  step_times : list float
}.

(** [__init__], at the moment [now]. *)
Definition new (now : datetime) : t :=
  mk (list_to_map
        [("total_steps", Py.Int 0);
         ("total_vehicles_processed", Py.Int 0);
         ("emergency_responses", Py.Int 0);
         ("anomalies_detected", Py.Int 0);
         ("average_response_time", Py.Float 0.0);
         ("system_uptime", Py.Float 0.0)])
     now [].

(** [self.metrics['total_steps'] += 1] acts on a key that is always there:
    no method adds or removes a key. *)
Definition track_step (self : t) (step_duration : float) : t :=
  let step_times := step_times self ++ [step_duration] in
  let step_times :=
    if (1000 <? length step_times)%nat then Py.last_n 1000 step_times
    else step_times in
  mk (alter (fun n => num_add_int n 1) "total_steps" (metrics self))
     (start_time self) step_times.

Definition update_metric (self : t) (metric_name : string) (value : Py.num) : t :=
  match metrics self !! metric_name with
  | Some _ =>
      mk (<[metric_name := value]> (metrics self)) (start_time self)
         (step_times self)
  | None => self
  end.

Definition increment_metric (self : t) (metric_name : string) (amount : Z) : t :=
  match metrics self !! metric_name with
  | Some n =>
      mk (<[metric_name := num_add_int n amount]> (metrics self))
         (start_time self) (step_times self)
  | None => self
  end.

(** [get_metrics_summary], called at the moment [now]. *)
Definition get_metrics_summary (self : t) (now : datetime)
  : gmap string Py.num :=
  let uptime := Py.int_truediv (now - start_time self) 1000000 in
  let avg_step_time :=
    match step_times self with
    | [] => Py.Int 0
    | _ :: _ => Py.Float (mean_float (step_times self))
    end in
  <["steps_per_second" :=
      if (0 <? uptime)%float
      then Py.Float (Py.to_float (metrics self !!! "total_steps") / uptime)
      else Py.Int 0]>
    (<["average_step_time" := avg_step_time]>
       (<["system_uptime" := Py.Float uptime]> (metrics self))).

(** [check_system_health]: the status and the list of issues. *)
Definition check_system_health (self : t) (now : datetime)
  : string * list string :=
  let metrics := get_metrics_summary self now in
  let health_status := ("HEALTHY", []) in
  let health_status :=
    if num_gt (metrics !!! "average_step_time") (Py.Float 1.0)
    then ("WARNING", snd health_status ++ ["High step execution time"])
    else health_status in
  if num_gt (metrics !!! "anomalies_detected") (Py.Int 100)
  then ("WARNING", snd health_status ++ ["High anomaly count"])
  else health_status.

End PerformanceMonitor.

(* ===================================================================== *)
(** ** InteractiveTrafficControlSystem *)
(* ===================================================================== *)

Module Scenario.
Inductive t :=
| DAY | NIGHT | RUSH_HOUR | HEAVY_RAIN | SNOW_BLIZZARD | DENSE_FOG
| POWER_OUTAGE | PEDESTRIAN_SCRAMBLE.
End Scenario.

Module SystemStatus.
Inductive t := NORMAL | MAINTENANCE | EMERGENCY | FAILURE.
End SystemStatus.

#[global] Instance Scenario_eq_dec : EqDecision Scenario.t.
Proof. solve_decision. Defined.
#[global] Instance SystemStatus_eq_dec : EqDecision SystemStatus.t.
Proof. solve_decision. Defined.

(** A dictionary whose iteration order matters: the entries in insertion
    order.  Assigning to a key that is present keeps its place. *)
Definition odict (V : Type) := list (string * V).

Fixpoint odict_set {V} (d : odict V) (k : string) (v : V) : odict V :=
  match d with
  | [] => [(k, v)]
  | (k', v') :: d' =>
      if decide (k' = k) then (k, v) :: d' else (k', v') :: odict_set d' k v
  end.

Fixpoint odict_get {V} (d : odict V) (k : string) : option V :=
  match d with
  | [] => None
  | (k', v') :: d' => if decide (k' = k) then Some v' else odict_get d' k
  end.

Definition odict_values {V} (d : odict V) : list V := map snd d.

(** Writing to a sensor object. *)
Definition store_set (H : store) (a : addr) (s : TrafficSensor.t) : store :=
  fun b => if (b =? a)%nat then s else H b.

Module IntersectionState.
Record t := mk {
  state : TrafficLightState;
  duration : Z;
  cycle_count : Z
}.
End IntersectionState.

(** The dictionary returned by [process_step]. *)
Module StepInfo.
Record t := mk {
  step : Z;
  timestamp : datetime;
  system_status : SystemStatus.t;
  weather : WeatherCondition;
  analytics : ProcessedData.t;
  intersection_states : odict IntersectionState.t;
  active_emergencies : Z
}.
End StepInfo.

(** The dictionary returned by [get_system_status]. *)
Module StatusReport.
Record t := mk {
  step : Z;
  system_status : SystemStatus.t;
  weather : WeatherCondition;
  analytics : ProcessedData.t;
  intersection_count : Z;
  sensor_count : Z;
  active_emergencies : Z;
  performance : gmap string Py.num;
  health : string * list string
}.
End StatusReport.

(** The dictionary returned by [handle_emergency_vehicle]; the keys that a
    failure does not set are [None]. *)
Module EmergencyResult.
Record t := mk {
  success : bool;
  vehicle_id : option string;
  priority : option Z;
  route : option (list string);
  message : string
}.
End EmergencyResult.

(** What the world supplies to one call of [process_step]: the two clock
    readings, the random draws and the timestamp for the i-th sensor in
    iteration order, the timestamp of the step, and the registry's values in
    iteration order. *)
Module StepEnv.
Record t := mk {
  clock_start : float;
  clock_end : float;
  draw : nat -> Z * float * Z;
  sensor_now : nat -> datetime;
  step_now : datetime;
  emergency_values : list Vehicle.t
}.
End StepEnv.

Module TrafficSystem.

(** The attributes of [InteractiveTrafficControlSystem].  The logging,
    persistence and report managers only write to files and are left out.
    Sensors are held by address, in a store that the functions thread. *)
Record t := mk {
  config_manager : ConfigurationManager.t;
  performance_monitor : PerformanceMonitor.t;
  intersections : odict AdvancedTrafficLight;
  sensors : odict addr;
  monitoring_system : TrafficMonitoringSystem;
  emergency_system : EmergencyManagementSystem;
  system_status : SystemStatus.t;
  current_weather : WeatherCondition;
  current_scenario : Scenario.t;
  power_outage : bool;
  is_rush_hour : bool;
  is_pedestrian_scramble : bool;
  current_step : Z;
  step_log : list StepInfo.t
}.

(** [__init__], with the configuration manager to use and the moment the
    performance monitor is created. *)
Definition new (config_manager : ConfigurationManager.t) (now : datetime) : t :=
  mk config_manager (PerformanceMonitor.new now) [] [] new_monitor
     new_emergency_system SystemStatus.NORMAL CLEAR Scenario.DAY
     false false false 0 [].

Definition set_performance_monitor (p : PerformanceMonitor.t) (self : t) : t :=
  mk (config_manager self) p (intersections self) (sensors self)
     (monitoring_system self) (emergency_system self) (system_status self)
     (current_weather self) (current_scenario self) (power_outage self)
     (is_rush_hour self) (is_pedestrian_scramble self) (current_step self)
     (step_log self).

Definition set_intersections (d : odict AdvancedTrafficLight) (self : t) : t :=
  mk (config_manager self) (performance_monitor self) d (sensors self)
     (monitoring_system self) (emergency_system self) (system_status self)
     (current_weather self) (current_scenario self) (power_outage self)
     (is_rush_hour self) (is_pedestrian_scramble self) (current_step self)
     (step_log self).

Definition set_sensors (d : odict addr) (self : t) : t :=
  mk (config_manager self) (performance_monitor self) (intersections self) d
     (monitoring_system self) (emergency_system self) (system_status self)
     (current_weather self) (current_scenario self) (power_outage self)
     (is_rush_hour self) (is_pedestrian_scramble self) (current_step self)
     (step_log self).

Definition set_monitoring_system (m : TrafficMonitoringSystem) (self : t) : t :=
  mk (config_manager self) (performance_monitor self) (intersections self)
     (sensors self) m (emergency_system self) (system_status self)
     (current_weather self) (current_scenario self) (power_outage self)
     (is_rush_hour self) (is_pedestrian_scramble self) (current_step self)
     (step_log self).

Definition set_emergency_system (e : EmergencyManagementSystem) (self : t) : t :=
  mk (config_manager self) (performance_monitor self) (intersections self)
     (sensors self) (monitoring_system self) e (system_status self)
     (current_weather self) (current_scenario self) (power_outage self)
     (is_rush_hour self) (is_pedestrian_scramble self) (current_step self)
     (step_log self).

Definition set_current_weather (w : WeatherCondition) (self : t) : t :=
  mk (config_manager self) (performance_monitor self) (intersections self)
     (sensors self) (monitoring_system self) (emergency_system self)
     (system_status self) w (current_scenario self) (power_outage self)
     (is_rush_hour self) (is_pedestrian_scramble self) (current_step self)
     (step_log self).

Definition set_system_status (st : SystemStatus.t) (self : t) : t :=
  mk (config_manager self) (performance_monitor self) (intersections self)
     (sensors self) (monitoring_system self) (emergency_system self) st
     (current_weather self) (current_scenario self) (power_outage self)
     (is_rush_hour self) (is_pedestrian_scramble self) (current_step self)
     (step_log self).

Definition set_config_manager (c : ConfigurationManager.t) (self : t) : t :=
  mk c (performance_monitor self) (intersections self)
     (sensors self) (monitoring_system self) (emergency_system self)
     (system_status self) (current_weather self) (current_scenario self)
     (power_outage self) (is_rush_hour self) (is_pedestrian_scramble self)
     (current_step self) (step_log self).

(** The four assignments that open [load_scenario]. *)
Definition set_scenario (s : Scenario.t) (outage rush scramble : bool)
    (self : t) : t :=
  mk (config_manager self) (performance_monitor self) (intersections self)
     (sensors self) (monitoring_system self) (emergency_system self)
     (system_status self) (current_weather self) s outage rush scramble
     (current_step self) (step_log self).

Definition set_current_step (n : Z) (self : t) : t :=
  mk (config_manager self) (performance_monitor self) (intersections self)
     (sensors self) (monitoring_system self) (emergency_system self)
     (system_status self) (current_weather self) (current_scenario self)
     (power_outage self) (is_rush_hour self) (is_pedestrian_scramble self)
     n (step_log self).

Definition set_step_log (l : list StepInfo.t) (self : t) : t :=
  mk (config_manager self) (performance_monitor self) (intersections self)
     (sensors self) (monitoring_system self) (emergency_system self)
     (system_status self) (current_weather self) (current_scenario self)
     (power_outage self) (is_rush_hour self) (is_pedestrian_scramble self)
     (current_step self) l.

Definition add_intersection (self : t) (config : IntersectionConfig.t) : t :=
  let traffic_light := new_light (IntersectionConfig.id config) config in
  set_intersections
    (odict_set (intersections self) (IntersectionConfig.id config) traffic_light)
    self.

(** [add_sensor], for the sensor object at address [sensor]. *)
Definition add_sensor (H : store) (self : t) (sensor : addr) : t :=
  set_sensors (odict_set (sensors self) (TrafficSensor.id (H sensor)) sensor) self.

Definition update_weather (self : t) (weather : WeatherCondition) : t :=
  set_current_weather weather self.

(** [load_scenario].  [config_manager.set] can raise; the call then ends
    there, with the scenario and its three flags already written: the
    result is flagged [false]. *)
Definition load_scenario (self : t) (scenario : Scenario.t) : bool * t :=
  let self :=
    set_scenario scenario
      (bool_decide (scenario = Scenario.POWER_OUTAGE))
      (bool_decide (scenario = Scenario.RUSH_HOUR))
      (bool_decide (scenario = Scenario.PEDESTRIAN_SCRAMBLE)) self in
  (* Adjust configuration based on scenario *)
  match ConfigurationManager.set (config_manager self)
          "intersections.max_cars_per_lane"
          (CInt (if is_rush_hour self then 8 else 4)) with
  | None => (false, self)
  | Some config_manager =>
      let self := set_config_manager config_manager self in
      let self :=
        set_current_weather
          (match scenario with
           | Scenario.HEAVY_RAIN => RAIN
           | Scenario.SNOW_BLIZZARD => SNOW
           | Scenario.DENSE_FOG => FOG
           | Scenario.NIGHT => NIGHT
           | _ => CLEAR
           end) self in
      let self :=
        set_system_status
          (if power_outage self then SystemStatus.FAILURE
           else SystemStatus.NORMAL) self in
      (true, self)
  end.

Definition get_all_sensors (self : t) : list addr := odict_values (sensors self).

Definition get_intersection (self : t) (intersection_id : string)
  : option AdvancedTrafficLight :=
  odict_get (intersections self) intersection_id.

(** The loop that perturbs the sensors, from the i-th on. *)
Fixpoint perturb_sensors (env : StepEnv.t) (H : store) (sensors : list addr)
    (i : nat) : store :=
  match sensors with
  | [] => H
  | a :: sensors' =>
      let sensor := H a in
      let '(dv, ds, dq) := StepEnv.draw env i in
      let sensor :=
        TrafficSensor.mk (TrafficSensor.id sensor)
          (TrafficSensor.position sensor)
          (Z.max 0 (TrafficSensor.vehicle_count sensor + dv))
          (Py.max 5.0 (Py.min 80.0 (TrafficSensor.average_speed sensor + ds)%float))
          (Z.max 0 (Z.min 20 (TrafficSensor.queue_length sensor + dq)))
          (StepEnv.sensor_now env i)
          (TrafficSensor.is_active sensor) in
      perturb_sensors env (store_set H a sensor) sensors' (S i)
  end.

Definition process_step (env : StepEnv.t) (H : store) (self : t)
  : StepInfo.t * store * t :=
  let step_start := StepEnv.clock_start env in
  let self := set_current_step (current_step self + 1) self in
  (* Update sensors *)
  let H := perturb_sensors env H (odict_values (sensors self)) 0 in
  let sensors := get_all_sensors self in
  let '(analytics, monitoring) :=
    process_sensor_data H (monitoring_system self) sensors in
  let self := set_monitoring_system monitoring self in
  let priority_vehicle :=
    get_highest_priority_vehicle (emergency_system self)
      (StepEnv.emergency_values env) in
  let emergency_level :=
    match priority_vehicle with
    | Some v => Vehicle.emergency_level v
    | None => NONE
    end in
  (* Update intersections *)
  let self :=
    set_intersections
      (map (fun '(iid, intersection) =>
              (iid, update_state intersection (current_step self)
                      (map H sensors) (current_weather self) emergency_level
                      (power_outage self) (is_pedestrian_scramble self)
                      (is_rush_hour self)))
           (intersections self)) self in
  (* Update metrics *)
  let monitor :=
    PerformanceMonitor.update_metric (performance_monitor self)
      "total_vehicles_processed"
      (Py.Int (ProcessedData.total_vehicles analytics)) in
  let monitor :=
    match ProcessedData.anomalies analytics with
    | [] => monitor
    | _ :: _ =>
        PerformanceMonitor.increment_metric monitor "anomalies_detected"
          (Py.len (ProcessedData.anomalies analytics))
    end in
  let self := set_performance_monitor monitor self in
  let step_info :=
    StepInfo.mk (current_step self) (StepEnv.step_now env)
      (system_status self) (current_weather self) analytics
      (map (fun '(iid, light) =>
              (iid, IntersectionState.mk (current_state light)
                      (get_current_state_duration light (current_step self))
                      (cycle_count light)))
           (intersections self))
      (Z.of_nat (size (active_emergencies (emergency_system self)))) in
  let step_log := step_log self ++ [step_info] in
  let step_log :=
    if (1000 <? length step_log)%nat then Py.last_n 1000 step_log
    else step_log in
  let self := set_step_log step_log self in
  let step_duration := (StepEnv.clock_end env - step_start)%float in
  let self :=
    set_performance_monitor
      (PerformanceMonitor.track_step (performance_monitor self) step_duration)
      self in
  (step_info, H, self).

(** [handle_emergency_vehicle].  The vehicle object is the one the registry
    holds, so the priority written to it at the end shows in the registry
    entry. *)
Definition handle_emergency_vehicle (self : t) (vehicle : Vehicle.t)
  : EmergencyResult.t * t :=
  let '(registered, emergency) :=
    register_emergency_vehicle (emergency_system self) vehicle in
  if negb registered then
    (EmergencyResult.mk false None None None
       "Vehicle is not an emergency vehicle", self)
  else
    let priority := calculate_priority emergency vehicle (current_weather self) in
    let config_list := map config (odict_values (intersections self)) in
    let '(route, emergency) :=
      generate_priority_route emergency vehicle config_list in
    let vehicle :=
      Vehicle.mk (Vehicle.id vehicle) (Vehicle.type vehicle)
        (Vehicle.speed vehicle) (Vehicle.position vehicle)
        (Vehicle.destination vehicle) priority
        (Vehicle.emergency_level vehicle) (Vehicle.direction vehicle)
        (Vehicle.timestamp vehicle) in
    let emergency :=
      set_active_emergencies
        (<[Vehicle.id vehicle := vehicle]> (active_emergencies emergency))
        emergency in
    let self := set_emergency_system emergency self in
    let self :=
      set_performance_monitor
        (PerformanceMonitor.increment_metric (performance_monitor self)
           "emergency_responses" 1) self in
    (EmergencyResult.mk true (Some (Vehicle.id vehicle)) (Some priority)
       (Some route)
       ("Emergency vehicle " +:+ Vehicle.id vehicle
        +:+ " registered with priority " +:+ pretty priority),
     self).

(** [get_system_status], with the two moments at which the performance
    summary and the health check read the clock. *)
Definition get_system_status (now1 now2 : datetime) (H : store) (self : t)
  : StatusReport.t * t :=
  let sensors := get_all_sensors self in
  let '(analytics, monitoring) :=
    process_sensor_data H (monitoring_system self) sensors in
  let self := set_monitoring_system monitoring self in
  let performance :=
    PerformanceMonitor.get_metrics_summary (performance_monitor self) now1 in
  let health :=
    PerformanceMonitor.check_system_health (performance_monitor self) now2 in
  (StatusReport.mk (current_step self) (system_status self)
     (current_weather self) analytics
     (Py.len (intersections self)) (Py.len sensors)
     (Z.of_nat (size (active_emergencies (emergency_system self))))
     performance health,
   self).

End TrafficSystem.

(** *** The system over a run of calls *)

(** A call of the orchestrator's interface. *)
Inductive SystemCall :=
| AddIntersection (config : IntersectionConfig.t)
| AddSensor (sensor : addr)
| UpdateWeather (weather : WeatherCondition)
| LoadScenario (scenario : Scenario.t)
| ProcessStep (env : StepEnv.t)
| HandleEmergencyVehicle (vehicle : Vehicle.t)
| GetSystemStatus (now1 now2 : datetime).

(** One call, on the store of sensor objects and the system.  Between the
    calls nobody else writes to the sensor objects; a [load_scenario] that
    raises leaves what it had written by then. *)
Definition system_call (st : store * TrafficSystem.t) (c : SystemCall)
  : store * TrafficSystem.t :=
  let '(H, self) := st in
  match c with
  | AddIntersection config => (H, TrafficSystem.add_intersection self config)
  | AddSensor sensor => (H, TrafficSystem.add_sensor H self sensor)
  | UpdateWeather weather => (H, TrafficSystem.update_weather self weather)
  | LoadScenario scenario => (H, snd (TrafficSystem.load_scenario self scenario))
  | ProcessStep env =>
      let '(_, H, self) := TrafficSystem.process_step env H self in (H, self)
  | HandleEmergencyVehicle vehicle =>
      (H, snd (TrafficSystem.handle_emergency_vehicle self vehicle))
  | GetSystemStatus now1 now2 =>
      (H, snd (TrafficSystem.get_system_status now1 now2 H self))
  end.

Definition system_run (st : store * TrafficSystem.t) (calls : list SystemCall)
  : store * TrafficSystem.t :=
  fold_left system_call calls st.

(** The sensor objects a run adds, and the number of its steps. *)
Definition added_sensors (calls : list SystemCall) : list addr :=
  flat_map (fun c => match c with AddSensor a => [a] | _ => [] end) calls.

Definition steps_of (calls : list SystemCall) : nat :=
  length (List.filter (fun c => match c with ProcessStep _ => true | _ => false end)
                      calls).

(** The ranges [process_step] keeps the readings of a sensor in. *)
Definition sensor_in_range (s : TrafficSensor.t) : Prop :=
  0 <= TrafficSensor.vehicle_count s
  /\ (5.0 <=? TrafficSensor.average_speed s)%float = true
  /\ (TrafficSensor.average_speed s <=? 80.0)%float = true
  /\ 0 <= TrafficSensor.queue_length s <= 20.

(** A store with a sensor at address 0 and one at address 1. *)
Definition two_sensor_store : store :=
  fun a => if (a =? 0)%nat then sample_sensor "sensor_0_0_0" 12 3 true
           else sample_sensor "sensor_0_0_1" 7 25 true.

(** A step's inputs: the same draw for every sensor, no emergency. *)
Definition sample_env (dv : Z) (ds : float) (dq : Z) : StepEnv.t :=
  StepEnv.mk 100.0 100.5 (fun _ => (dv, ds, dq)) (fun _ => 0) 0 [].

Definition sample_system : TrafficSystem.t :=
  TrafficSystem.new (ConfigurationManager.new None) 0.

(** What holds of the sensor objects [S] in every state a run reaches when
    no two of them share an id: the system's sensors are among them, every
    history holds only objects of its own id, no logged step reported an
    anomaly and the anomaly counter is still 0. *)
Definition quiet (S : list addr) (st : store * TrafficSystem.t) : Prop :=
  let '(H, self) := st in
  (forall a b, In a S -> In b S ->
               TrafficSensor.id (H a) = TrafficSensor.id (H b) -> a = b)
  /\ (forall a, In a (TrafficSystem.get_all_sensors self) -> In a S)
  /\ (forall sid b,
        In b (history_of (TrafficSystem.monitoring_system self) sid) ->
        In b S /\ TrafficSensor.id (H b) = sid)
  /\ (forall info, In info (TrafficSystem.step_log self) ->
                   ProcessedData.anomalies (StepInfo.analytics info) = [])
  /\ PerformanceMonitor.metrics (TrafficSystem.performance_monitor self)
       !! "anomalies_detected" = Some (Py.Int 0).

(** The values [process_step] gets from the registry are the registry's. *)
Definition env_ok (self : TrafficSystem.t) (env : StepEnv.t) : Prop :=
  dict_values (active_emergencies (TrafficSystem.emergency_system self))
              (StepEnv.emergency_values env).

(** The books of a system that has made [k] steps: the step number, the
    step counter of the performance monitor, the step numbers in the log and
    the number of durations kept. *)
Definition bookkeeping (k : nat) (self : TrafficSystem.t) : Prop :=
  TrafficSystem.current_step self = Z.of_nat k
  /\ PerformanceMonitor.metrics (TrafficSystem.performance_monitor self)
       !! "total_steps" = Some (Py.Int (Z.of_nat k))
  /\ map StepInfo.step (TrafficSystem.step_log self)
     = Py.last_n 1000 (map Z.of_nat (seq 1 k))
  /\ length (PerformanceMonitor.step_times
               (TrafficSystem.performance_monitor self)) = Nat.min k 1000.

(* ===================================================================== *)
(** ** Order facts on binary64 *)
(* ===================================================================== *)

Create HintDb float_order discriminated.

Section FloatOrder.

Local Open Scope float_scope.

Lemma SFcompare_refl_not_Lt (x : spec_float) : SFcompare x x <> Some Lt.
Proof.
  destruct x as [s| s | | s m e]; simpl; try destruct s; try discriminate.
  - rewrite Z.compare_refl, Pos.compare_cont_refl. discriminate.
  - rewrite Z.compare_refl, Pos.compare_cont_refl. discriminate.
Qed.

Lemma SFcompare_refl_Eq (x y : spec_float) (c : comparison) :
  SFcompare x y = Some c -> SFcompare x x = Some Eq /\ SFcompare y y = Some Eq.
Proof.
  destruct x as [s| s | | s m e], y as [s'| s' | | s' m' e']; simpl;
    try discriminate; intros _; split;
    repeat match goal with b : bool |- _ => destruct b end;
    rewrite ?Z.compare_refl, ?Pos.compare_cont_refl; reflexivity.
Qed.

Lemma ltb_irrefl (x : float) : (x <? x) = false.
Proof.
  rewrite ltb_spec. unfold SFltb.
  pose proof (SFcompare_refl_not_Lt (Prim2SF x)).
  destruct (SFcompare _ _) as [[]|]; congruence.
Qed.

Lemma ltb_leb (x y : float) : (x <? y) = true -> (x <=? y) = true.
Proof.
  rewrite ltb_spec, leb_spec. unfold SFltb, SFleb.
  destruct (SFcompare _ _) as [[]|]; congruence.
Qed.

#[local] Hint Resolve ltb_leb : float_order.

Lemma leb_refl_of_leb (x y : float) :
  (x <=? y) = true -> (x <=? x) = true /\ (y <=? y) = true.
Proof.
  rewrite !leb_spec. unfold SFleb. intros Hxy.
  destruct (SFcompare (Prim2SF x) (Prim2SF y)) as [c|] eqn:E; [|discriminate].
  destruct (SFcompare_refl_Eq _ _ _ E) as [-> ->]. auto.
Qed.

(** Clamping between ordered bounds lands between them, whatever the
    value, not-a-number included. *)
Lemma clamp_bounds (x lo hi : float) :
  (lo <=? hi) = true ->
  (lo <=? clamp x lo hi) = true /\ (clamp x lo hi <=? hi) = true.
Proof.
  intros Hb. destruct (leb_refl_of_leb _ _ Hb) as [Hlo Hhi].
  unfold clamp, Py.max, Py.min.
  destruct (x <? hi) eqn:Ex.
  - destruct (lo <? x) eqn:El; auto with float_order.
  - destruct (lo <? hi) eqn:El; auto with float_order.
Qed.

(** Clamping a bound to itself gives it back, on every pair of bounds. *)
Lemma clamp_lower (lo hi : float) : clamp lo lo hi = lo.
Proof.
  unfold clamp, Py.max, Py.min.
  destruct (lo <? hi) eqn:E.
  - now rewrite ltb_irrefl.
  - now rewrite E.
Qed.

End FloatOrder.

(** Two binary64 values that the comparison tells apart are different. *)
Lemma float_neq (x y : float) : (x =? y)%float = false -> (x =? x)%float = true -> x <> y.
Proof. intros Hxy Hxx ->. congruence. Qed.

(* ===================================================================== *)
(** ** AdvancedTrafficLight: timing *)
(* ===================================================================== *)

Lemma calculate_optimal_timing_green_clamped self sensor_data weather
    emergency_level is_rush_hour is_night :
  exists x,
    green (fst (calculate_optimal_timing self sensor_data weather
                  emergency_level is_rush_hour is_night))
    = clamp x (IntersectionConfig.min_green_time (config self))
              (IntersectionConfig.max_green_time (config self)).
Proof.
  unfold calculate_optimal_timing.
  destruct (decide (emergency_level <> NONE)); simpl;
    destruct sensor_data; simpl; eexists; reflexivity.
Qed.

(** C1 (the code departs from the claim).  With an emergency level other
    than NONE and one sensor counting 4 vehicles, the green duration is the
    density value 3.0 + 4 * 3.5 = 17.0 and not [min_green_time] = 10.0: the
    assignment made for the emergency is overwritten by the density block. *)
Theorem calculate_optimal_timing_emergency_overwritten :
  let r := calculate_optimal_timing sample_light
             [sample_sensor "sensor_0_0_0" 4 0 true] CLEAR HIGH false false in
  green (fst r) = 17%float
  /\ IntersectionConfig.min_green_time (config sample_light) = 10%float
  /\ green (fst r) <> IntersectionConfig.min_green_time (config sample_light)
  /\ emergency_active (snd r) = true.
Proof.
  vm_compute. repeat split. apply float_neq; reflexivity.
Qed.

(** With sensors the emergency level has no say in the green duration. *)
Lemma calculate_optimal_timing_emergency_ignored self sensor others weather
    emergency_level is_rush_hour is_night :
  green (fst (calculate_optimal_timing self (sensor :: others) weather
                emergency_level is_rush_hour is_night))
  = green (fst (calculate_optimal_timing self (sensor :: others) weather
                  NONE is_rush_hour is_night)).
Proof.
  unfold calculate_optimal_timing.
  destruct (decide (emergency_level <> NONE)); reflexivity.
Qed.

(** With no sensors the emergency value survives: the green duration is
    exactly [min_green_time]. *)
Lemma calculate_optimal_timing_emergency_no_sensors self weather
    emergency_level is_rush_hour is_night :
  emergency_level <> NONE ->
  green (fst (calculate_optimal_timing self [] weather emergency_level
                is_rush_hour is_night))
  = IntersectionConfig.min_green_time (config self).
Proof.
  intros He. unfold calculate_optimal_timing.
  destruct (decide (emergency_level <> NONE)); [|contradiction].
  simpl. apply clamp_lower.
Qed.

(** C2 (as amended).  With an empty sensor list and no emergency, the
    density block is skipped as a whole, weather bonus included: the green
    duration is the configured default, clamped into the bounds. *)
Theorem calculate_optimal_timing_no_sensors self weather is_rush_hour is_night :
  green (fst (calculate_optimal_timing self [] weather NONE
                is_rush_hour is_night))
  = clamp (IntersectionConfig.default_green_time (config self))
          (IntersectionConfig.min_green_time (config self))
          (IntersectionConfig.max_green_time (config self)).
Proof. reflexivity. Qed.

(** C2 (as stated) fails: with the default configuration, no sensors, no
    emergency and RAIN the green duration is 30.0, while clamping
    3.0 + 4.0 = 7.0 into [10.0, 60.0] gives 10.0. *)
Lemma calculate_optimal_timing_no_sensors_rain_not_7 :
  green (fst (calculate_optimal_timing sample_light [] RAIN NONE false false))
    = 30%float
  /\ clamp (3.0 + 4.0)%float
        (IntersectionConfig.min_green_time (config sample_light))
        (IntersectionConfig.max_green_time (config sample_light)) = 10%float
  /\ green (fst (calculate_optimal_timing sample_light [] RAIN NONE false false))
     <> clamp (3.0 + 4.0)%float
          (IntersectionConfig.min_green_time (config sample_light))
          (IntersectionConfig.max_green_time (config sample_light)).
Proof.
  vm_compute. repeat split. apply float_neq; reflexivity.
Qed.

(** C8.  When the configured bounds are ordered, the green duration
    returned by [calculate_optimal_timing] lies between them, for every
    sensor list, weather, emergency level, rush-hour and night flag. *)
Theorem calculate_optimal_timing_green_bounds self sensor_data weather
    emergency_level is_rush_hour is_night :
  (IntersectionConfig.min_green_time (config self)
   <=? IntersectionConfig.max_green_time (config self))%float = true ->
  let g := green (fst (calculate_optimal_timing self sensor_data weather
                         emergency_level is_rush_hour is_night)) in
  (IntersectionConfig.min_green_time (config self) <=? g)%float = true
  /\ (g <=? IntersectionConfig.max_green_time (config self))%float = true.
Proof.
  intros Hb g. subst g.
  destruct (calculate_optimal_timing_green_clamped self sensor_data weather
              emergency_level is_rush_hour is_night) as [x ->].
  now apply clamp_bounds.
Qed.

Lemma calculate_optimal_timing_green_bounds_witness :
  let g := green (fst (calculate_optimal_timing sample_light
                         [sample_sensor "sensor_0_0_0" 40 3 true] SNOW NONE
                         true false)) in
  (IntersectionConfig.min_green_time (config sample_light) <=? g)%float = true
  /\ (g <=? IntersectionConfig.max_green_time (config sample_light))%float = true.
Proof.
  apply calculate_optimal_timing_green_bounds. reflexivity.
Defined.

(* ===================================================================== *)
(** ** AdvancedTrafficLight: state machine *)
(* ===================================================================== *)

Lemma mod2_even (n : Z) : (n mod 2 =? 0) = Z.even n.
Proof.
  rewrite Zmod_even. destruct (Z.even n); reflexivity.
Qed.

(** C4.  Under a power outage [update_state] only writes the signal state:
    FLASHING_YELLOW on an even tick number, RED on an odd one, whatever the
    state before; every other attribute, [state_start_time], [cycle_count]
    and [adaptation_factor] among them, is left as it was. *)
Theorem update_state_power_outage self current_step sensor_data weather
    emergency_level is_scramble is_rush_hour :
  let self' := update_state self current_step sensor_data weather
                 emergency_level true is_scramble is_rush_hour in
  current_state self' = (if Z.even current_step then FLASHING_YELLOW else RED)
  /\ self' = set_current_state (current_state self') self
  /\ state_start_time self' = state_start_time self
  /\ cycle_count self' = cycle_count self
  /\ adaptation_factor self' = adaptation_factor self.
Proof.
  intros self'. subst self'. unfold update_state.
  rewrite mod2_even. destruct (Z.even current_step); repeat split.
Qed.

Example update_state_power_outage_tick_10 :
  current_state (update_state sample_light 10 [] CLEAR CRITICAL true true true)
  = FLASHING_YELLOW.
Proof. reflexivity. Qed.

Example update_state_power_outage_tick_11 :
  current_state
    (update_state (set_current_state GREEN sample_light) 11 [] CLEAR NONE
       true false false)
  = RED.
Proof. reflexivity. Qed.

(* ===================================================================== *)
(** ** AdvancedTrafficLight: adaptation factor *)
(* ===================================================================== *)

Lemma _update_adaptation_factor_next self sensor_data :
  adaptation_factor (_update_adaptation_factor self sensor_data)
  = next_factor (adaptation_factor self) sensor_data.
Proof.
  unfold _update_adaptation_factor, next_factor, mean_queue_length.
  destruct sensor_data as [|s l]; [reflexivity|].
  destruct (5 <? _)%float; [reflexivity|].
  destruct (_ <? 2)%float; reflexivity.
Qed.

Lemma change_state_adaptation_factor self new_state current_step :
  adaptation_factor (change_state self new_state current_step)
  = adaptation_factor self.
Proof.
  unfold change_state. destruct (decide _); reflexivity.
Qed.

Lemma calculate_optimal_timing_adaptation_factor self sensor_data weather
    emergency_level is_rush_hour is_night :
  adaptation_factor (snd (calculate_optimal_timing self sensor_data weather
                            emergency_level is_rush_hour is_night))
  = adaptation_factor self.
Proof.
  unfold calculate_optimal_timing.
  destruct (decide (emergency_level <> NONE)); reflexivity.
Qed.

(** The factor after [update_state]: the three overrides leave it alone,
    the normal cycle ends with [_update_adaptation_factor]. *)
Lemma update_state_adaptation_factor self current_step sensor_data weather
    emergency_level power_outage is_scramble is_rush_hour :
  adaptation_factor (update_state self current_step sensor_data weather
                       emergency_level power_outage is_scramble is_rush_hour)
  = if power_outage then adaptation_factor self
    else if is_scramble then adaptation_factor self
    else if decide (emergency_level <> NONE) then adaptation_factor self
    else next_factor (adaptation_factor self) sensor_data.
Proof.
  unfold update_state.
  destruct power_outage.
  { destruct (_ =? _); reflexivity. }
  destruct is_scramble; [reflexivity|].
  destruct (decide (emergency_level <> NONE)).
  { destruct (decide _); [apply change_state_adaptation_factor|reflexivity]. }
  pose proof (calculate_optimal_timing_adaptation_factor self sensor_data
                weather emergency_level is_rush_hour
                (bool_decide (weather = NIGHT))) as Hc.
  destruct (calculate_optimal_timing _ _ _ _ _ _) as [timing self1].
  simpl in Hc. rewrite _update_adaptation_factor_next, <- Hc.
  f_equal.
  destruct (current_state self1);
    repeat match goal with
           | |- context [if ?b then _ else _] => destruct b
           end;
    rewrite ?change_state_adaptation_factor; reflexivity.
Qed.

Lemma float_mem_In (x : float) (l : list float) :
  float_mem x l = true <-> In x l.
Proof.
  unfold float_mem. rewrite existsb_exists. split.
  - intros (y & Hy & E). apply FloatAxioms.Leibniz.eqb_spec in E. now subst.
  - intros Hx. exists x. split; [assumption|].
    now apply FloatAxioms.Leibniz.eqb_spec.
Qed.

(** The computed set is closed under both moves and lies in [0.5, 2.0]. *)
Lemma reachable_factors_closed :
  forallb (fun a => float_mem (factor_up a) reachable_factors
                    && float_mem (factor_down a) reachable_factors)
          reachable_factors = true.
Proof. vm_compute. reflexivity. Qed.

Lemma reachable_factors_bounded :
  forallb (fun a => (0.5 <=? a)%float && (a <=? 2.0)%float) reachable_factors
  = true.
Proof. vm_compute. reflexivity. Qed.

Lemma reachable_factors_in_bounds a :
  In a reachable_factors -> (0.5 <=? a)%float = true /\ (a <=? 2.0)%float = true.
Proof.
  intros Ha. pose proof reachable_factors_bounded as Hb.
  rewrite forallb_forall in Hb. now apply andb_prop, Hb.
Qed.

Lemma next_factor_reachable a sensor_data :
  In a reachable_factors -> In (next_factor a sensor_data) reachable_factors.
Proof.
  intros Ha.
  pose proof reachable_factors_closed as Hc.
  rewrite forallb_forall in Hc. specialize (Hc a Ha).
  apply andb_prop in Hc as [Hu Hd].
  apply float_mem_In in Hu, Hd.
  unfold next_factor. destruct sensor_data; [assumption|].
  destruct (5 <? _)%float; [assumption|].
  destruct (_ <? 2)%float; assumption.
Qed.

Lemma light_run_reachable ticks : forall self,
  In (adaptation_factor self) reachable_factors ->
  In (adaptation_factor (light_run self ticks)) reachable_factors.
Proof.
  induction ticks as [|t ticks IH]; intros self Hs; [exact Hs|].
  simpl. apply IH. unfold update_tick.
  rewrite update_state_adaptation_factor.
  destruct (tick_power_outage t); [assumption|].
  destruct (tick_scramble t); [assumption|].
  destruct (decide _); [assumption|].
  now apply next_factor_reachable.
Qed.

(** C7.  A normal-cycle update with a non-empty sensor list moves the
    adaptation factor up by 0.01, capped at 2.0, when the mean queue length
    exceeds 5, down by 0.01, floored at 0.5, when it is below 2, and leaves
    it alone otherwise; and from the initial 1.0 the factor stays within
    [0.5, 2.0] along every run of updates. *)
Theorem adaptation_factor_spec self current_step sensor_data weather
    is_rush_hour iid cfg ticks :
  sensor_data <> [] ->
  let a := adaptation_factor self in
  let a' := adaptation_factor
              (update_state self current_step sensor_data weather NONE
                 false false is_rush_hour) in
  let q := mean_queue_length sensor_data in
  let r := adaptation_factor (light_run (new_light iid cfg) ticks) in
  ((5 <? q)%float = true ->
     a' = (if a + 0.01 <? 2.0 then a + 0.01 else 2.0)%float)
  /\ ((5 <? q)%float = false -> (q <? 2)%float = true ->
     a' = (if 0.5 <? a - 0.01 then a - 0.01 else 0.5)%float)
  /\ ((5 <? q)%float = false -> (q <? 2)%float = false -> a' = a)
  /\ (0.5 <=? r)%float = true /\ (r <=? 2.0)%float = true.
Proof.
  intros Hne a a' q r. subst a a' q r.
  rewrite update_state_adaptation_factor. simpl.
  unfold next_factor. destruct sensor_data as [|s l]; [contradiction|].
  repeat split.
  - intros ->. reflexivity.
  - intros -> ->. reflexivity.
  - intros -> ->. reflexivity.
  - apply reachable_factors_in_bounds, light_run_reachable, float_mem_In.
    vm_compute. reflexivity.
  - apply reachable_factors_in_bounds, light_run_reachable, float_mem_In.
    vm_compute. reflexivity.
Qed.

Lemma adaptation_factor_spec_witness :
  let sensor_data := [sample_sensor "sensor_0_0_0" 9 6 true] in
  let busy := mkTick 1 sensor_data CLEAR NONE false false false in
  adaptation_factor
    (update_state sample_light 1 sensor_data CLEAR NONE false false false)
  = (if 1 + 0.01 <? 2.0 then 1 + 0.01 else 2.0)%float
  /\ (0.5 <=? adaptation_factor (light_run sample_light (repeat busy 150)))%float
     = true
  /\ (adaptation_factor (light_run sample_light (repeat busy 150)) <=? 2.0)%float
     = true.
Proof.
  intros sensor_data busy.
  destruct (adaptation_factor_spec sample_light 1 sensor_data CLEAR false
              "intersection_0_0" sample_config (repeat busy 150))
    as (Hup & _ & _ & Hlo & Hhi); [discriminate|].
  split; [exact (Hup eq_refl)|]. split; [exact Hlo|exact Hhi].
Defined.

(** One tick with mean queue length 6 takes the factor from 1.0 to 1.01, and
    100 such ticks take it to the cap. *)
Example adaptation_factor_one_busy_tick :
  adaptation_factor
    (update_state sample_light 1 [sample_sensor "sensor_0_0_0" 9 6 true]
       CLEAR NONE false false false) = 1.01%float.
Proof. vm_compute. reflexivity. Qed.

Example adaptation_factor_100_busy_ticks :
  adaptation_factor
    (light_run sample_light
       (repeat (mkTick 1 [sample_sensor "sensor_0_0_0" 9 6 true] CLEAR NONE
                  false false false) 100)) = 2%float.
Proof. vm_compute. reflexivity. Qed.

(* ===================================================================== *)
(** ** EmergencyManagementSystem *)
(* ===================================================================== *)

Lemma calculate_priority_tables self vehicle weather :
  weather_impact_factors self = weather_impact_factors new_emergency_system ->
  calculate_priority self vehicle weather
  = Py.int_of_float
      (Py.float_of_int (spec_base (Vehicle.emergency_level vehicle)
                        + spec_bonus (Vehicle.type vehicle))
       * spec_weather_factor weather)%float.
Proof.
  intros Hw. unfold calculate_priority. rewrite Hw.
  replace (default 1%float
             (weather_impact_factors new_emergency_system !! weather))
    with (spec_weather_factor weather) by (destruct weather; reflexivity).
  replace (default 0 (priority_map !! Vehicle.emergency_level vehicle))
    with (spec_base (Vehicle.emergency_level vehicle))
    by (destruct (Vehicle.emergency_level vehicle); reflexivity).
  destruct (decide (Vehicle.type vehicle = EMERGENCY)) as [->|Hn].
  - reflexivity.
  - replace (spec_bonus (Vehicle.type vehicle)) with 0
      by (destruct (Vehicle.type vehicle) eqn:E; first [reflexivity|congruence]).
    now rewrite Z.add_0_r.
Qed.

(** On the whole table the binary64 product truncates to the same integer
    as the exact product would. *)
Lemma spec_priority_exact vehicle weather :
  spec_priority vehicle weather
  = ((spec_base (Vehicle.emergency_level vehicle)
      + spec_bonus (Vehicle.type vehicle))
     * spec_weather_tenths weather) ÷ 10.
Proof.
  unfold spec_priority.
  destruct (Vehicle.emergency_level vehicle), (Vehicle.type vehicle), weather;
    vm_compute; reflexivity.
Qed.

(** C5.  [calculate_priority] returns
    int((base(level) + (5 if the type is EMERGENCY else 0)) * factor(weather))
    with the level and weather tables of the specification, the bonus being
    added before the multiplication; the result is also the truncated exact
    product; an EMERGENCY vehicle at level HIGH under STORM scores 30. *)
Theorem calculate_priority_spec self vehicle weather
    vid speed position destination priority direction timestamp :
  weather_impact_factors self = weather_impact_factors new_emergency_system ->
  calculate_priority self vehicle weather = spec_priority vehicle weather
  /\ calculate_priority self vehicle weather
     = ((spec_base (Vehicle.emergency_level vehicle)
         + spec_bonus (Vehicle.type vehicle))
        * spec_weather_tenths weather) ÷ 10
  /\ calculate_priority self
       (Vehicle.mk vid EMERGENCY speed position destination priority HIGH
          direction timestamp) STORM = 30.
Proof.
  intros Hw. split; [|split].
  - now apply calculate_priority_tables.
  - rewrite calculate_priority_tables by assumption.
    apply spec_priority_exact.
  - rewrite calculate_priority_tables by assumption. vm_compute. reflexivity.
Qed.

Lemma calculate_priority_spec_witness :
  let self := snd (register_emergency_vehicle new_emergency_system
                     (sample_vehicle "ambulance_1" EMERGENCY HIGH)) in
  let vehicle := sample_vehicle "ambulance_1" EMERGENCY HIGH in
  calculate_priority self vehicle STORM = spec_priority vehicle STORM
  /\ calculate_priority self vehicle STORM
     = ((spec_base (Vehicle.emergency_level vehicle)
         + spec_bonus (Vehicle.type vehicle))
        * spec_weather_tenths STORM) ÷ 10
  /\ calculate_priority self
       (Vehicle.mk "ambulance_1" EMERGENCY 0 (0, 0)%float (0, 0)%float 0 HIGH
          UNKNOWN 0) STORM = 30.
Proof.
  apply calculate_priority_spec. reflexivity.
Defined.

(** C6.  Registering a vehicle whose level is NONE and unregistering an id
    that is not registered both return False and leave the system as it
    was.  A successful registration stores the vehicle under its id, and a
    second registration under the same id replaces that entry: the registry
    does not grow. *)
Theorem registry_spec self rejected absent_id vehicle again :
  Vehicle.emergency_level rejected = NONE ->
  active_emergencies self !! absent_id = None ->
  Vehicle.emergency_level vehicle <> NONE ->
  Vehicle.emergency_level again <> NONE ->
  Vehicle.id again = Vehicle.id vehicle ->
  let once := register_emergency_vehicle self vehicle in
  let twice := register_emergency_vehicle (snd once) again in
  register_emergency_vehicle self rejected = (false, self)
  /\ unregister_emergency_vehicle self absent_id = (false, self)
  /\ fst once = true
  /\ active_emergencies (snd once)
     = <[Vehicle.id vehicle := vehicle]> (active_emergencies self)
  /\ active_emergencies (snd once) !! Vehicle.id vehicle = Some vehicle
  /\ fst twice = true
  /\ active_emergencies (snd twice)
     = <[Vehicle.id vehicle := again]> (active_emergencies self)
  /\ size (active_emergencies (snd twice)) = size (active_emergencies (snd once)).
Proof.
  intros Hrej Habs Hv Ha Hid once twice. subst once twice.
  unfold register_emergency_vehicle, unregister_emergency_vehicle.
  rewrite Hrej, Habs.
  destruct (decide (NONE <> NONE)) as [F|_]; [now contradiction F|].
  destruct (decide (Vehicle.emergency_level vehicle <> NONE)); [|contradiction].
  destruct (decide (Vehicle.emergency_level again <> NONE)); [|contradiction].
  simpl. rewrite Hid.
  repeat split.
  - apply lookup_insert_eq.
  - apply insert_insert_eq.
  - rewrite insert_insert_eq.
    destruct (active_emergencies self !! Vehicle.id vehicle) as [v0|] eqn:E.
    + rewrite !map_size_insert_Some by (rewrite ?E; eauto). reflexivity.
    + rewrite !map_size_insert_None by assumption. reflexivity.
Qed.

Lemma registry_spec_witness :
  let self := snd (register_emergency_vehicle new_emergency_system
                     (sample_vehicle "fire_engine_7" TRUCK MEDIUM)) in
  let rejected := sample_vehicle "car_12" CAR NONE in
  let vehicle := sample_vehicle "ambulance_1" EMERGENCY HIGH in
  let again := sample_vehicle "ambulance_1" EMERGENCY CRITICAL in
  let once := register_emergency_vehicle self vehicle in
  let twice := register_emergency_vehicle (snd once) again in
  register_emergency_vehicle self rejected = (false, self)
  /\ unregister_emergency_vehicle self "car_12" = (false, self)
  /\ fst once = true
  /\ active_emergencies (snd once)
     = <[Vehicle.id vehicle := vehicle]> (active_emergencies self)
  /\ active_emergencies (snd once) !! Vehicle.id vehicle = Some vehicle
  /\ fst twice = true
  /\ active_emergencies (snd twice)
     = <[Vehicle.id vehicle := again]> (active_emergencies self)
  /\ size (active_emergencies (snd twice)) = size (active_emergencies (snd once)).
Proof.
  apply registry_spec; try reflexivity; discriminate.
Defined.

(* ===================================================================== *)
(** ** TrafficMonitoringSystem: slices *)
(* ===================================================================== *)

Section Slices.

Context {A : Type}.
Implicit Types (l m : list A) (n : nat).

Lemma last_n_length n l : length (Py.last_n n l) = Nat.min n (length l).
Proof. unfold Py.last_n. rewrite length_drop. lia. Qed.

Lemma last_n_all n l : (length l <= n)%nat -> Py.last_n n l = l.
Proof.
  intros Hl. unfold Py.last_n.
  replace (length l - n)%nat with O by lia. reflexivity.
Qed.

Lemma last_n_app_last_n n l m :
  Py.last_n n (Py.last_n n l ++ m) = Py.last_n n (l ++ m).
Proof.
  destruct (Nat.le_gt_cases (length l) n) as [Hle|Hgt].
  - now rewrite (last_n_all n l).
  - unfold Py.last_n at 1 3.
    rewrite !length_app, last_n_length.
    replace (l ++ m) with (take (length l - n) l ++ (Py.last_n n l ++ m))
      by (unfold Py.last_n; now rewrite app_assoc, take_drop).
    rewrite (drop_app_ge (take (length l - n) l))
      by (rewrite length_take; lia).
    rewrite length_take. f_equal. lia.
Qed.

End Slices.

(* ===================================================================== *)
(** ** TrafficMonitoringSystem: detection *)
(* ===================================================================== *)

Lemma same_histories_refl self : same_histories self self.
Proof. split; reflexivity. Qed.

Lemma same_histories_trans self1 self2 self3 :
  same_histories self1 self2 -> same_histories self2 self3 ->
  same_histories self1 self3.
Proof.
  intros [Ht1 Hh1] [Ht2 Hh2]. split; [congruence|].
  intros sid. now rewrite Hh1.
Qed.

Lemma ensure_history_same self sid :
  same_histories (ensure_history self sid) self.
Proof.
  unfold ensure_history.
  destruct (sensor_data_history self !! sid) eqn:E;
    [apply same_histories_refl|].
  split; [reflexivity|]. intros sid'. unfold history_of. simpl.
  destruct (decide (sid = sid')) as [->|Hne].
  - now rewrite lookup_insert_eq, E.
  - now rewrite lookup_insert_ne.
Qed.

Lemma flagged_same H self1 self2 a :
  same_histories self1 self2 -> flagged H self1 a = flagged H self2 a.
Proof.
  intros [Ht Hh]. unfold flagged, window_counts. now rewrite Ht, !Hh.
Qed.

Lemma detect_one_same H self1 self2 a :
  same_histories self1 self2 -> detect_one H self1 a = detect_one H self2 a.
Proof.
  intros Hs. unfold detect_one, window_counts.
  rewrite (flagged_same H self1 self2 a Hs).
  destruct Hs as [_ Hh]. now rewrite Hh.
Qed.

Lemma window_counts_length H self sid :
  length (window_counts H self sid)
  = Nat.min 10 (length (history_of self sid)).
Proof. unfold window_counts. now rewrite length_map, last_n_length. Qed.

(** One pass of the loop appends what [detect_one] finds for the state at
    loop entry, and at most creates an empty history. *)
Lemma detect_step_eq H found self a :
  detect_step H (found, self) a
  = (found ++ detect_one H (ensure_history self (TrafficSensor.id (H a))) a,
     ensure_history self (TrafficSensor.id (H a))).
Proof.
  unfold detect_step, detect_one, flagged.
  set (self1 := ensure_history self (TrafficSensor.id (H a))).
  fold (window_counts H self1 (TrafficSensor.id (H a))).
  pose proof (window_counts_length H self1 (TrafficSensor.id (H a))) as Hlen.
  destruct (Nat.ltb_spec (length (history_of self1 (TrafficSensor.id (H a)))) 5)
    as [Hlt|Hge].
  - rewrite (proj2 (Nat.leb_gt _ _) Hlt). cbn [andb]. now rewrite app_nil_r.
  - rewrite (proj2 (Nat.leb_le _ _) Hge). cbn [andb].
    destruct (window_counts H self1 (TrafficSensor.id (H a))) as [|c cs] eqn:Ew;
      cbn [length] in Hlen; [lia|].
    replace (1 <? length (c :: cs))%nat with true
      by (symmetry; apply Nat.ltb_lt; cbn [length]; lia).
    destruct (0 <? _)%float; cbn [andb]; [|now rewrite app_nil_r].
    destruct (_ <? _)%float; [reflexivity|now rewrite app_nil_r].
Qed.

Lemma _detect_anomalies_fold H sensors : forall found self,
  exists self',
    fold_left (detect_step H) sensors (found, self)
    = (found ++ flat_map (detect_one H self) sensors, self')
    /\ same_histories self' self.
Proof.
  induction sensors as [|a sensors IH]; intros found self.
  - exists self. cbn [fold_left flat_map]. rewrite app_nil_r. split; [reflexivity|].
    apply same_histories_refl.
  - cbn [fold_left flat_map]. rewrite detect_step_eq.
    pose proof (ensure_history_same self (TrafficSensor.id (H a))) as Hs.
    destruct (IH (found ++ detect_one H
                    (ensure_history self (TrafficSensor.id (H a))) a)
                 (ensure_history self (TrafficSensor.id (H a))))
      as (self' & -> & Hs').
    exists self'. split; [|eapply same_histories_trans; eassumption].
    rewrite <- app_assoc. f_equal. f_equal.
    rewrite (detect_one_same H _ self a Hs). f_equal.
    apply flat_map_ext. intros b. now apply detect_one_same.
Qed.

Lemma _detect_anomalies_eq H self sensors :
  fst (_detect_anomalies H self sensors) = flat_map (detect_one H self) sensors
  /\ same_histories (snd (_detect_anomalies H self sensors)) self.
Proof.
  unfold _detect_anomalies.
  destruct (_detect_anomalies_fold H sensors [] self) as (self' & -> & Hs).
  split; [reflexivity|exact Hs].
Qed.

Lemma process_sensor_data_anomalies H self sensors :
  ProcessedData.anomalies (fst (process_sensor_data H self sensors))
  = flat_map (detect_one H self) sensors.
Proof.
  unfold process_sensor_data. destruct sensors as [|a sensors]; [reflexivity|].
  destruct (_detect_anomalies_eq H self (a :: sensors)) as [Hf _].
  destruct (_detect_anomalies H self (a :: sensors)) as [found self'].
  exact Hf.
Qed.

(** A record for the sensor at [a] is in the result exactly when some
    sensor of the call with the same id and the same count is flagged. *)
Lemma record_in_anomalies H self sensors r :
  In r (ProcessedData.anomalies (fst (process_sensor_data H self sensors)))
  <-> exists b, In b sensors /\ flagged H self b = true
                /\ r = anomaly_record (H b)
                         (window_counts H self (TrafficSensor.id (H b))).
Proof.
  rewrite process_sensor_data_anomalies, in_flat_map. unfold detect_one.
  split.
  - intros (b & Hb & Hr). exists b.
    destruct (flagged H self b); [|contradiction].
    destruct Hr as [<-|[]]. auto.
  - intros (b & Hb & Hf & ->). exists b. rewrite Hf. split; [assumption|].
    now left.
Qed.

(* ===================================================================== *)
(** ** TrafficMonitoringSystem: history *)
(* ===================================================================== *)

Lemma history_of_insert self sid0 h sid :
  history_of (set_history (<[sid0 := h]> (sensor_data_history self)) self) sid
  = if decide (sid0 = sid) then h else history_of self sid.
Proof.
  unfold history_of. cbn [sensor_data_history set_history].
  destruct (decide (sid0 = sid)) as [->|Hne].
  - now rewrite lookup_insert_eq.
  - now rewrite lookup_insert_ne.
Qed.

(** One pass of the loop of [_update_history]: the object is appended to
    the history of its id and the history is cut back to its last 100. *)
Lemma update_step_history H self a sid :
  history_of (update_step H self a) sid
  = if decide (TrafficSensor.id (H a) = sid)
    then Py.last_n 100 (history_of self sid ++ [a])
    else history_of self sid.
Proof.
  unfold update_step.
  set (sid0 := TrafficSensor.id (H a)).
  destruct (ensure_history_same self sid0) as [_ He].
  set (self1 := ensure_history self sid0) in *.
  set (self2 := set_history _ self1).
  assert (H2 : forall s, history_of self2 s
                         = if decide (sid0 = s)
                           then history_of self sid0 ++ [a]
                           else history_of self s).
  { intros s. unfold self2. rewrite history_of_insert, !He. reflexivity. }
  rewrite (H2 sid0). destruct (decide (sid0 = sid0)); [|congruence].
  destruct (Nat.ltb_spec 100 (length (history_of self sid0 ++ [a]))) as [Hgt|Hle].
  - rewrite history_of_insert.
    destruct (decide (sid0 = sid)) as [<-|Hne]; [reflexivity|].
    rewrite H2. destruct (decide (sid0 = sid)); [contradiction|reflexivity].
  - rewrite H2.
    destruct (decide (sid0 = sid)) as [<-|Hne]; [|reflexivity].
    now rewrite last_n_all.
Qed.

Lemma _update_history_history H sensors : forall self sid,
  history_of (_update_history H self sensors) sid
  = match arrivals H sid sensors with
    | [] => history_of self sid
    | _ :: _ => Py.last_n 100 (history_of self sid ++ arrivals H sid sensors)
    end.
Proof.
  unfold _update_history.
  induction sensors as [|a sensors IH]; intros self sid; [reflexivity|].
  cbn [fold_left arrivals List.filter]. fold (arrivals H sid sensors).
  rewrite IH, update_step_history.
  destruct (decide (TrafficSensor.id (H a) = sid)) as [E|N].
  - rewrite (bool_decide_eq_true_2 _ E).
    destruct (arrivals H sid sensors) as [|b bs]; [reflexivity|].
    rewrite last_n_app_last_n, <- app_assoc. reflexivity.
  - rewrite (bool_decide_eq_false_2 _ N). reflexivity.
Qed.

Lemma process_sensor_data_history H self sensors sid :
  history_of (snd (process_sensor_data H self sensors)) sid
  = match arrivals H sid sensors with
    | [] => history_of self sid
    | _ :: _ => Py.last_n 100 (history_of self sid ++ arrivals H sid sensors)
    end.
Proof.
  unfold process_sensor_data. destruct sensors as [|a sensors]; [reflexivity|].
  destruct (_detect_anomalies_eq H self (a :: sensors)) as [_ [_ Hs]].
  destruct (_detect_anomalies H self (a :: sensors)) as [found self'].
  cbn [snd] in *. rewrite _update_history_history, Hs. reflexivity.
Qed.

Lemma process_sensor_data_history_length H self sensors sid :
  (length (history_of self sid) <= 100)%nat ->
  length (history_of (snd (process_sensor_data H self sensors)) sid)
  = Nat.min 100 (length (history_of self sid)
                 + length (arrivals H sid sensors)).
Proof.
  intros Hle. rewrite process_sensor_data_history.
  destruct (arrivals H sid sensors) as [|b bs] eqn:E.
  - cbn [length]. lia.
  - rewrite last_n_length, length_app. reflexivity.
Qed.

Lemma monitor_run_history_length calls : forall self sid,
  (length (history_of self sid) <= 100)%nat ->
  length (history_of (monitor_run self calls) sid)
  = Nat.min 100 (length (history_of self sid) + total_arrivals calls sid).
Proof.
  unfold monitor_run.
  induction calls as [|[H sensors] calls IH]; intros self sid Hle.
  - cbn [fold_left total_arrivals fold_right]. lia.
  - cbn [fold_left total_arrivals fold_right fst snd].
    fold (total_arrivals calls sid).
    pose proof (process_sensor_data_history_length H self sensors sid Hle) as Hl.
    rewrite IH by lia. lia.
Qed.

Lemma history_of_new_monitor sid : history_of new_monitor sid = [].
Proof. unfold history_of, new_monitor. cbn. now rewrite lookup_empty. Qed.

Lemma total_arrivals_ge calls sid :
  (forall c, In c calls -> arrivals (fst c) sid (snd c) <> []) ->
  (length calls <= total_arrivals calls sid)%nat.
Proof.
  induction calls as [|c calls IH]; intros Hc; [reflexivity|].
  cbn [total_arrivals fold_right length]. fold (total_arrivals calls sid).
  specialize (IH (fun c' Hin => Hc c' (or_intror Hin))).
  specialize (Hc c (or_introl eq_refl)).
  destruct (arrivals (fst c) sid (snd c)); [congruence|].
  cbn [length]. lia.
Qed.

(** C9.  From a fresh monitor and after every call of
    [process_sensor_data], the history of each sensor id holds at most 100
    entries; a call appends the arriving objects in order and keeps the
    last 100, so the oldest leave first; the length is the number of
    arrivals so far, capped at 100, and after 150 calls that each carry the
    sensor it is exactly 100. *)
Theorem history_cap calls H sensors sid :
  let self := monitor_run new_monitor calls in
  let self' := snd (process_sensor_data H self sensors) in
  (length (history_of self' sid) <= 100)%nat
  /\ history_of self' sid
     = match arrivals H sid sensors with
       | [] => history_of self sid
       | _ :: _ => Py.last_n 100 (history_of self sid ++ arrivals H sid sensors)
       end
  /\ length (history_of self sid) = Nat.min 100 (total_arrivals calls sid)
  /\ (length calls = 150%nat ->
      (forall c, In c calls -> arrivals (fst c) sid (snd c) <> []) ->
      length (history_of self sid) = 100%nat).
Proof.
  intros self self'. subst self self'.
  assert (Hrun : length (history_of (monitor_run new_monitor calls) sid)
                 = Nat.min 100 (total_arrivals calls sid)).
  { rewrite monitor_run_history_length; rewrite history_of_new_monitor;
      cbn [length]; [reflexivity|lia]. }
  repeat split.
  - rewrite process_sensor_data_history_length by lia. lia.
  - apply process_sensor_data_history.
  - exact Hrun.
  - intros Hn Hc. pose proof (total_arrivals_ge calls sid Hc). lia.
Qed.

Lemma history_cap_witness :
  let calls := one_by_one wavering_store 150 in
  let self := monitor_run new_monitor calls in
  length calls = 150%nat
  /\ (forall c, In c calls -> arrivals (fst c) "sensor_0_0_0" (snd c) <> [])
  /\ length (history_of self "sensor_0_0_0") = 100%nat.
Proof.
  intros calls self.
  assert (Hn : length calls = 150%nat) by reflexivity.
  assert (Hc : forall c, In c calls
                         -> arrivals (fst c) "sensor_0_0_0" (snd c) <> []).
  { intros c Hin. unfold calls, one_by_one in Hin.
    apply in_map_iff in Hin as (a & <- & _). discriminate. }
  split; [exact Hn|]. split; [exact Hc|].
  exact (proj2 (proj2 (proj2
           (history_cap calls wavering_store [] "sensor_0_0_0"))) Hn Hc).
Defined.

Lemma filter_none {A} (f : A -> bool) (l : list A) :
  (forall x, In x l -> f x = false) -> List.filter f l = [].
Proof.
  induction l as [|x l IH]; intros Hf; [reflexivity|].
  cbn [List.filter]. rewrite (Hf x (or_introl eq_refl)).
  apply IH. intros y Hy. apply Hf. now right.
Qed.

(** C10.  When the list is not empty and none of its sensors is active,
    the analytics report no vehicles, speed 0.0 and congestion 0.0,
    whatever the sensors count. *)
Theorem process_sensor_data_no_active H self sensors :
  sensors <> [] ->
  (forall a, In a sensors -> TrafficSensor.is_active (H a) = false) ->
  let r := fst (process_sensor_data H self sensors) in
  ProcessedData.total_vehicles r = 0
  /\ ProcessedData.average_speed r = 0%float
  /\ ProcessedData.congestion_level r = 0%float.
Proof.
  intros Hne Hin r. subst r. unfold process_sensor_data.
  destruct sensors as [|a sensors]; [contradiction|].
  replace (List.filter (fun s => TrafficSensor.is_active (H s)) (a :: sensors))
    with (@nil addr).
  - destruct (_detect_anomalies H self (a :: sensors)). repeat split.
  - symmetry. now apply filter_none.
Qed.

Lemma process_sensor_data_no_active_witness :
  let H : store := fun _ => sample_sensor "sensor_0_0_0" 7 3 false in
  let r := fst (process_sensor_data H new_monitor [0%nat; 1%nat]) in
  Py.sum_int (map (fun s => TrafficSensor.vehicle_count (H s)) [0%nat; 1%nat])
  = 14
  /\ ProcessedData.total_vehicles r = 0
  /\ ProcessedData.average_speed r = 0%float
  /\ ProcessedData.congestion_level r = 0%float.
Proof.
  intros H r. split; [reflexivity|].
  apply process_sensor_data_no_active; [discriminate|reflexivity].
Defined.

(* ===================================================================== *)
(** ** TrafficMonitoringSystem: the anomaly test *)
(* ===================================================================== *)

Lemma flagged_true H self a :
  flagged H self a = true
  <-> (5 <= length (history_of self (TrafficSensor.id (H a))))%nat
      /\ (0 <? Py.stdev (window_counts H self (TrafficSensor.id (H a))))%float
         = true
      /\ (anomaly_threshold self
          <? z_score (TrafficSensor.vehicle_count (H a))
               (window_counts H self (TrafficSensor.id (H a))))%float = true.
Proof.
  unfold flagged. rewrite !andb_true_iff, Nat.leb_le. tauto.
Qed.

Lemma arrivals_In H sid sensors a :
  In a sensors -> TrafficSensor.id (H a) = sid -> In a (arrivals H sid sensors).
Proof.
  intros Ha Hid. unfold arrivals. apply filter_In. split; [assumption|].
  now apply bool_decide_eq_true_2.
Qed.

(** C3 (as amended).  For a sensor of the call, with the monitor's
    threshold at 2.0: with fewer than 5 history entries no record is
    emitted for its id; with at least 5 entries and a positive sample
    deviation of the last 10 stored counts, its record is emitted exactly
    when |count - mean| / deviation exceeds 2.0; with at least 5 entries
    and a deviation that is not positive, as for nine stored counts of 5,
    no record is emitted for its id; and all of this reads the history as
    it was before the call, which then appends the arrivals. *)
Theorem detect_anomalies_spec H self sensors a :
  In a sensors ->
  anomaly_threshold self = 2%float ->
  let sensor := H a in
  let history := history_of self (TrafficSensor.id sensor) in
  let vehicle_counts := window_counts H self (TrafficSensor.id sensor) in
  let result := process_sensor_data H self sensors in
  ((length history < 5)%nat ->
     forall r, In r (ProcessedData.anomalies (fst result))
               -> Anomaly.sensor_id r <> TrafficSensor.id sensor)
  /\ ((5 <= length history)%nat ->
      (0 <? Py.stdev vehicle_counts)%float = true ->
      (In (anomaly_record sensor vehicle_counts) (ProcessedData.anomalies (fst result))
       <-> (2 <? z_score (TrafficSensor.vehicle_count sensor) vehicle_counts)%float
           = true))
  /\ ((5 <= length history)%nat ->
      (0 <? Py.stdev vehicle_counts)%float = false ->
      forall r, In r (ProcessedData.anomalies (fst result))
                -> Anomaly.sensor_id r <> TrafficSensor.id sensor)
  /\ history_of (snd result) (TrafficSensor.id sensor)
     = Py.last_n 100 (history ++ arrivals H (TrafficSensor.id sensor) sensors).
Proof.
  intros Ha Ht sensor history vehicle_counts result.
  subst sensor history vehicle_counts result.
  split; [|split; [|split]].
  - intros Hlt r Hr Hid.
    apply record_in_anomalies in Hr as (b & _ & Hf & ->).
    cbn [Anomaly.sensor_id anomaly_record] in Hid.
    apply flagged_true in Hf as (Hlen & _). rewrite Hid in Hlen. lia.
  - intros Hlen Hdev. split.
    + intros Hr.
      apply record_in_anomalies in Hr as (b & _ & Hf & Hrec).
      apply flagged_true in Hf as (_ & _ & Hz).
      assert (Hid : TrafficSensor.id (H a) = TrafficSensor.id (H b))
        by exact (f_equal Anomaly.sensor_id Hrec).
      assert (Hv : TrafficSensor.vehicle_count (H a)
                   = TrafficSensor.vehicle_count (H b))
        by exact (f_equal Anomaly.value Hrec).
      now rewrite Hid, Hv, <- Ht.
    + intros Hz. apply record_in_anomalies. exists a.
      split; [assumption|]. split; [|reflexivity].
      apply flagged_true. now rewrite Ht.
  - intros _ Hdev r Hr Hid.
    apply record_in_anomalies in Hr as (b & _ & Hf & ->).
    cbn [Anomaly.sensor_id anomaly_record] in Hid.
    apply flagged_true in Hf as (_ & Hpos & _).
    rewrite Hid in Hpos. congruence.
  - rewrite process_sensor_data_history.
    pose proof (arrivals_In H (TrafficSensor.id (H a)) sensors a Ha eq_refl)
      as Hin.
    destruct (arrivals H (TrafficSensor.id (H a)) sensors);
      [contradiction|reflexivity].
Qed.

(** Nine objects counting 4, 6, 4, ... and a tenth counting 20: the tenth
    is reported. *)
Lemma detect_anomalies_spec_witness :
  let H := wavering_store in
  let self := monitor_run new_monitor (one_by_one H 9) in
  window_counts H self "sensor_0_0_0" = [4; 6; 4; 6; 4; 6; 4; 6; 4]
  /\ In (anomaly_record (H 9%nat) (window_counts H self "sensor_0_0_0"))
        (ProcessedData.anomalies (fst (process_sensor_data H self [9%nat]))).
Proof.
  intros H self. split; [reflexivity|].
  refine (proj2 (proj1 (proj2
            (detect_anomalies_spec H self [9%nat] 9%nat _ _)) _ _) _);
    try reflexivity.
  - now left.
  - apply Nat.leb_le. reflexivity.
Defined.

(** Three readings of 5 vehicles, then one of 1000: too little history,
    nothing is reported. *)
Example short_history_not_flagged :
  let H := steady_store 5 1000 in
  let self := monitor_run new_monitor (one_by_one H 3) in
  length (history_of self "sensor_0_0_0") = 3%nat
  /\ ProcessedData.anomalies (fst (process_sensor_data H self [9%nat])) = [].
Proof. vm_compute. repeat split. Qed.

(** C3 (as stated) fails: after nine readings of 5 vehicles a reading of 20
    is not reported, because nine equal counts have deviation zero. *)
Lemma steady_history_not_flagged :
  let H := steady_store 5 20 in
  let self := monitor_run new_monitor (one_by_one H 9) in
  length (history_of self "sensor_0_0_0") = 9%nat
  /\ window_counts H self "sensor_0_0_0" = [5; 5; 5; 5; 5; 5; 5; 5; 5]
  /\ TrafficSensor.vehicle_count (H 9%nat) = 20
  /\ Py.stdev (window_counts H self "sensor_0_0_0") = 0%float
  /\ ProcessedData.anomalies (fst (process_sensor_data H self [9%nat])) = [].
Proof.
  vm_compute. repeat split.
Qed.

(* ===================================================================== *)
(** ** TrafficMonitoringSystem: one object submitted again and again *)
(* ===================================================================== *)

(** The history keeps the sensor objects themselves.  When the caller
    updates one object in place and submits it on every tick, as
    [process_step] does, every entry of the window is that object and shows
    its current count: the deviation is zero and nothing is reported. *)

Lemma fold_left_add_shift (xs : list Z) : forall a,
  fold_left Z.add xs a = a + Py.sum_int xs.
Proof.
  unfold Py.sum_int.
  induction xs as [|x xs IH]; intros a; cbn [fold_left]; [lia|].
  rewrite IH, (IH (0 + x)). lia.
Qed.

Lemma sum_int_repeat (c : Z) (k : nat) :
  Py.sum_int (repeat c k) = Z.of_nat k * c.
Proof.
  induction k as [|k IH]; [reflexivity|].
  unfold Py.sum_int in *. cbn [repeat fold_left].
  rewrite fold_left_add_shift. unfold Py.sum_int. rewrite IH. lia.
Qed.

Lemma stdev_repeat (c : Z) (k : nat) :
  (2 <= k)%nat -> Py.stdev (repeat c k) = 0%float.
Proof.
  intros Hk. unfold Py.stdev, Py.ss_times_n, Py.len.
  rewrite map_repeat, !sum_int_repeat, repeat_length.
  set (n := Z.of_nat k).
  assert (Hn : 2 <= n) by lia.
  replace (n * (n * (c * c)) - n * c * (n * c)) with 0 by ring.
  rewrite Z.gcd_0_l, Z.abs_eq by nia.
  rewrite Z.div_0_l, Z.div_same by nia.
  vm_compute. reflexivity.
Qed.

Lemma map_constant {A B} (f : A -> B) (c : B) (l : list A) :
  (forall x, In x l -> f x = c) -> map f l = repeat c (length l).
Proof.
  induction l as [|x l IH]; intros Hf; [reflexivity|].
  cbn [map length repeat]. rewrite (Hf x (or_introl eq_refl)). f_equal.
  apply IH. intros y Hy. apply Hf. now right.
Qed.

Lemma resubmitted_object_not_flagged H self a :
  (forall b, In b (history_of self (TrafficSensor.id (H a))) -> b = a) ->
  flagged H self a = false.
Proof.
  intros Hall. unfold flagged.
  destruct (Nat.leb_spec 5 (length (history_of self (TrafficSensor.id (H a)))))
    as [Hge|Hlt]; [|reflexivity].
  cbn [andb]. unfold window_counts.
  rewrite (map_constant _ (TrafficSensor.vehicle_count (H a))).
  - rewrite stdev_repeat by (rewrite last_n_length; lia). reflexivity.
  - intros b Hb. rewrite (Hall b); [reflexivity|].
    apply list_elem_of_In. eapply subseteq_drop. apply list_elem_of_In.
    exact Hb.
Qed.

(** Nine ticks at 5 vehicles, then the same object reads 20: every stored
    entry now reads 20 and no anomaly is reported. *)
Example resubmitted_object_reads_20 :
  let self := monitor_run new_monitor
                (repeat (single_store 5, [0%nat]) 9) in
  history_of self "sensor_0_0_0" = repeat 0%nat 9
  /\ window_counts (single_store 20) self "sensor_0_0_0" = repeat 20 9
  /\ ProcessedData.anomalies (fst (process_sensor_data (single_store 20) self [0%nat])) = [].
Proof. vm_compute. repeat split. Qed.

(* ===================================================================== *)
(** ** AdvancedTrafficLight: overrides and the cycle *)
(* ===================================================================== *)

Lemma change_state_fields self new_state current_step :
  let self' := change_state self new_state current_step in
  current_state self' = new_state
  /\ state_start_time self' = current_step
  /\ last_state_change self' = current_step
  /\ emergency_active self' = emergency_active self
  /\ config self' = config self
  /\ cycle_count self'
     = (if decide (new_state = GREEN) then cycle_count self + 1
        else cycle_count self).
Proof.
  unfold change_state. cbn [current_state set_last_state_change
    set_state_start_time set_current_state].
  destruct (decide (new_state = GREEN)); repeat split.
Qed.

(** X1.  With no outage and no scramble, an emergency level other than NONE
    puts the light on GREEN within the tick: a light already GREEN is left
    exactly as it is; any other light starts a new GREEN phase at this tick
    and its cycle counter goes up by one.  Neither [emergency_active] nor
    the adaptation factor is touched on this path. *)
Theorem update_state_emergency_preempts self current_step sensor_data weather
    emergency_level is_rush_hour :
  emergency_level <> NONE ->
  let self' := update_state self current_step sensor_data weather
                 emergency_level false false is_rush_hour in
  current_state self' = GREEN
  /\ (current_state self = GREEN -> self' = self)
  /\ (current_state self <> GREEN ->
      state_start_time self' = current_step
      /\ last_state_change self' = current_step
      /\ cycle_count self' = cycle_count self + 1
      /\ green_time_elapsed self' = Py.Float 0)
  /\ emergency_active self' = emergency_active self
  /\ adaptation_factor self' = adaptation_factor self.
Proof.
  intros He self'. subst self'. unfold update_state.
  destruct (decide (emergency_level <> NONE)); [|contradiction].
  destruct (decide (current_state self <> GREEN)) as [Hn|Hg].
  - pose proof (change_state_fields self GREEN current_step) as (Hs & Ht & Hl & Ha & _ & Hc).
    rewrite Hs, Ht, Hl, Ha, Hc, change_state_adaptation_factor.
    destruct (decide (GREEN = GREEN)); [|congruence].
    repeat split; try contradiction.
  - assert (Hg' : current_state self = GREEN)
      by (destruct (decide (current_state self = GREEN)); [assumption|contradiction]).
    repeat split; try assumption; intros; contradiction.
Qed.

Lemma update_state_emergency_preempts_witness :
  let self := set_current_state YELLOW sample_light in
  let self' := update_state self 7 [sample_sensor "sensor_0_0_0" 40 9 true]
                 STORM LOW false false true in
  current_state self' = GREEN /\ cycle_count self' = 1
  /\ state_start_time self' = 7.
Proof.
  intros self self'.
  destruct (update_state_emergency_preempts self 7
              [sample_sensor "sensor_0_0_0" 40 9 true] STORM LOW true)
    as (Hs & _ & Hn & _); [discriminate|].
  destruct Hn as (Ht & _ & Hc & _); [discriminate|].
  split; [exact Hs|]. split; [exact Hc|exact Ht].
Defined.

Lemma update_tick_override self t :
  override_tick t = true ->
  let self' := update_tick self t in
  (current_state self' = RED \/ current_state self' = FLASHING_YELLOW)
  /\ cycle_count self' = cycle_count self
  /\ last_state_change self' = last_state_change self
  /\ emergency_active self' = emergency_active self
  /\ adaptation_factor self' = adaptation_factor self.
Proof.
  unfold override_tick, update_tick, update_state. intros Ho.
  destruct (tick_power_outage t).
  - destruct (_ =? _); cbn; auto 10.
  - cbn in Ho. rewrite Ho. cbn. auto 10.
Qed.

(** X2.  While an override scenario is on (power outage or pedestrian
    scramble on every tick of a non-empty run), the light shows RED or
    FLASHING_YELLOW and never GREEN, whatever the emergency level of the
    ticks, and its cycle counter, last state change, emergency flag and
    adaptation factor stay as they were. *)
Theorem override_run_gives_no_green ticks : forall self,
  ticks <> [] ->
  forallb override_tick ticks = true ->
  let self' := light_run self ticks in
  (current_state self' = RED \/ current_state self' = FLASHING_YELLOW)
  /\ current_state self' <> GREEN
  /\ cycle_count self' = cycle_count self
  /\ last_state_change self' = last_state_change self
  /\ emergency_active self' = emergency_active self
  /\ adaptation_factor self' = adaptation_factor self.
Proof.
  induction ticks as [|t ticks IH]; intros self Hne Hall; [contradiction|].
  cbn [forallb] in Hall. apply andb_prop in Hall as [Ht Hall].
  pose proof (update_tick_override self t Ht) as (Hs & Hc & Hl & He & Ha).
  cbn [light_run fold_left]. fold (light_run (update_tick self t) ticks).
  destruct ticks as [|t' ticks'].
  - cbn [light_run fold_left]. repeat split; try assumption.
    destruct Hs as [-> | ->]; discriminate.
  - destruct (IH (update_tick self t)) as (Hs' & Hg' & Hc' & Hl' & He' & Ha');
      [discriminate|assumption|].
    repeat split; try assumption; congruence.
Qed.

Lemma override_run_gives_no_green_witness :
  let ticks := [mkTick 4 [] CLEAR CRITICAL false true false;
                mkTick 5 [] CLEAR CRITICAL true false false;
                mkTick 6 [] CLEAR CRITICAL false true false] in
  let self' := light_run (set_current_state GREEN sample_light) ticks in
  current_state self' <> GREEN /\ cycle_count self' = 0.
Proof.
  intros ticks self'.
  destruct (override_run_gives_no_green ticks
              (set_current_state GREEN sample_light))
    as (_ & Hg & Hc & _); [discriminate|reflexivity|].
  split; [exact Hg|exact Hc].
Defined.

Lemma change_state_emergency_active self new_state current_step :
  emergency_active (change_state self new_state current_step)
  = emergency_active self.
Proof. unfold change_state. destruct (decide _); reflexivity. Qed.

Lemma change_state_current_state self new_state current_step :
  current_state (change_state self new_state current_step) = new_state.
Proof. unfold change_state. destruct (decide _); reflexivity. Qed.

Lemma change_state_cycle_count self new_state current_step :
  cycle_count (change_state self new_state current_step)
  = if decide (new_state = GREEN) then cycle_count self + 1
    else cycle_count self.
Proof. unfold change_state. cbn. destruct (decide _); reflexivity. Qed.

(** Case analysis of one call of [update_state]: the scenario flags, the
    emergency level, the state, the duration tests and the queue tests. *)
Ltac update_state_cases :=
  unfold update_tick, update_state, calculate_optimal_timing,
    _update_adaptation_factor, get_current_state_duration;
  repeat match goal with
         | |- context [tick_power_outage ?t] => destruct (tick_power_outage t)
         | |- context [tick_scramble ?t] => destruct (tick_scramble t)
         | |- context [decide (?e <> NONE)] => destruct (decide (e <> NONE))
         | |- context [decide (current_state ?s <> GREEN)] =>
             destruct (decide (current_state s <> GREEN))
         end;
  cbn [current_state set_emergency_active fst snd];
  repeat match goal with
         | |- context [match current_state ?s with _ => _ end] =>
             destruct (current_state s) eqn:?
         | |- context [Py.int_ge_float ?d ?x] => destruct (Py.int_ge_float d x)
         | |- context [(?a mod 2 =? 0)%Z] => destruct (a mod 2 =? 0)%Z
         | |- context [match tick_sensors ?t with _ => _ end] =>
             destruct (tick_sensors t)
         | |- context [PrimFloat.ltb ?a ?b] => destruct (PrimFloat.ltb a b)
         end.

Lemma update_tick_emergency_active self t :
  emergency_active (update_tick self t)
  = if override_tick t then emergency_active self
    else if decide (tick_emergency t <> NONE) then emergency_active self
    else false.
Proof.
  unfold override_tick. update_state_cases;
    cbn; rewrite ?change_state_emergency_active; reflexivity.
Qed.

(** X3.  Driven through [update_state], a controller never raises its
    [emergency_active] flag: the flag is only written by
    [calculate_optimal_timing], which [update_state] reaches with level NONE
    alone.  From a new controller it is False after every run, emergency
    ticks included. *)
Theorem emergency_active_never_raised ticks iid cfg :
  emergency_active (light_run (new_light iid cfg) ticks) = false.
Proof.
  assert (Hinv : forall self, emergency_active self = false ->
                   emergency_active (light_run self ticks) = false).
  { induction ticks as [|t ticks IH]; intros self Hs; [exact Hs|].
    cbn [light_run fold_left]. apply IH.
    rewrite update_tick_emergency_active, Hs.
    destruct (override_tick t); [reflexivity|].
    destruct (decide _); reflexivity. }
  now apply Hinv.
Qed.

Lemma update_tick_not_flashing_red self t :
  current_state self <> FLASHING_RED ->
  current_state (update_tick self t) <> FLASHING_RED.
Proof.
  intros Hs. update_state_cases;
    cbn; rewrite ?change_state_current_state; congruence.
Qed.

(** X4.  FLASHING_RED is never shown: no run of [update_state] calls takes
    a new controller into that state. *)
Theorem flashing_red_unreachable ticks iid cfg :
  current_state (light_run (new_light iid cfg) ticks) <> FLASHING_RED.
Proof.
  assert (Hinv : forall self, current_state self <> FLASHING_RED ->
                   current_state (light_run self ticks) <> FLASHING_RED).
  { induction ticks as [|t ticks IH]; intros self Hs; [exact Hs|].
    cbn [light_run fold_left]. apply IH.
    now apply update_tick_not_flashing_red. }
  apply Hinv. discriminate.
Qed.

Lemma update_tick_cycle_count self t :
  cycle_count (update_tick self t)
  = cycle_count self
    + (if decide (current_state self <> GREEN
                  /\ current_state (update_tick self t) = GREEN)
       then 1 else 0).
Proof.
  destruct (decide _) as [[Hn Hg]|Hno].
  - revert Hn Hg. update_state_cases; cbn;
      rewrite ?change_state_current_state, ?change_state_cycle_count;
      intros; try congruence;
      repeat match goal with
             | |- context [decide (?a = ?b)] => destruct (decide (a = b))
             end; first [congruence | reflexivity].
  - revert Hno. update_state_cases; cbn;
      rewrite ?change_state_current_state, ?change_state_cycle_count;
      intros Hno;
      repeat match goal with
             | |- context [decide (?a = ?b)] => destruct (decide (a = b))
             end; cbn; try lia; try congruence;
      exfalso; apply Hno; split; first [assumption|congruence].
Qed.

(** X5.  The cycle counter counts entries into GREEN: after any run it has
    grown by the number of ticks on which the light turned GREEN from
    another state, so it never decreases, and from a new controller it is
    exactly that number. *)
Theorem cycle_count_counts_green_entries ticks : forall self iid cfg,
  cycle_count (light_run self ticks)
  = cycle_count self + green_entries self ticks
  /\ cycle_count self <= cycle_count (light_run self ticks)
  /\ cycle_count (light_run (new_light iid cfg) ticks)
     = green_entries (new_light iid cfg) ticks.
Proof.
  assert (Hrun : forall self, cycle_count (light_run self ticks)
                              = cycle_count self + green_entries self ticks).
  { induction ticks as [|t ticks IH]; intros self;
      cbn [light_run fold_left green_entries]; [lia|].
    fold (light_run (update_tick self t) ticks).
    rewrite IH, update_tick_cycle_count. lia. }
  assert (Hpos : forall self, 0 <= green_entries self ticks).
  { clear Hrun.
    induction ticks as [|t ticks IH]; intros self; cbn [green_entries]; [lia|].
    specialize (IH (update_tick self t)).
    destruct (decide _); lia. }
  intros self iid cfg. split; [apply Hrun|]. split.
  - rewrite Hrun. specialize (Hpos self). lia.
  - rewrite Hrun. cbn [cycle_count new_light]. lia.
Qed.

(** X6.  A normal tick (no outage, no scramble, level NONE) either keeps the
    state, with its start time, or moves it one place along
    RED -> PRE_GREEN -> GREEN -> YELLOW -> RED (FLASHING_YELLOW -> RED) and
    restarts the phase at this tick; no state is skipped. *)
Theorem normal_tick_advances_by_one self current_step sensor_data weather
    is_rush_hour :
  let self' := update_state self current_step sensor_data weather NONE
                 false false is_rush_hour in
  (current_state self' = current_state self
   /\ state_start_time self' = state_start_time self
   /\ last_state_change self' = last_state_change self
   /\ cycle_count self' = cycle_count self)
  \/ (current_state self' = next_state (current_state self)
      /\ current_state self' <> current_state self
      /\ state_start_time self' = current_step
      /\ last_state_change self' = current_step).
Proof.
  intros self'. subst self'.
  unfold update_state, calculate_optimal_timing, _update_adaptation_factor,
    get_current_state_duration.
  destruct (decide (NONE <> NONE)) as [F|_]; [now contradiction F|].
  cbn [current_state set_emergency_active fst snd state_start_time].
  destruct (current_state self) eqn:Hs;
    repeat match goal with
           | |- context [Py.int_ge_float ?d ?x] => destruct (Py.int_ge_float d x)
           | |- context [match sensor_data with _ => _ end] =>
               destruct sensor_data
           | |- context [PrimFloat.ltb ?a ?b] => destruct (PrimFloat.ltb a b)
           end;
    cbn; rewrite ?Hs; first
      [ left; repeat split; reflexivity
      | right; repeat split; discriminate ].
Qed.

(* ===================================================================== *)
(** ** TrafficMonitoringSystem: analytics and records *)
(* ===================================================================== *)

(** X7.  The congestion level never exceeds 1.0, for every call: with no
    active sensor it is 0.0, otherwise the mean queue length over 10 capped
    by [min(1.0, ...)]. *)
Theorem congestion_level_at_most_one H self sensors :
  (ProcessedData.congestion_level (fst (process_sensor_data H self sensors))
   <=? 1.0)%float = true.
Proof.
  unfold process_sensor_data.
  destruct sensors as [|a sensors]; [reflexivity|].
  destruct (_detect_anomalies H self (a :: sensors)) as [found self'].
  cbn [fst ProcessedData.congestion_level].
  destruct (List.filter _ (a :: sensors)) as [|b active];
    cbn [ProcessedData.congestion_level]; [reflexivity|].
  unfold Py.min. destruct (_ <? 1.0)%float eqn:E; [|reflexivity].
  now apply ltb_leb.
Qed.

Lemma flat_map_length_le {A B} (f : A -> list B) (l : list A) :
  (forall x, (length (f x) <= 1)%nat) ->
  (length (flat_map f l) <= length l)%nat.
Proof.
  intros Hf. induction l as [|x l IH]; [reflexivity|].
  cbn [flat_map length]. rewrite length_app. specialize (Hf x). lia.
Qed.

(** X8.  Every anomaly record of a call describes a sensor of that call:
    its id, vehicle count and timestamp are those of one submitted sensor,
    whose history held at least 5 entries; its kind is "vehicle_count"; and
    a call emits at most one record per submitted sensor. *)
Theorem anomalies_come_from_sensors H self sensors r :
  In r (ProcessedData.anomalies (fst (process_sensor_data H self sensors))) ->
  (exists a, In a sensors
     /\ Anomaly.sensor_id r = TrafficSensor.id (H a)
     /\ Anomaly.value r = TrafficSensor.vehicle_count (H a)
     /\ Anomaly.timestamp r = TrafficSensor.last_update (H a)
     /\ (5 <= length (history_of self (TrafficSensor.id (H a))))%nat)
  /\ Anomaly.type r = "vehicle_count"
  /\ (length (ProcessedData.anomalies (fst (process_sensor_data H self sensors)))
      <= length sensors)%nat.
Proof.
  intros Hr. apply record_in_anomalies in Hr as (b & Hb & Hf & ->).
  apply flagged_true in Hf as (Hlen & _).
  split; [exists b; repeat split; assumption|].
  split; [reflexivity|].
  rewrite process_sensor_data_anomalies. apply flat_map_length_le.
  intros x. unfold detect_one. destruct (flagged H self x); cbn; lia.
Qed.

Lemma anomalies_come_from_sensors_witness :
  let H := wavering_store in
  let self := monitor_run new_monitor (one_by_one H 9) in
  let r := anomaly_record (H 9%nat) (window_counts H self "sensor_0_0_0") in
  Anomaly.type r = "vehicle_count"
  /\ (length (ProcessedData.anomalies (fst (process_sensor_data H self [9%nat])))
      <= 1)%nat.
Proof.
  intros H self r.
  assert (Hin : In r (ProcessedData.anomalies
                        (fst (process_sensor_data H self [9%nat])))).
  { apply (proj2 (record_in_anomalies H self [9%nat] r)). exists 9%nat.
    split; [left; reflexivity|].
    split; [vm_compute; reflexivity|reflexivity]. }
  pose proof (anomalies_come_from_sensors H self [9%nat] r Hin)
    as (_ & Ht & Hl).
  split; [exact Ht|exact Hl].
Defined.

(** X9.  A fresh monitor needs five arrivals of a sensor id before it can
    report it: as long as fewer than 5 sensors with that id were submitted
    over all earlier calls, the next call emits no record for the id,
    whatever the readings. *)
Theorem fresh_monitor_warm_up calls H sensors sid r :
  (total_arrivals calls sid < 5)%nat ->
  In r (ProcessedData.anomalies
          (fst (process_sensor_data H (monitor_run new_monitor calls) sensors))) ->
  Anomaly.sensor_id r <> sid.
Proof.
  intros Hfew Hr Hid.
  apply record_in_anomalies in Hr as (b & _ & Hf & ->).
  cbn [Anomaly.sensor_id anomaly_record] in Hid.
  apply flagged_true in Hf as (Hlen & _). rewrite Hid in Hlen.
  rewrite monitor_run_history_length in Hlen;
    rewrite history_of_new_monitor in *; cbn [length] in *; lia.
Qed.

Lemma fresh_monitor_warm_up_witness :
  let H := wavering_store in
  let calls := one_by_one H 9 in
  let self := monitor_run new_monitor calls in
  let r := anomaly_record (H 9%nat) (window_counts H self "sensor_0_0_0") in
  Anomaly.sensor_id r <> "sensor_0_1_0".
Proof.
  intros H calls self r.
  assert (Hfew : (total_arrivals calls "sensor_0_1_0" < 5)%nat)
    by (apply Nat.ltb_lt; vm_compute; reflexivity).
  assert (Hin : In r (ProcessedData.anomalies
                        (fst (process_sensor_data H self [9%nat])))).
  { apply (proj2 (record_in_anomalies H self [9%nat] r)). exists 9%nat.
    split; [left; reflexivity|].
    split; [vm_compute; reflexivity|reflexivity]. }
  exact (fresh_monitor_warm_up calls H [9%nat] "sensor_0_1_0" r Hfew Hin).
Defined.

Lemma resubmitted_object_not_flagged_witness :
  let self := monitor_run new_monitor (repeat (single_store 5, [0%nat]) 9) in
  flagged (single_store 20) self 0%nat = false.
Proof.
  intros self. apply resubmitted_object_not_flagged.
  intros b Hb. vm_compute in Hb.
  repeat (destruct Hb as [Hb|Hb]; [now subst|]). contradiction.
Defined.

(* ===================================================================== *)
(** ** EmergencyManagementSystem: registry, priorities, selection *)
(* ===================================================================== *)

(** X10.  Unregistering a vehicle that was just registered succeeds and
    removes the entry under its id.  If the id was free before, the system
    is back to what it was; if it held another vehicle, that vehicle is gone
    too: registration had replaced it.  A second removal fails. *)
Theorem register_then_unregister self vehicle :
  Vehicle.emergency_level vehicle <> NONE ->
  let registered := snd (register_emergency_vehicle self vehicle) in
  let removed := unregister_emergency_vehicle registered (Vehicle.id vehicle) in
  fst removed = true
  /\ active_emergencies (snd removed)
     = delete (Vehicle.id vehicle) (active_emergencies self)
  /\ active_emergencies (snd removed) !! Vehicle.id vehicle = None
  /\ (active_emergencies self !! Vehicle.id vehicle = None ->
      snd removed = self)
  /\ unregister_emergency_vehicle (snd removed) (Vehicle.id vehicle)
     = (false, snd removed).
Proof.
  intros Hl registered removed. subst registered removed.
  unfold register_emergency_vehicle, unregister_emergency_vehicle.
  destruct (decide (Vehicle.emergency_level vehicle <> NONE)); [|contradiction].
  cbn [snd active_emergencies set_active_emergencies].
  rewrite lookup_insert_eq.
  cbn [fst snd active_emergencies set_active_emergencies priority_routes
       weather_impact_factors].
  rewrite delete_insert_eq, lookup_delete_eq.
  repeat split.
  intros Hfree. destruct self as [m routes factors]. cbn in *.
  unfold set_active_emergencies. cbn. f_equal.
  now apply delete_id.
Qed.

Lemma register_then_unregister_witness :
  let self := snd (register_emergency_vehicle new_emergency_system
                     (sample_vehicle "fire_engine_7" TRUCK MEDIUM)) in
  let vehicle := sample_vehicle "ambulance_1" EMERGENCY HIGH in
  snd (unregister_emergency_vehicle
         (snd (register_emergency_vehicle self vehicle)) "ambulance_1") = self.
Proof.
  intros self vehicle.
  refine (proj1 (proj2 (proj2 (proj2
            (register_then_unregister self vehicle _)))) _).
  - discriminate.
  - reflexivity.
Defined.

Lemma registry_call_ok self c : registry_ok self -> registry_ok (registry_call self c).
Proof.
  intros [Hreg Hw]. destruct c as [vehicle|vehicle_id|vehicle intersections];
    cbn [registry_call].
  - unfold register_emergency_vehicle.
    destruct (decide (Vehicle.emergency_level vehicle <> NONE)) as [Hl|];
      [|now split].
    split; [|exact Hw]. cbn. intros vid v.
    destruct (decide (Vehicle.id vehicle = vid)) as [<-|Hne].
    + rewrite lookup_insert_eq. intros [= <-]. now split.
    + rewrite lookup_insert_ne by assumption. apply Hreg.
  - unfold unregister_emergency_vehicle.
    destruct (active_emergencies self !! vehicle_id) eqn:E; [|now split].
    split; [|exact Hw]. cbn. intros vid v Hv.
    apply lookup_delete_Some in Hv as [_ Hv]. now apply Hreg.
  - now split.
Qed.

Lemma registry_run_ok calls : forall self,
  registry_ok self -> registry_ok (registry_run self calls).
Proof.
  unfold registry_run.
  induction calls as [|c calls IH]; intros self Hs; [exact Hs|].
  cbn [fold_left]. apply IH. now apply registry_call_ok.
Qed.

(** X11.  In every registry built from a new system by registering,
    unregistering and routing, each entry is stored under its vehicle's own
    id and carries a level other than NONE; and the weather table is the
    initial one, so [calculate_priority] scores by that table. *)
Theorem registry_run_invariant calls vid v :
  let self := registry_run new_emergency_system calls in
  active_emergencies self !! vid = Some v ->
  Vehicle.id v = vid
  /\ Vehicle.emergency_level v <> NONE
  /\ weather_impact_factors self = weather_impact_factors new_emergency_system.
Proof.
  intros self Hv.
  assert (Hok : registry_ok self).
  { apply registry_run_ok. split; [|reflexivity].
    intros k u Hk. cbn in Hk. now rewrite lookup_empty in Hk. }
  destruct Hok as [Hreg Hw]. destruct (Hreg vid v Hv). auto.
Qed.

Lemma registry_run_invariant_witness :
  let calls := [Register (sample_vehicle "car_12" CAR NONE);
                Register (sample_vehicle "ambulance_1" EMERGENCY HIGH);
                Unregister "fire_engine_7";
                Route (sample_vehicle "ambulance_1" EMERGENCY HIGH) []] in
  let v := sample_vehicle "ambulance_1" EMERGENCY HIGH in
  Vehicle.id v = "ambulance_1" /\ Vehicle.emergency_level v <> NONE
  /\ weather_impact_factors (registry_run new_emergency_system calls)
     = weather_impact_factors new_emergency_system.
Proof.
  intros calls v.
  apply (registry_run_invariant calls "ambulance_1" v).
  vm_compute. reflexivity.
Defined.

Lemma calculate_priority_clear self vehicle :
  weather_impact_factors self = weather_impact_factors new_emergency_system ->
  calculate_priority self vehicle CLEAR
  = spec_base (Vehicle.emergency_level vehicle)
    + spec_bonus (Vehicle.type vehicle).
Proof.
  intros Hw. rewrite calculate_priority_tables by assumption.
  fold (spec_priority vehicle CLEAR). rewrite spec_priority_exact.
  cbn [spec_weather_tenths]. now rewrite Z.quot_mul.
Qed.

(** X12.  With the initial weather table the priority of any vehicle lies
    between 0 and 37, never drops when the weather worsens along
    CLEAR, RAIN, SNOW, FOG, STORM, and under NIGHT is what it is under
    CLEAR, namely base(level) + bonus(type). *)
Theorem calculate_priority_range self vehicle weather :
  weather_impact_factors self = weather_impact_factors new_emergency_system ->
  let p := calculate_priority self vehicle in
  0 <= p weather <= 37
  /\ p CLEAR <= p RAIN /\ p RAIN <= p SNOW /\ p SNOW <= p FOG
  /\ p FOG <= p STORM
  /\ p NIGHT = p CLEAR
  /\ p CLEAR = spec_base (Vehicle.emergency_level vehicle)
               + spec_bonus (Vehicle.type vehicle).
Proof.
  intros Hw p. subst p.
  rewrite (calculate_priority_clear self vehicle Hw).
  rewrite !(calculate_priority_tables self vehicle) by assumption.
  destruct (Vehicle.emergency_level vehicle), (Vehicle.type vehicle), weather;
    vm_compute; repeat split; congruence.
Qed.

Lemma calculate_priority_range_witness :
  let p := calculate_priority new_emergency_system
             (sample_vehicle "ambulance_1" EMERGENCY CRITICAL) in
  0 <= p FOG <= 37
  /\ p CLEAR <= p RAIN /\ p RAIN <= p SNOW /\ p SNOW <= p FOG
  /\ p FOG <= p STORM
  /\ p NIGHT = p CLEAR
  /\ p CLEAR = 15.
Proof.
  apply (calculate_priority_range new_emergency_system
           (sample_vehicle "ambulance_1" EMERGENCY CRITICAL) FOG).
  reflexivity.
Defined.

Lemma py_max_by_snoc {A} (key : A -> Z) (x : A) (xs : list A) (y : A) :
  py_max_by key x (xs ++ [y])
  = if key (py_max_by key x xs) <? key y then y else py_max_by key x xs.
Proof. unfold py_max_by. now rewrite fold_left_app. Qed.

(** [max] returns the first of the items with the greatest key. *)
Lemma py_max_by_first_max {A} (key : A -> Z) (xs : list A) : forall x,
  exists pre post,
    x :: xs = pre ++ py_max_by key x xs :: post
    /\ (forall y, In y pre -> key y < key (py_max_by key x xs))
    /\ (forall y, In y post -> key y <= key (py_max_by key x xs)).
Proof.
  induction xs as [|y xs IH] using rev_ind; intros x.
  - exists [], []. cbn. repeat split; intros y [].
  - rewrite py_max_by_snoc.
    destruct (IH x) as (pre & post & E & Hpre & Hpost).
    destruct (Z.ltb_spec (key (py_max_by key x xs)) (key y)) as [Hlt|Hge].
    + exists (x :: xs), []. split; [now rewrite app_comm_cons|].
      split; [|intros z []].
      intros z Hz. rewrite E in Hz. apply in_app_or in Hz as [Hz|[<-|Hz]].
      * specialize (Hpre z Hz). lia.
      * exact Hlt.
      * specialize (Hpost z Hz). lia.
    + exists pre, (post ++ [y]). split.
      * rewrite app_comm_cons, E, <- app_assoc. reflexivity.
      * split; [exact Hpre|].
        intros z Hz. apply in_app_or in Hz as [Hz|[<-|[]]]; auto.
Qed.

Lemma dict_values_In {V} (m : gmap string V) (values : list V) (v : V) :
  dict_values m values -> (In v values <-> exists k, m !! k = Some v).
Proof.
  unfold dict_values. intros Hp. split.
  - intros Hv. apply (Permutation_in _ Hp) in Hv.
    apply list_elem_of_In, list_elem_of_fmap in Hv as ([k u] & -> & Hku).
    exists k. now apply elem_of_map_to_list.
  - intros (k & Hk). apply (Permutation_in _ (Permutation_sym Hp)).
    apply list_elem_of_In, list_elem_of_fmap. exists (k, v).
    split; [reflexivity|]. now apply elem_of_map_to_list.
Qed.

(** X13.  [get_highest_priority_vehicle] returns None exactly when nothing
    is registered.  Otherwise it returns a registered vehicle whose priority
    under CLEAR weather - the system's current weather plays no part - is
    the greatest in the registry, and among the vehicles of that priority
    the first in iteration order. *)
Theorem get_highest_priority_vehicle_spec self values :
  dict_values (active_emergencies self) values ->
  let key v := calculate_priority self v CLEAR in
  (get_highest_priority_vehicle self values = None
   <-> active_emergencies self = ∅)
  /\ forall best, get_highest_priority_vehicle self values = Some best ->
       (exists vid, active_emergencies self !! vid = Some best)
       /\ (forall vid v, active_emergencies self !! vid = Some v ->
                         key v <= key best)
       /\ exists pre post,
            values = pre ++ best :: post
            /\ (forall v, In v pre -> key v < key best)
            /\ (forall v, In v post -> key v <= key best).
Proof.
  intros Hd key.
  assert (Hnil : values = [] <-> active_emergencies self = ∅).
  { unfold dict_values in Hd. split.
    - intros ->. apply Permutation_nil in Hd.
      apply fmap_nil_inv in Hd. now apply map_to_list_empty_iff.
    - intros E. rewrite E, map_to_list_empty in Hd.
      now apply Permutation_nil, Permutation_sym. }
  unfold get_highest_priority_vehicle.
  destruct (Nat.eqb_spec (size (active_emergencies self)) 0) as [Hz|Hnz].
  - apply map_size_empty_iff in Hz. split; [tauto|discriminate].
  - assert (Hne : active_emergencies self <> ∅)
      by (intros E; apply Hnz; now apply map_size_empty_iff).
    destruct values as [|v vs]; [exfalso; apply Hne; now apply Hnil|].
    split; [split; [discriminate|contradiction]|].
    intros best [= <-].
    destruct (py_max_by_first_max key vs v) as (pre & post & E & Hpre & Hpost).
    fold key. set (best := py_max_by key v vs) in *.
    assert (Hall : forall u, In u (v :: vs) -> key u <= key best).
    { intros u Hu. rewrite E in Hu.
      apply in_app_or in Hu as [Hu|[<-|Hu]];
        [specialize (Hpre u Hu)|..|specialize (Hpost u Hu)]; lia. }
    split; [|split].
    + apply (dict_values_In _ _ _ Hd). rewrite E.
      apply in_or_app. right. now left.
    + intros vid u Hu. apply Hall. apply (dict_values_In _ _ _ Hd). eauto.
    + exists pre, post. auto.
Qed.

Lemma get_highest_priority_vehicle_spec_witness :
  let low := sample_vehicle "ambulance_1" EMERGENCY LOW in
  let high := sample_vehicle "fire_engine_7" TRUCK HIGH in
  let self := registry_run new_emergency_system [Register low; Register high] in
  get_highest_priority_vehicle self [low; high] = Some high
  /\ exists vid, active_emergencies self !! vid = Some high.
Proof.
  intros low high self.
  assert (Hd : dict_values (active_emergencies self) [low; high]).
  { unfold dict_values. vm_compute. apply Permutation_refl. }
  assert (Hg : get_highest_priority_vehicle self [low; high] = Some high)
    by (vm_compute; reflexivity).
  split; [exact Hg|].
  exact (proj1 (proj2 (get_highest_priority_vehicle_spec self [low; high] Hd)
                  high Hg)).
Defined.

Lemma clear_priority_tells_level v1 v2 :
  spec_base (Vehicle.emergency_level v1) + spec_bonus (Vehicle.type v1)
  = spec_base (Vehicle.emergency_level v2) + spec_bonus (Vehicle.type v2) ->
  Vehicle.emergency_level v1 = Vehicle.emergency_level v2.
Proof.
  destruct (Vehicle.emergency_level v1), (Vehicle.emergency_level v2),
    (Vehicle.type v1), (Vehicle.type v2); cbn; intros E;
    first [reflexivity | discriminate E].
Qed.

(** X14.  The emergency level of the selected vehicle does not depend on
    the order in which the registry is iterated: two enumerations of the
    same registry select vehicles of the same level and the same priority
    (ties are only possible between vehicles of one level). *)
Theorem highest_priority_level_order_free self values1 values2 best1 best2 :
  weather_impact_factors self = weather_impact_factors new_emergency_system ->
  dict_values (active_emergencies self) values1 ->
  dict_values (active_emergencies self) values2 ->
  get_highest_priority_vehicle self values1 = Some best1 ->
  get_highest_priority_vehicle self values2 = Some best2 ->
  Vehicle.emergency_level best1 = Vehicle.emergency_level best2
  /\ calculate_priority self best1 CLEAR = calculate_priority self best2 CLEAR.
Proof.
  intros Hw Hd1 Hd2 H1 H2.
  destruct (get_highest_priority_vehicle_spec self values1 Hd1) as [_ S1].
  destruct (get_highest_priority_vehicle_spec self values2 Hd2) as [_ S2].
  destruct (S1 best1 H1) as ((k1 & Hk1) & Hmax1 & _).
  destruct (S2 best2 H2) as ((k2 & Hk2) & Hmax2 & _).
  pose proof (Hmax1 k2 best2 Hk2). pose proof (Hmax2 k1 best1 Hk1).
  assert (E : calculate_priority self best1 CLEAR
              = calculate_priority self best2 CLEAR) by lia.
  split; [|exact E].
  rewrite !calculate_priority_clear in E by assumption.
  now apply clear_priority_tells_level.
Qed.

Lemma highest_priority_level_order_free_witness :
  let a := sample_vehicle "ambulance_1" EMERGENCY HIGH in
  let b := sample_vehicle "ambulance_2" EMERGENCY HIGH in
  let self := registry_run new_emergency_system [Register a; Register b] in
  get_highest_priority_vehicle self [a; b] = Some a
  /\ get_highest_priority_vehicle self [b; a] = Some b
  /\ Vehicle.emergency_level a = Vehicle.emergency_level b.
Proof.
  intros a b self.
  assert (H1 : get_highest_priority_vehicle self [a; b] = Some a)
    by (vm_compute; reflexivity).
  assert (H2 : get_highest_priority_vehicle self [b; a] = Some b)
    by (vm_compute; reflexivity).
  assert (Hd1 : dict_values (active_emergencies self) [a; b]).
  { unfold dict_values. vm_compute.
    first [apply Permutation_refl | apply perm_swap]. }
  assert (Hd2 : dict_values (active_emergencies self) [b; a]).
  { unfold dict_values. vm_compute.
    first [apply Permutation_refl | apply perm_swap]. }
  split; [exact H1|]. split; [exact H2|].
  exact (proj1 (highest_priority_level_order_free self [a; b] [b; a] a b
                  eq_refl Hd1 Hd2 H1 H2)).
Defined.

(* ===================================================================== *)
(** ** ConfigurationManager: get and set *)
(* ===================================================================== *)

Lemma split_dot_nonempty (s : string) : split_dot s <> [].
Proof.
  induction s as [|c s IH]; cbn; [discriminate|].
  destruct (Ascii.eqb c "."); [discriminate|].
  destruct (split_dot s); discriminate.
Qed.

Lemma get_loop_leaf_default d keys :
  is_dict d = false -> ConfigurationManager.get_loop d keys d = d.
Proof.
  intros Hd. destruct keys as [|k ks]; [reflexivity|].
  destruct d; try reflexivity; discriminate.
Qed.

Lemma get_loop_lookup_path keys : forall c d,
  is_dict d = false ->
  ConfigurationManager.get_loop c keys d
  = from_option id d (lookup_path c keys).
Proof.
  induction keys as [|k ks IH]; intros c d Hd; [reflexivity|].
  destruct c; try reflexivity. cbn.
  destruct (entries !! k) as [child|]; cbn.
  - now apply IH.
  - now apply get_loop_leaf_default.
Qed.

(** Unfolding [set_loop] one step on a path of two keys or more. *)
Lemma set_loop_step m k k2 ks v :
  ConfigurationManager.set_loop (CDict m) (k :: k2 :: ks) v
  = match ConfigurationManager.set_loop
            (from_option id (CDict ∅) (m !! k)) (k2 :: ks) v with
    | Some child => Some (CDict (<[k := child]> m))
    | None => None
    end.
Proof. reflexivity. Qed.

Lemma set_loop_dict keys : forall c v c',
  ConfigurationManager.set_loop c keys v = Some c' -> is_dict c' = true.
Proof.
  intros c v c'. destruct keys as [|k [|k2 ks]]; destruct c; try discriminate.
  - now intros [= <-].
  - rewrite set_loop_step.
    destruct (ConfigurationManager.set_loop _ (k2 :: ks) v); [|discriminate].
    now intros [= <-].
Qed.





(** X16.  For a default that is not a dictionary, [get] returns the value
    found by following the keys of the path when each of them is present,
    and the default otherwise; it never fails. *)
Theorem config_get_default self key_path default :
  is_dict default = false ->
  ConfigurationManager.get self key_path default
  = from_option id default
      (lookup_path (CDict (ConfigurationManager.config self))
                   (split_dot key_path)).
Proof. intros Hd. now apply get_loop_lookup_path. Qed.

Lemma config_get_default_witness :
  ConfigurationManager.get (ConfigurationManager.new None)
    "sensors.history_size" CNone = CInt 100
  /\ ConfigurationManager.get (ConfigurationManager.new None)
       "sensors.window" (CInt 10) = CInt 10.
Proof.
  split.
  - rewrite config_get_default by reflexivity. reflexivity.
  - rewrite config_get_default by reflexivity. reflexivity.
Defined.

Lemma set_loop_none keys : forall c v,
  keys <> [] ->
  (ConfigurationManager.set_loop c keys v = None
   <-> exists pre post x,
         keys = pre ++ post /\ post <> []
         /\ lookup_path c pre = Some x /\ is_dict x = false).
Proof.
  induction keys as [|k ks IH]; intros c v Hne; [contradiction|].
  assert (Hleaf : is_dict c = false ->
                  ConfigurationManager.set_loop c (k :: ks) v = None)
    by (intros Hc; destruct c, ks; first [reflexivity | discriminate Hc]).
  split.
  - intros Hset. destruct (is_dict c) eqn:Hc.
    + destruct c; try discriminate Hc. destruct ks as [|k2 ks];
        [discriminate Hset|].
      rewrite set_loop_step in Hset.
      destruct (ConfigurationManager.set_loop _ (k2 :: ks) v) eqn:E;
        [discriminate Hset|].
      apply IH in E as (pre & post & x & Hk & Hpost & Hlook & Hx);
        [|discriminate].
      destruct (entries !! k) as [child|] eqn:Ek; cbn [from_option id] in Hlook.
      * exists (k :: pre), post, x. repeat split; try assumption.
        -- cbn. now rewrite Hk.
        -- cbn. now rewrite Ek.
      * destruct pre as [|k' pre]; cbn in Hlook.
        -- injection Hlook as <-. discriminate Hx.
        -- rewrite lookup_empty in Hlook. discriminate Hlook.
    + exists [], (k :: ks), c. repeat split; [discriminate|assumption].
  - intros (pre & post & x & Hk & Hpost & Hlook & Hx).
    destruct pre as [|k' pre].
    + cbn in Hlook. injection Hlook as <-. now apply Hleaf.
    + cbn [app] in Hk. injection Hk as <- Hks.
      destruct c; try (now apply Hleaf). cbn in Hlook.
      destruct (entries !! k) as [child|] eqn:Ek; [|discriminate Hlook].
      destruct ks as [|k2 ks]; [destruct pre, post; discriminate || contradiction|].
      rewrite set_loop_step, Ek. cbn [from_option id].
      assert (E : ConfigurationManager.set_loop child (k2 :: ks) v = None).
      { apply IH; [discriminate|]. exists pre, post, x. auto. }
      now rewrite E.
Qed.

(** X17.  [set] raises (and writes nothing) exactly when a proper prefix of
    the path leads to a value that is not a dictionary; on every other
    path it succeeds, creating the missing dictionaries. *)
Theorem config_set_fails_iff self key_path value :
  ConfigurationManager.set self key_path value = None
  <-> exists pre post x,
        split_dot key_path = pre ++ post /\ pre <> [] /\ post <> []
        /\ lookup_path (CDict (ConfigurationManager.config self)) pre = Some x
        /\ is_dict x = false.
Proof.
  unfold ConfigurationManager.set.
  pose proof (set_loop_none (split_dot key_path)
                (CDict (ConfigurationManager.config self)) value
                (split_dot_nonempty key_path)) as Hiff.
  destruct (ConfigurationManager.set_loop _ _ _) as [c'|] eqn:E.
  - pose proof (set_loop_dict _ _ _ _ E) as Hd.
    destruct c'; try discriminate Hd. split; [discriminate|].
    intros (pre & post & x & Hk & _ & Hpost & Hlook & Hx).
    assert (F : Some (CDict entries) = None)
      by (apply Hiff; now exists pre, post, x).
    discriminate F.
  - split; [|reflexivity]. intros _.
    destruct (proj1 Hiff eq_refl) as (pre & post & x & Hk & Hpost & Hlook & Hx).
    exists pre, post, x. repeat split; try assumption.
    intros ->. cbn in Hlook. injection Hlook as <-. discriminate Hx.
Qed.

(** X18.  Loading a configuration file merges at the top level only: a
    section named by the file replaces the default section as a whole, so a
    path into it reads what the file says and nothing of the defaults; the
    sections the file does not name keep their defaults. *)
Theorem config_load_is_shallow loaded key_path key rest default :
  split_dot key_path = key :: rest ->
  ConfigurationManager.get (ConfigurationManager.new (Some loaded))
    key_path default
  = match loaded !! key with
    | Some _ =>
        ConfigurationManager.get (ConfigurationManager.mk loaded)
          key_path default
    | None =>
        ConfigurationManager.get (ConfigurationManager.new None)
          key_path default
    end.
Proof.
  intros Hk. unfold ConfigurationManager.get. rewrite Hk.
  cbn [ConfigurationManager.new ConfigurationManager.load_config
       ConfigurationManager.config ConfigurationManager.get_loop].
  destruct (loaded !! key) as [x|] eqn:E.
  - now rewrite (lookup_union_Some_l _ _ _ _ E).
  - now rewrite lookup_union_r.
Qed.

Lemma config_load_is_shallow_witness :
  let loaded : gmap string ConfigValue :=
    {[ "sensors" := CDict {[ "history_size" := CInt 50 ]} ]} in
  ConfigurationManager.get (ConfigurationManager.new (Some loaded))
    "sensors.anomaly_threshold" CNone = CNone
  /\ ConfigurationManager.get (ConfigurationManager.new None)
       "sensors.anomaly_threshold" CNone = CFloat 2.0.
Proof.
  intros loaded. split; [|reflexivity].
  rewrite (config_load_is_shallow loaded "sensors.anomaly_threshold"
             "sensors" ["anomaly_threshold"] CNone eq_refl).
  reflexivity.
Defined.

Lemma config_set_fails_iff_witness :
  ConfigurationManager.set (ConfigurationManager.new None)
    "system.name.first" (CStr "Traffic") = None.
Proof.
  apply config_set_fails_iff.
  exists ["system"; "name"], ["first"], (CStr "Advanced Traffic Control System").
  repeat split; try discriminate.
Defined.

(* ===================================================================== *)
(** ** InteractiveTrafficControlSystem: one step *)
(* ===================================================================== *)

Lemma store_set_eq H a s : store_set H a s a = s.
Proof. unfold store_set. now rewrite Nat.eqb_refl. Qed.

Lemma store_set_ne H a s b : b <> a -> store_set H a s b = H b.
Proof.
  intros Hne. unfold store_set.
  destruct (Nat.eqb_spec b a); [contradiction|reflexivity].
Qed.

(** The loop over the sensors leaves the id, the position and the activity
    flag of every object as they are. *)
Lemma perturb_sensors_fixed env sensors : forall H i a,
  TrafficSensor.id (TrafficSystem.perturb_sensors env H sensors i a)
  = TrafficSensor.id (H a)
  /\ TrafficSensor.position (TrafficSystem.perturb_sensors env H sensors i a)
     = TrafficSensor.position (H a)
  /\ TrafficSensor.is_active (TrafficSystem.perturb_sensors env H sensors i a)
     = TrafficSensor.is_active (H a).
Proof.
  induction sensors as [|b sensors IH]; intros H i a; [now repeat split|].
  cbn [TrafficSystem.perturb_sensors].
  destruct (StepEnv.draw env i) as [[dv ds] dq].
  destruct (IH (store_set H b
                  (TrafficSensor.mk (TrafficSensor.id (H b))
                     (TrafficSensor.position (H b))
                     (Z.max 0 (TrafficSensor.vehicle_count (H b) + dv))
                     (Py.max 5.0 (Py.min 80.0 (TrafficSensor.average_speed (H b) + ds)%float))
                     (Z.max 0 (Z.min 20 (TrafficSensor.queue_length (H b) + dq)))
                     (StepEnv.sensor_now env i)
                     (TrafficSensor.is_active (H b))))
               (S i) a) as (E1 & E2 & E3).
  rewrite E1, E2, E3.
  destruct (Nat.eq_dec a b) as [->|Hne].
  - rewrite store_set_eq. now repeat split.
  - rewrite store_set_ne by assumption. now repeat split.
Qed.

Lemma perturb_sensors_outside env sensors : forall H i a,
  ~ In a sensors -> TrafficSystem.perturb_sensors env H sensors i a = H a.
Proof.
  induction sensors as [|b sensors IH]; intros H i a Hn; [reflexivity|].
  cbn [TrafficSystem.perturb_sensors].
  destruct (StepEnv.draw env i) as [[dv ds] dq].
  rewrite IH by (intros Hin; apply Hn; now right).
  apply store_set_ne. intros ->. apply Hn. now left.
Qed.

Lemma perturb_sensors_in_range env sensors : forall H i a,
  sensor_in_range (H a) \/ In a sensors ->
  sensor_in_range (TrafficSystem.perturb_sensors env H sensors i a).
Proof.
  induction sensors as [|b sensors IH]; intros H i a Ha.
  - destruct Ha as [Ha|[]]. exact Ha.
  - cbn [TrafficSystem.perturb_sensors].
    destruct (StepEnv.draw env i) as [[dv ds] dq].
    apply IH.
    destruct (Nat.eq_dec a b) as [->|Hne].
    + left. rewrite store_set_eq. unfold sensor_in_range.
      cbn [TrafficSensor.vehicle_count TrafficSensor.average_speed
           TrafficSensor.queue_length].
      split; [lia|]. split; [|split; [|lia]].
      * apply (clamp_bounds (TrafficSensor.average_speed (H b) + ds) 5.0 80.0).
        reflexivity.
      * apply (clamp_bounds (TrafficSensor.average_speed (H b) + ds) 5.0 80.0).
        reflexivity.
    + rewrite store_set_ne by assumption.
      destruct Ha as [Ha|[Ha|Ha]]; [now left|congruence|now right].
Qed.

Lemma process_step_store env H self :
  snd (fst (TrafficSystem.process_step env H self))
  = TrafficSystem.perturb_sensors env H (TrafficSystem.get_all_sensors self) 0.
Proof.
  unfold TrafficSystem.process_step.
  cbn [TrafficSystem.sensors TrafficSystem.set_current_step
       TrafficSystem.monitoring_system TrafficSystem.get_all_sensors].
  destruct (process_sensor_data _ _ _) as [analytics monitoring].
  reflexivity.
Qed.

(** X19.  After a step, whatever the random draws were (not-a-number
    included), every sensor of the system counts at least 0 vehicles, has
    an average speed between 5.0 and 80.0 and a queue length between 0 and
    20.  The step changes no sensor's id, position or activity flag, and
    writes to no object that is not one of the system's sensors. *)
Theorem process_step_sensors_in_range env H self a :
  let H' := snd (fst (TrafficSystem.process_step env H self)) in
  (In a (TrafficSystem.get_all_sensors self) -> sensor_in_range (H' a))
  /\ (~ In a (TrafficSystem.get_all_sensors self) -> H' a = H a)
  /\ TrafficSensor.id (H' a) = TrafficSensor.id (H a)
  /\ TrafficSensor.position (H' a) = TrafficSensor.position (H a)
  /\ TrafficSensor.is_active (H' a) = TrafficSensor.is_active (H a).
Proof.
  intros H'. subst H'. rewrite process_step_store.
  split; [|split].
  - intros Hin. apply perturb_sensors_in_range. now right.
  - apply perturb_sensors_outside.
  - apply perturb_sensors_fixed.
Qed.

Lemma process_step_sensors_in_range_witness :
  let st := system_run (two_sensor_store, sample_system)
              [AddSensor 0%nat; AddSensor 1%nat] in
  sensor_in_range
    (snd (fst (TrafficSystem.process_step (sample_env 3 90.0 (-9))
                 (fst st) (snd st))) 1%nat).
Proof.
  intros st.
  apply (proj1 (process_step_sensors_in_range (sample_env 3 90.0 (-9))
                  (fst st) (snd st) 1%nat)).
  right. left. reflexivity.
Defined.

(** What one step does to each part of the system. *)
Lemma process_step_fields env H self :
  let H' := TrafficSystem.perturb_sensors env H
              (TrafficSystem.get_all_sensors self) 0 in
  let pd := process_sensor_data H' (TrafficSystem.monitoring_system self)
              (TrafficSystem.get_all_sensors self) in
  let r := TrafficSystem.process_step env H self in
  let info := fst (fst r) in
  let self' := snd r in
  TrafficSystem.sensors self' = TrafficSystem.sensors self
  /\ TrafficSystem.monitoring_system self' = snd pd
  /\ StepInfo.analytics info = fst pd
  /\ TrafficSystem.emergency_system self' = TrafficSystem.emergency_system self
  /\ TrafficSystem.config_manager self' = TrafficSystem.config_manager self
  /\ TrafficSystem.current_step self' = TrafficSystem.current_step self + 1
  /\ StepInfo.step info = TrafficSystem.current_step self + 1
  /\ TrafficSystem.step_log self'
     = (let l := TrafficSystem.step_log self ++ [info] in
        if (1000 <? length l)%nat then Py.last_n 1000 l else l)
  /\ TrafficSystem.performance_monitor self'
     = PerformanceMonitor.track_step
         (let monitor :=
            PerformanceMonitor.update_metric
              (TrafficSystem.performance_monitor self)
              "total_vehicles_processed"
              (Py.Int (ProcessedData.total_vehicles (fst pd))) in
          match ProcessedData.anomalies (fst pd) with
          | [] => monitor
          | _ :: _ =>
              PerformanceMonitor.increment_metric monitor "anomalies_detected"
                (Py.len (ProcessedData.anomalies (fst pd)))
          end)
         (StepEnv.clock_end env - StepEnv.clock_start env)%float
  /\ (TrafficSystem.power_outage self' = TrafficSystem.power_outage self
      /\ TrafficSystem.is_rush_hour self' = TrafficSystem.is_rush_hour self
      /\ TrafficSystem.is_pedestrian_scramble self'
         = TrafficSystem.is_pedestrian_scramble self
      /\ TrafficSystem.current_weather self' = TrafficSystem.current_weather self
      /\ TrafficSystem.system_status self' = TrafficSystem.system_status self
      /\ TrafficSystem.current_scenario self'
         = TrafficSystem.current_scenario self)
  /\ TrafficSystem.intersections self'
     = map (fun '(iid, intersection) =>
              (iid, update_state intersection
                      (TrafficSystem.current_step self + 1)
                      (map H' (TrafficSystem.get_all_sensors self))
                      (TrafficSystem.current_weather self)
                      match get_highest_priority_vehicle
                              (TrafficSystem.emergency_system self)
                              (StepEnv.emergency_values env) with
                      | Some v => Vehicle.emergency_level v
                      | None => NONE
                      end
                      (TrafficSystem.power_outage self)
                      (TrafficSystem.is_pedestrian_scramble self)
                      (TrafficSystem.is_rush_hour self)))
           (TrafficSystem.intersections self)
  /\ StepInfo.intersection_states info
     = map (fun '(iid, light) =>
              (iid, IntersectionState.mk (current_state light)
                      (get_current_state_duration light
                         (TrafficSystem.current_step self + 1))
                      (cycle_count light)))
           (TrafficSystem.intersections self')
  /\ StepInfo.active_emergencies info
     = Z.of_nat (size (active_emergencies (TrafficSystem.emergency_system self)))
  /\ StepInfo.weather info = TrafficSystem.current_weather self
  /\ StepInfo.system_status info = TrafficSystem.system_status self.
Proof.
  intros H' pd r info self'. subst r info self' pd H'.
  destruct self.
  unfold TrafficSystem.process_step, TrafficSystem.get_all_sensors.
  cbn [TrafficSystem.sensors TrafficSystem.set_current_step
       TrafficSystem.monitoring_system].
  destruct (process_sensor_data _ _ _) as [analytics monitoring].
  cbn [fst snd]. repeat split.
Qed.

(** What a status query does to each part of the system. *)
Lemma get_system_status_fields now1 now2 H self :
  let pd := process_sensor_data H (TrafficSystem.monitoring_system self)
              (TrafficSystem.get_all_sensors self) in
  let r := TrafficSystem.get_system_status now1 now2 H self in
  snd r = TrafficSystem.set_monitoring_system (snd pd) self
  /\ StatusReport.analytics (fst r) = fst pd
  /\ StatusReport.step (fst r) = TrafficSystem.current_step self
  /\ StatusReport.performance (fst r)
     = PerformanceMonitor.get_metrics_summary
         (TrafficSystem.performance_monitor self) now1
  /\ StatusReport.health (fst r)
     = PerformanceMonitor.check_system_health
         (TrafficSystem.performance_monitor self) now2
  /\ StatusReport.sensor_count (fst r)
     = Py.len (TrafficSystem.get_all_sensors self)
  /\ StatusReport.intersection_count (fst r)
     = Py.len (TrafficSystem.intersections self).
Proof.
  intros pd r. subst r pd. unfold TrafficSystem.get_system_status.
  destruct (process_sensor_data _ _ _) as [analytics monitoring].
  cbn [fst snd]. repeat split.
Qed.

Lemma arrivals_inv H sid sensors a :
  In a (arrivals H sid sensors) -> In a sensors /\ TrafficSensor.id (H a) = sid.
Proof.
  unfold arrivals. intros Ha. apply filter_In in Ha as [Ha Hid].
  split; [assumption|]. now apply bool_decide_eq_true_1 in Hid.
Qed.

Lemma last_n_In {A} (n : nat) (l : list A) (x : A) :
  In x (Py.last_n n l) -> In x l.
Proof.
  unfold Py.last_n. intros Hx. apply list_elem_of_In.
  eapply subseteq_drop. apply list_elem_of_In. exact Hx.
Qed.

Lemma flat_map_nil {A B} (f : A -> list B) (l : list A) :
  (forall x, In x l -> f x = []) -> flat_map f l = [].
Proof.
  induction l as [|x l IH]; intros Hf; [reflexivity|].
  cbn [flat_map]. rewrite (Hf x (or_introl eq_refl)), IH; [reflexivity|].
  intros y Hy. apply Hf. now right.
Qed.

(** When every history holds only objects of its own id and no two objects
    share an id, a pass over the sensors reports nothing, and the histories
    stay that way. *)
Lemma quiet_process_sensor_data S H self sensors :
  (forall a b, In a S -> In b S ->
               TrafficSensor.id (H a) = TrafficSensor.id (H b) -> a = b) ->
  (forall a, In a sensors -> In a S) ->
  (forall sid b, In b (history_of self sid) ->
                 In b S /\ TrafficSensor.id (H b) = sid) ->
  ProcessedData.anomalies (fst (process_sensor_data H self sensors)) = []
  /\ forall sid b,
       In b (history_of (snd (process_sensor_data H self sensors)) sid) ->
       In b S /\ TrafficSensor.id (H b) = sid.
Proof.
  intros Hinj Hsens Hhist. split.
  - rewrite process_sensor_data_anomalies. apply flat_map_nil.
    intros a Ha. unfold detect_one.
    rewrite resubmitted_object_not_flagged; [reflexivity|].
    intros b Hb. destruct (Hhist _ _ Hb) as [HbS Hid].
    apply Hinj; auto.
  - intros sid b. rewrite process_sensor_data_history.
    destruct (arrivals H sid sensors) as [|c cs] eqn:E; [apply Hhist|].
    intros Hb. apply last_n_In, in_app_or in Hb as [Hb|Hb];
      [now apply Hhist|].
    rewrite <- E in Hb. apply arrivals_inv in Hb as [Hb Hid]. auto.
Qed.

Lemma track_step_other self d name :
  name <> "total_steps" ->
  PerformanceMonitor.metrics (PerformanceMonitor.track_step self d) !! name
  = PerformanceMonitor.metrics self !! name.
Proof.
  intros Hne. unfold PerformanceMonitor.track_step.
  cbn [PerformanceMonitor.metrics]. now rewrite lookup_alter_ne.
Qed.

Lemma update_metric_other self key value name :
  name <> key ->
  PerformanceMonitor.metrics (PerformanceMonitor.update_metric self key value)
    !! name
  = PerformanceMonitor.metrics self !! name.
Proof.
  intros Hne. unfold PerformanceMonitor.update_metric.
  destruct (PerformanceMonitor.metrics self !! key); [|reflexivity].
  cbn [PerformanceMonitor.metrics]. now rewrite lookup_insert_ne.
Qed.

Lemma increment_metric_other self key amount name :
  name <> key ->
  PerformanceMonitor.metrics (PerformanceMonitor.increment_metric self key amount)
    !! name
  = PerformanceMonitor.metrics self !! name.
Proof.
  intros Hne. unfold PerformanceMonitor.increment_metric.
  destruct (PerformanceMonitor.metrics self !! key); [|reflexivity].
  cbn [PerformanceMonitor.metrics]. now rewrite lookup_insert_ne.
Qed.

Lemma quiet_process_step S env H self :
  quiet S (H, self) ->
  let r := TrafficSystem.process_step env H self in
  ProcessedData.anomalies (StepInfo.analytics (fst (fst r))) = []
  /\ quiet S (snd (fst r), snd r).
Proof.
  intros (Hinj & Hsens & Hhist & Hlog & Hmet) r. subst r.
  pose proof (process_step_fields env H self)
    as (Es & Em & Ea & _ & _ & _ & _ & El & Ep & _).
  rewrite process_step_store.
  set (H' := TrafficSystem.perturb_sensors env H
               (TrafficSystem.get_all_sensors self) 0) in *.
  assert (Hid : forall a, TrafficSensor.id (H' a) = TrafficSensor.id (H a))
    by (intros a; apply perturb_sensors_fixed).
  destruct (quiet_process_sensor_data S H'
              (TrafficSystem.monitoring_system self)
              (TrafficSystem.get_all_sensors self)) as [Hno Hhist'].
  { intros a b Ha Hb. rewrite !Hid. now apply Hinj. }
  { exact Hsens. }
  { intros sid b Hb. rewrite Hid. now apply Hhist. }
  cbv zeta in Ea, El, Ep, Em.
  rewrite Ea. split; [exact Hno|].
  unfold quiet. split; [|split; [|split; [|split]]].
  - intros a b Ha Hb. rewrite !Hid. now apply Hinj.
  - unfold TrafficSystem.get_all_sensors. rewrite Es. exact Hsens.
  - rewrite Em. exact Hhist'.
  - intros info. rewrite El.
    set (l := TrafficSystem.step_log self ++ _).
    intros Hin.
    assert (Hin' : In info l)
      by (destruct (1000 <? length l)%nat; [now apply last_n_In in Hin|exact Hin]).
    apply in_app_or in Hin' as [Hin'|[<-|[]]]; [now apply Hlog|].
    rewrite Ea. exact Hno.
  - rewrite Ep, Hno, track_step_other, update_metric_other by discriminate.
    exact Hmet.
Qed.

Lemma quiet_get_system_status S now1 now2 H self :
  quiet S (H, self) ->
  let r := TrafficSystem.get_system_status now1 now2 H self in
  ProcessedData.anomalies (StatusReport.analytics (fst r)) = []
  /\ quiet S (H, snd r).
Proof.
  intros (Hinj & Hsens & Hhist & Hlog & Hmet) r. subst r.
  pose proof (get_system_status_fields now1 now2 H self) as (Es & Ea & _).
  destruct (quiet_process_sensor_data S H
              (TrafficSystem.monitoring_system self)
              (TrafficSystem.get_all_sensors self) Hinj Hsens Hhist)
    as [Hno Hhist'].
  cbv zeta in Es, Ea. rewrite Ea, Es. split; [exact Hno|].
  unfold quiet. auto.
Qed.

Lemma odict_set_values {V} (d : odict V) (k : string) (x v : V) :
  In v (odict_values (odict_set d k x)) -> v = x \/ In v (odict_values d).
Proof.
  unfold odict_values. induction d as [|[k' v'] d IH]; cbn [odict_set map In].
  - intros [<-|[]]. now left.
  - destruct (decide (k' = k)); cbn [map In snd].
    + intros [<-|Hv]; auto.
    + intros [<-|Hv]; auto. destruct (IH Hv); auto.
Qed.

(** The two outcomes of [handle_emergency_vehicle]. *)
Lemma handle_emergency_vehicle_eq self vehicle :
  let r := TrafficSystem.handle_emergency_vehicle self vehicle in
  let emergency := TrafficSystem.emergency_system self in
  let priority :=
    calculate_priority emergency vehicle (TrafficSystem.current_weather self) in
  let route :=
    map IntersectionConfig.id
      (take 3 (map config (odict_values (TrafficSystem.intersections self)))) in
  let stored :=
    Vehicle.mk (Vehicle.id vehicle) (Vehicle.type vehicle)
      (Vehicle.speed vehicle) (Vehicle.position vehicle)
      (Vehicle.destination vehicle) priority
      (Vehicle.emergency_level vehicle) (Vehicle.direction vehicle)
      (Vehicle.timestamp vehicle) in
  (Vehicle.emergency_level vehicle = NONE ->
   r = (EmergencyResult.mk false None None None
          "Vehicle is not an emergency vehicle", self))
  /\ (Vehicle.emergency_level vehicle <> NONE ->
      r = (EmergencyResult.mk true (Some (Vehicle.id vehicle)) (Some priority)
             (Some route)
             ("Emergency vehicle " +:+ Vehicle.id vehicle
              +:+ " registered with priority " +:+ pretty priority),
           TrafficSystem.set_performance_monitor
             (PerformanceMonitor.increment_metric
                (TrafficSystem.performance_monitor self)
                "emergency_responses" 1)
             (TrafficSystem.set_emergency_system
                (mkEmergency
                   (<[Vehicle.id vehicle := stored]> (active_emergencies emergency))
                   (<[Vehicle.id vehicle := route]> (priority_routes emergency))
                   (weather_impact_factors emergency))
                self))).
Proof.
  intros r emergency priority route stored. subst r.
  unfold TrafficSystem.handle_emergency_vehicle, register_emergency_vehicle.
  fold emergency.
  destruct (decide (Vehicle.emergency_level vehicle <> NONE)) as [Hl|Hl].
  - split; [intros E; contradiction|]. intros _.
    cbn [negb]. unfold generate_priority_route.
    cbn [set_active_emergencies set_priority_routes active_emergencies
         priority_routes weather_impact_factors Vehicle.id].
    rewrite insert_insert_eq.
    unfold calculate_priority.
    cbn [weather_impact_factors set_active_emergencies].
    reflexivity.
  - split; [|intros E; contradiction]. intros _. reflexivity.
Qed.

Lemma quiet_same S H self self' :
  TrafficSystem.sensors self' = TrafficSystem.sensors self ->
  TrafficSystem.monitoring_system self' = TrafficSystem.monitoring_system self ->
  TrafficSystem.step_log self' = TrafficSystem.step_log self ->
  PerformanceMonitor.metrics (TrafficSystem.performance_monitor self')
    !! "anomalies_detected"
  = PerformanceMonitor.metrics (TrafficSystem.performance_monitor self)
      !! "anomalies_detected" ->
  quiet S (H, self) -> quiet S (H, self').
Proof.
  intros Es Em El Ep (Hinj & Hsens & Hhist & Hlog & Hmet).
  unfold quiet, TrafficSystem.get_all_sensors in *.
  rewrite Es, Em, El, Ep. auto.
Qed.

Lemma load_scenario_keeps self scenario :
  let self' := snd (TrafficSystem.load_scenario self scenario) in
  TrafficSystem.sensors self' = TrafficSystem.sensors self
  /\ TrafficSystem.monitoring_system self' = TrafficSystem.monitoring_system self
  /\ TrafficSystem.step_log self' = TrafficSystem.step_log self
  /\ TrafficSystem.performance_monitor self'
     = TrafficSystem.performance_monitor self
  /\ TrafficSystem.intersections self' = TrafficSystem.intersections self
  /\ TrafficSystem.emergency_system self' = TrafficSystem.emergency_system self
  /\ TrafficSystem.current_step self' = TrafficSystem.current_step self.
Proof.
  intros self'. subst self'. unfold TrafficSystem.load_scenario.
  destruct (ConfigurationManager.set _ _ _); cbn; repeat split.
Qed.

Lemma quiet_system_call S st c :
  match c with AddSensor a => In a S | _ => True end ->
  quiet S st -> quiet S (system_call st c).
Proof.
  destruct st as [H self]. intros Hc Hq.
  destruct c as [config|a|weather|scenario|env|vehicle|now1 now2];
    cbn [system_call].
  - revert Hq. now apply quiet_same.
  - destruct Hq as (Hinj & Hsens & Hhist & Hlog & Hmet).
    unfold quiet. split; [exact Hinj|]. split; [|auto].
    intros b Hb. unfold TrafficSystem.get_all_sensors, TrafficSystem.add_sensor in Hb.
    cbn [TrafficSystem.sensors TrafficSystem.set_sensors] in Hb.
    apply odict_set_values in Hb as [->|Hb]; [exact Hc|now apply Hsens].
  - revert Hq. now apply quiet_same.
  - pose proof (load_scenario_keeps self scenario) as (Es & Em & El & Ep & _).
    cbv zeta in Es, Em, El, Ep.
    revert Hq. apply quiet_same; try assumption. now rewrite Ep.
  - pose proof (quiet_process_step S env H self Hq) as [_ Hq'].
    cbv zeta in Hq'.
    destruct (TrafficSystem.process_step env H self) as [[info H'] self'].
    exact Hq'.
  - destruct (handle_emergency_vehicle_eq self vehicle) as [Hf Hs].
    destruct (decide (Vehicle.emergency_level vehicle = NONE)) as [E|N].
    + rewrite (Hf E). exact Hq.
    + rewrite (Hs N). cbn [snd]. revert Hq.
      apply quiet_same; try reflexivity.
      cbn [TrafficSystem.performance_monitor
           TrafficSystem.set_performance_monitor
           TrafficSystem.set_emergency_system].
      now rewrite increment_metric_other.
  - now apply quiet_get_system_status.
Qed.

Lemma added_sensors_cons c calls a :
  In a (added_sensors (c :: calls))
  <-> (match c with AddSensor b => a = b | _ => False end)
      \/ In a (added_sensors calls).
Proof.
  unfold added_sensors. cbn [flat_map]. rewrite in_app_iff.
  destruct c; cbn [In]; intuition congruence.
Qed.

Lemma quiet_system_run S calls : forall st,
  (forall a, In a (added_sensors calls) -> In a S) ->
  quiet S st -> quiet S (system_run st calls).
Proof.
  unfold system_run.
  induction calls as [|c calls IH]; intros st Hadd Hq; [exact Hq|].
  cbn [fold_left]. apply IH.
  - intros a Ha. apply Hadd, added_sensors_cons. now right.
  - apply quiet_system_call; [|exact Hq].
    destruct c; try exact I. apply Hadd, added_sensors_cons. now left.
Qed.

(** X20.  In a system built through the orchestrator's interface, when no
    two of the sensor objects added share an id, anomaly detection never
    fires: each history holds one object over and over, so all its stored
    counts read the same.  After any run of calls the next step and the
    next status query report no anomaly, no logged step has one, the
    counter [anomalies_detected] is still 0 and the health check does not
    raise the anomaly issue. *)
Theorem system_never_reports_anomaly H0 config_manager now calls :
  (forall a b, In a (added_sensors calls) -> In b (added_sensors calls) ->
               TrafficSensor.id (H0 a) = TrafficSensor.id (H0 b) -> a = b) ->
  let st := system_run (H0, TrafficSystem.new config_manager now) calls in
  let self := snd st in
  (forall env,
     ProcessedData.anomalies
       (StepInfo.analytics
          (fst (fst (TrafficSystem.process_step env (fst st) self)))) = [])
  /\ (forall now1 now2,
        ProcessedData.anomalies
          (StatusReport.analytics
             (fst (TrafficSystem.get_system_status now1 now2 (fst st) self)))
        = [])
  /\ (forall info, In info (TrafficSystem.step_log self) ->
                   ProcessedData.anomalies (StepInfo.analytics info) = [])
  /\ PerformanceMonitor.metrics (TrafficSystem.performance_monitor self)
       !! "anomalies_detected" = Some (Py.Int 0)
  /\ forall now2,
       ~ In "High anomaly count"
           (snd (PerformanceMonitor.check_system_health
                   (TrafficSystem.performance_monitor self) now2)).
Proof.
  intros Hinj st self.
  assert (Hq : quiet (added_sensors calls) st).
  { apply quiet_system_run; [auto|].
    unfold quiet. split; [exact Hinj|].
    split; [intros a []|]. split; [|split; [intros info []|reflexivity]].
    intros sid b. cbn [TrafficSystem.monitoring_system TrafficSystem.new].
    rewrite history_of_new_monitor. intros []. }
  subst self. destruct st as [H self]. cbn [fst snd].
  split; [|split; [|split; [|split]]].
  - intros env. exact (proj1 (quiet_process_step _ env H self Hq)).
  - intros now1 now2.
    exact (proj1 (quiet_get_system_status _ now1 now2 H self Hq)).
  - exact (proj1 (proj2 (proj2 (proj2 Hq)))).
  - exact (proj2 (proj2 (proj2 (proj2 Hq)))).
  - intros now2. destruct Hq as (_ & _ & _ & _ & Hmet).
    unfold PerformanceMonitor.check_system_health.
    set (m := PerformanceMonitor.get_metrics_summary _ _).
    assert (Em : m !!! "anomalies_detected" = Py.Int 0).
    { unfold m, PerformanceMonitor.get_metrics_summary.
      rewrite lookup_total_alt, !lookup_insert_ne by discriminate.
      now rewrite Hmet. }
    rewrite Em. cbn [num_gt]. replace (100 <? 0) with false by reflexivity.
    destruct (num_gt _ _); cbn [snd app In]; intuition discriminate.
Qed.

Lemma system_never_reports_anomaly_witness :
  PerformanceMonitor.metrics
    (TrafficSystem.performance_monitor
       (snd (system_run (two_sensor_store, TrafficSystem.new (ConfigurationManager.new None) 0)
               [AddSensor 0%nat; AddSensor 1%nat;
                ProcessStep (sample_env 3 2.5 1); GetSystemStatus 5 6])))
    !! "anomalies_detected" = Some (Py.Int 0).
Proof.
  refine (proj1 (proj2 (proj2 (proj2
            (system_never_reports_anomaly two_sensor_store
               (ConfigurationManager.new None) 0
               [AddSensor 0%nat; AddSensor 1%nat;
                ProcessStep (sample_env 3 2.5 1); GetSystemStatus 5 6] _))))).
  intros a b [<-|[<-|[]]] [<-|[<-|[]]]; vm_compute; congruence.
Defined.

(* ===================================================================== *)
(** ** InteractiveTrafficControlSystem: overrides at the level of the system *)
(* ===================================================================== *)

Lemma update_state_emergency_green self current_step sensor_data weather
    emergency_level is_rush_hour :
  emergency_level <> NONE ->
  current_state (update_state self current_step sensor_data weather
                   emergency_level false false is_rush_hour) = GREEN.
Proof.
  intros He. unfold update_state.
  destruct (decide (emergency_level <> NONE)); [|contradiction].
  destruct (decide (current_state self <> GREEN)) as [Hn|Hg].
  - apply change_state_fields.
  - destruct (decide (current_state self = GREEN)); [assumption|contradiction].
Qed.

Lemma get_highest_priority_vehicle_some self values :
  dict_values (active_emergencies self) values ->
  active_emergencies self <> ∅ ->
  exists best vid,
    get_highest_priority_vehicle self values = Some best
    /\ active_emergencies self !! vid = Some best.
Proof.
  intros Hd Hne. unfold get_highest_priority_vehicle.
  destruct (Nat.eqb_spec (size (active_emergencies self)) 0) as [Hz|Hnz];
    [apply map_size_empty_iff in Hz; contradiction|].
  destruct values as [|v vs].
  - exfalso. apply Hne. unfold dict_values in Hd.
    apply Permutation_nil in Hd. apply fmap_nil_inv in Hd.
    now apply map_to_list_empty_iff.
  - set (key := fun v => calculate_priority self v CLEAR).
    destruct (py_max_by_first_max key vs v) as (pre & post & E & _).
    assert (Hin : In (py_max_by key v vs) (v :: vs))
      by (rewrite E; apply in_or_app; right; now left).
    apply (dict_values_In _ _ _ Hd) in Hin as [vid Hvid].
    exists (py_max_by key v vs), vid. split; [reflexivity|exact Hvid].
Qed.

(** X21.  The overrides act on all intersections at once.  After a step
    that gets the number n: under a power outage every intersection shows
    FLASHING_YELLOW when n is even and RED when n is odd; otherwise, under
    a pedestrian scramble, every intersection shows RED; otherwise, when at
    least one emergency vehicle is registered, every intersection shows
    GREEN, crossing directions included.  The step never changes the
    registry. *)
Theorem process_step_overrides env H self iid light :
  registry_ok (TrafficSystem.emergency_system self) ->
  env_ok self env ->
  let r := TrafficSystem.process_step env H self in
  let n := TrafficSystem.current_step self + 1 in
  In (iid, light) (TrafficSystem.intersections (snd r)) ->
  TrafficSystem.emergency_system (snd r) = TrafficSystem.emergency_system self
  /\ (TrafficSystem.power_outage self = true ->
      current_state light = if Z.even n then FLASHING_YELLOW else RED)
  /\ (TrafficSystem.power_outage self = false ->
      TrafficSystem.is_pedestrian_scramble self = true ->
      current_state light = RED)
  /\ (TrafficSystem.power_outage self = false ->
      TrafficSystem.is_pedestrian_scramble self = false ->
      active_emergencies (TrafficSystem.emergency_system self) <> ∅ ->
      current_state light = GREEN).
Proof.
  intros Hok Henv r n Hin. subst r n.
  pose proof (process_step_fields env H self)
    as (_ & _ & _ & Ee & _ & _ & _ & _ & _ & _ & Ei & _).
  cbv zeta in Ee, Ei. split; [exact Ee|].
  rewrite Ei in Hin. apply in_map_iff in Hin as ([iid0 old] & [= <- <-] & _).
  split; [|split].
  - intros ->. unfold update_state. rewrite mod2_even.
    destruct (Z.even _); reflexivity.
  - intros -> ->. reflexivity.
  - intros -> -> Hne.
    destruct (get_highest_priority_vehicle_some _ _ Henv Hne)
      as (best & vid & -> & Hvid).
    apply update_state_emergency_green. now apply Hok in Hvid.
Qed.

Lemma registry_ok_new : registry_ok new_emergency_system.
Proof.
  split; [|reflexivity]. intros vid v Hv. cbn in Hv.
  now rewrite lookup_empty in Hv.
Qed.

(** No call of the interface takes a vehicle out of the registry. *)
Lemma system_call_registry st c :
  registry_ok (TrafficSystem.emergency_system (snd st)) ->
  registry_ok (TrafficSystem.emergency_system (snd (system_call st c)))
  /\ forall vid,
       is_Some (active_emergencies (TrafficSystem.emergency_system (snd st))
                  !! vid) ->
       is_Some (active_emergencies
                  (TrafficSystem.emergency_system (snd (system_call st c)))
                  !! vid).
Proof.
  destruct st as [H self]. cbn [snd]. intros Hok.
  destruct c as [config|a|weather|scenario|env|vehicle|now1 now2];
    cbn [system_call snd].
  - split; [exact Hok|auto].
  - split; [exact Hok|auto].
  - split; [exact Hok|auto].
  - pose proof (load_scenario_keeps self scenario) as (_ & _ & _ & _ & _ & Ee & _).
    cbv zeta in Ee. rewrite Ee. split; [exact Hok|auto].
  - pose proof (process_step_fields env H self) as (_ & _ & _ & Ee & _).
    cbv zeta in Ee.
    destruct (TrafficSystem.process_step env H self) as [[info H'] self'].
    cbn [snd] in *. rewrite Ee. split; [exact Hok|auto].
  - destruct (handle_emergency_vehicle_eq self vehicle) as [Hf Hs].
    destruct (decide (Vehicle.emergency_level vehicle = NONE)) as [E|N].
    + rewrite (Hf E). split; [exact Hok|auto].
    + rewrite (Hs N).
      cbn [snd TrafficSystem.emergency_system
           TrafficSystem.set_performance_monitor
           TrafficSystem.set_emergency_system active_emergencies].
      destruct Hok as [Hreg Hw]. split; [split; [|exact Hw]|].
      * cbn [active_emergencies]. intros vid v.
        destruct (decide (Vehicle.id vehicle = vid)) as [<-|Hne].
        -- rewrite lookup_insert_eq. intros [= <-]. now split.
        -- rewrite lookup_insert_ne by assumption. apply Hreg.
      * intros vid Hv. apply lookup_insert_is_Some.
        destruct (decide (Vehicle.id vehicle = vid)); auto.
  - pose proof (get_system_status_fields now1 now2 H self) as (Es & _).
    cbv zeta in Es. rewrite Es. split; [exact Hok|auto].
Qed.

Lemma system_run_registry calls : forall st,
  registry_ok (TrafficSystem.emergency_system (snd st)) ->
  registry_ok (TrafficSystem.emergency_system (snd (system_run st calls)))
  /\ forall vid,
       is_Some (active_emergencies (TrafficSystem.emergency_system (snd st))
                  !! vid) ->
       is_Some (active_emergencies
                  (TrafficSystem.emergency_system (snd (system_run st calls)))
                  !! vid).
Proof.
  unfold system_run.
  induction calls as [|c calls IH]; intros st Hok; [split; [exact Hok|auto]|].
  cbn [fold_left].
  destruct (system_call_registry st c Hok) as [Hok' Hkeep].
  destruct (IH _ Hok') as [Hok'' Hkeep'].
  split; [exact Hok''|]. intros vid Hv. apply Hkeep', Hkeep, Hv.
Qed.

Lemma process_step_emergency_green env H self iid light :
  registry_ok (TrafficSystem.emergency_system self) ->
  env_ok self env ->
  TrafficSystem.power_outage self = false ->
  TrafficSystem.is_pedestrian_scramble self = false ->
  active_emergencies (TrafficSystem.emergency_system self) <> ∅ ->
  In (iid, light)
     (TrafficSystem.intersections (snd (TrafficSystem.process_step env H self))) ->
  current_state light = GREEN.
Proof.
  intros Hok Henv Ho Hs Hne Hin.
  pose proof (process_step_fields env H self)
    as (_ & _ & _ & _ & _ & _ & _ & _ & _ & _ & Ei & _).
  cbv zeta in Ei.
  rewrite Ei, Ho, Hs in Hin.
  apply in_map_iff in Hin as ([iid0 old] & [= <- <-] & _).
  destruct (get_highest_priority_vehicle_some _ _ Henv Hne)
    as (best & vid & -> & Hvid).
  apply update_state_emergency_green. now apply Hok in Hvid.
Qed.

(** X22.  The system never clears an emergency.  Once
    [handle_emergency_vehicle] has accepted a vehicle, the vehicle stays
    registered through every later call of the interface, whatever the
    calls are; and every later step that is not under a power outage or a
    pedestrian scramble leaves every intersection on GREEN. *)
Theorem emergency_never_cleared H0 config_manager now before vehicle after :
  Vehicle.emergency_level vehicle <> NONE ->
  let st := system_run (H0, TrafficSystem.new config_manager now)
              (before ++ HandleEmergencyVehicle vehicle :: after) in
  is_Some (active_emergencies (TrafficSystem.emergency_system (snd st))
             !! Vehicle.id vehicle)
  /\ forall env iid light,
       env_ok (snd st) env ->
       TrafficSystem.power_outage (snd st) = false ->
       TrafficSystem.is_pedestrian_scramble (snd st) = false ->
       In (iid, light)
          (TrafficSystem.intersections
             (snd (TrafficSystem.process_step env (fst st) (snd st)))) ->
       current_state light = GREEN.
Proof.
  intros Hl st. subst st. unfold system_run.
  rewrite fold_left_app. cbn [fold_left].
  fold (system_run (H0, TrafficSystem.new config_manager now) before).
  set (st1 := system_run _ before).
  assert (Hok1 : registry_ok (TrafficSystem.emergency_system (snd st1)))
    by (apply system_run_registry, registry_ok_new).
  destruct (system_call_registry st1 (HandleEmergencyVehicle vehicle) Hok1)
    as [Hok2 _].
  assert (Hin2 : is_Some
                   (active_emergencies
                      (TrafficSystem.emergency_system
                         (snd (system_call st1 (HandleEmergencyVehicle vehicle))))
                      !! Vehicle.id vehicle)).
  { destruct st1 as [H1 self1]. cbn [system_call snd].
    destruct (handle_emergency_vehicle_eq self1 vehicle) as [_ Hs].
    rewrite (Hs Hl).
    cbn [snd TrafficSystem.emergency_system
         TrafficSystem.set_performance_monitor
         TrafficSystem.set_emergency_system active_emergencies].
    rewrite lookup_insert_eq. eauto. }
  set (st2 := system_call st1 (HandleEmergencyVehicle vehicle)) in *.
  fold (system_run st2 after).
  destruct (system_run_registry after st2 Hok2) as [Hok3 Hkeep].
  specialize (Hkeep _ Hin2).
  split; [exact Hkeep|].
  intros env iid light Henv Ho Hs Hin.
  refine (process_step_emergency_green env _ _ iid light Hok3 Henv Ho Hs _ Hin).
  intros He. rewrite He, lookup_empty in Hkeep. now destruct Hkeep.
Qed.

Lemma emergency_never_cleared_witness :
  is_Some
    (active_emergencies
       (TrafficSystem.emergency_system
          (snd (system_run
                  (two_sensor_store,
                   TrafficSystem.new (ConfigurationManager.new None) 0)
                  ([AddIntersection sample_config]
                   ++ HandleEmergencyVehicle
                        (sample_vehicle "ambulance_1" EMERGENCY HIGH)
                   :: [LoadScenario Scenario.NIGHT;
                       ProcessStep (sample_env 1 2.5 1)]))))
       !! "ambulance_1").
Proof.
  refine (proj1 (emergency_never_cleared two_sensor_store
                   (ConfigurationManager.new None) 0
                   [AddIntersection sample_config]
                   (sample_vehicle "ambulance_1" EMERGENCY HIGH)
                   [LoadScenario Scenario.NIGHT;
                    ProcessStep (sample_env 1 2.5 1)] _)).
  discriminate.
Defined.

Lemma process_step_overrides_witness :
  let st := system_run (two_sensor_store, sample_system)
              [AddIntersection sample_config; AddSensor 0%nat;
               HandleEmergencyVehicle
                 (sample_vehicle "ambulance_1" EMERGENCY HIGH)] in
  let env := StepEnv.mk 100.0 100.5 (fun _ => (1, 2.5%float, 1)) (fun _ => 0) 0
               (map snd (map_to_list
                  (active_emergencies (TrafficSystem.emergency_system (snd st))))) in
  exists light,
    In (IntersectionConfig.id sample_config, light)
       (TrafficSystem.intersections
          (snd (TrafficSystem.process_step env (fst st) (snd st))))
    /\ current_state light = GREEN.
Proof.
  intros st env.
  assert (Hok : registry_ok (TrafficSystem.emergency_system (snd st)))
    by (apply system_run_registry, registry_ok_new).
  assert (Henv : env_ok (snd st) env) by apply Permutation_refl.
  assert (Ho : TrafficSystem.power_outage (snd st) = false)
    by (vm_compute; reflexivity).
  assert (Hs : TrafficSystem.is_pedestrian_scramble (snd st) = false)
    by (vm_compute; reflexivity).
  assert (Hne : active_emergencies (TrafficSystem.emergency_system (snd st)) <> ∅).
  { intros E.
    assert (Hl : active_emergencies (TrafficSystem.emergency_system (snd st))
                   !! "ambulance_1" = None)
      by (rewrite E; apply lookup_empty).
    vm_compute in Hl. discriminate. }
  assert (Hex : { light |
                  In (IntersectionConfig.id sample_config, light)
                     (TrafficSystem.intersections
                        (snd (TrafficSystem.process_step env (fst st) (snd st)))) }).
  { eexists. vm_compute. left. reflexivity. }
  destruct Hex as [light Hin]. exists light. split; [exact Hin|].
  exact (proj2 (proj2 (proj2
           (process_step_overrides env (fst st) (snd st) _ light Hok Henv Hin)))
           Ho Hs Hne).
Defined.

(* ===================================================================== *)
(** ** InteractiveTrafficControlSystem: the books *)
(* ===================================================================== *)

Lemma cap_last_n {A} (n : nat) (l : list A) :
  (if (n <? length l)%nat then Py.last_n n l else l) = Py.last_n n l.
Proof.
  destruct (Nat.ltb_spec n (length l)); [reflexivity|].
  symmetry. now apply last_n_all.
Qed.

Lemma map_last_n {A B} (f : A -> B) (n : nat) (l : list A) :
  map f (Py.last_n n l) = Py.last_n n (map f l).
Proof.
  unfold Py.last_n. rewrite length_map.
  change (map f) with (fmap (M := list) f). now rewrite fmap_drop.
Qed.

Lemma update_metric_step_times self key value :
  PerformanceMonitor.step_times (PerformanceMonitor.update_metric self key value)
  = PerformanceMonitor.step_times self.
Proof.
  unfold PerformanceMonitor.update_metric.
  now destruct (PerformanceMonitor.metrics self !! key).
Qed.

Lemma increment_metric_step_times self key amount :
  PerformanceMonitor.step_times
    (PerformanceMonitor.increment_metric self key amount)
  = PerformanceMonitor.step_times self.
Proof.
  unfold PerformanceMonitor.increment_metric.
  now destruct (PerformanceMonitor.metrics self !! key).
Qed.

Lemma track_step_total_steps self d n :
  PerformanceMonitor.metrics self !! "total_steps" = Some (Py.Int n) ->
  PerformanceMonitor.metrics (PerformanceMonitor.track_step self d)
    !! "total_steps" = Some (Py.Int (n + 1)).
Proof.
  intros Hn. unfold PerformanceMonitor.track_step.
  cbn [PerformanceMonitor.metrics]. rewrite lookup_alter_eq, Hn. reflexivity.
Qed.

Lemma track_step_step_times self d :
  PerformanceMonitor.step_times (PerformanceMonitor.track_step self d)
  = Py.last_n 1000 (PerformanceMonitor.step_times self ++ [d]).
Proof.
  unfold PerformanceMonitor.track_step.
  cbn [PerformanceMonitor.step_times]. apply cap_last_n.
Qed.

Lemma bookkeeping_same k self self' :
  TrafficSystem.current_step self' = TrafficSystem.current_step self ->
  TrafficSystem.step_log self' = TrafficSystem.step_log self ->
  PerformanceMonitor.metrics (TrafficSystem.performance_monitor self')
    !! "total_steps"
  = PerformanceMonitor.metrics (TrafficSystem.performance_monitor self)
      !! "total_steps" ->
  PerformanceMonitor.step_times (TrafficSystem.performance_monitor self')
  = PerformanceMonitor.step_times (TrafficSystem.performance_monitor self) ->
  bookkeeping k self -> bookkeeping k self'.
Proof.
  intros Ec El Em Et (Hc & Hm & Hl & Ht). unfold bookkeeping.
  rewrite Ec, El, Em, Et. auto.
Qed.

Lemma bookkeeping_process_step k env H self :
  bookkeeping k self ->
  bookkeeping (S k) (snd (TrafficSystem.process_step env H self)).
Proof.
  intros (Hc & Hm & Hl & Ht).
  pose proof (process_step_fields env H self)
    as (_ & _ & _ & _ & _ & Ec & Ei & El & Ep & _).
  cbv zeta in Ec, Ei, El, Ep.
  set (monitor := match ProcessedData.anomalies _ with [] => _ | _ => _ end) in Ep.
  assert (Hmon : PerformanceMonitor.metrics monitor !! "total_steps"
                 = Some (Py.Int (Z.of_nat k))
                 /\ PerformanceMonitor.step_times monitor
                    = PerformanceMonitor.step_times
                        (TrafficSystem.performance_monitor self)).
  { unfold monitor. destruct (ProcessedData.anomalies _).
    - rewrite update_metric_other by discriminate.
      now rewrite update_metric_step_times.
    - rewrite increment_metric_other, update_metric_other by discriminate.
      now rewrite increment_metric_step_times, update_metric_step_times. }
  destruct Hmon as [Hm' Ht'].
  unfold bookkeeping. rewrite Ec, Hc, Ep, El. split; [lia|]. split; [|split].
  - rewrite (track_step_total_steps _ _ _ Hm'). do 2 f_equal. lia.
  - rewrite cap_last_n, map_last_n, map_app, Hl. cbn [map]. rewrite Ei, Hc.
    rewrite last_n_app_last_n, seq_S, map_app. cbn [map].
    do 3 f_equal. lia.
  - rewrite track_step_step_times, last_n_length, length_app, Ht', Ht.
    cbn [length]. lia.
Qed.

Lemma bookkeeping_system_call k st c :
  bookkeeping k (snd st) ->
  bookkeeping (steps_of [c] + k) (snd (system_call st c)).
Proof.
  destruct st as [H self]. cbn [snd]. intros Hb.
  destruct c as [config|a|weather|scenario|env|vehicle|now1 now2];
    cbn [system_call snd steps_of List.filter length Nat.add].
  - exact Hb.
  - exact Hb.
  - exact Hb.
  - pose proof (load_scenario_keeps self scenario)
      as (_ & _ & El & Ep & _ & _ & Ec).
    cbv zeta in El, Ep, Ec. revert Hb.
    apply bookkeeping_same; try assumption; now rewrite Ep.
  - pose proof (bookkeeping_process_step k env H self Hb) as Hb'.
    destruct (TrafficSystem.process_step env H self) as [[info H'] self'].
    exact Hb'.
  - destruct (handle_emergency_vehicle_eq self vehicle) as [Hf Hs].
    destruct (decide (Vehicle.emergency_level vehicle = NONE)) as [E|N].
    + rewrite (Hf E). exact Hb.
    + rewrite (Hs N). cbn [snd]. revert Hb.
      apply bookkeeping_same; try reflexivity;
        cbn [TrafficSystem.performance_monitor
             TrafficSystem.set_performance_monitor
             TrafficSystem.set_emergency_system].
      * now rewrite increment_metric_other.
      * apply increment_metric_step_times.
  - pose proof (get_system_status_fields now1 now2 H self) as (Es & _).
    cbv zeta in Es. rewrite Es. exact Hb.
Qed.

Lemma steps_of_cons c calls :
  steps_of (c :: calls) = (steps_of [c] + steps_of calls)%nat.
Proof. unfold steps_of. cbn [List.filter]. now destruct c. Qed.

Lemma bookkeeping_system_run calls : forall k st,
  bookkeeping k (snd st) ->
  bookkeeping (steps_of calls + k) (snd (system_run st calls)).
Proof.
  unfold system_run.
  induction calls as [|c calls IH]; intros k st Hb; [exact Hb|].
  cbn [fold_left]. rewrite steps_of_cons.
  replace (steps_of [c] + steps_of calls + k)%nat
    with (steps_of calls + (steps_of [c] + k))%nat by lia.
  apply IH. now apply bookkeeping_system_call.
Qed.

(** X23.  The books of a system agree with the number n of steps it has
    made, whatever other calls came in between: [current_step] and the
    metric [total_steps] are n; the log holds the entries of the last 1000
    steps, numbered consecutively up to n; and the performance monitor
    keeps the durations of the last 1000 steps. *)
Theorem step_bookkeeping H0 config_manager now calls :
  let self := snd (system_run (H0, TrafficSystem.new config_manager now) calls) in
  let n := steps_of calls in
  TrafficSystem.current_step self = Z.of_nat n
  /\ PerformanceMonitor.metrics (TrafficSystem.performance_monitor self)
       !! "total_steps" = Some (Py.Int (Z.of_nat n))
  /\ map StepInfo.step (TrafficSystem.step_log self)
     = map Z.of_nat (seq (1 + (n - 1000)) (Nat.min n 1000))
  /\ length (PerformanceMonitor.step_times
               (TrafficSystem.performance_monitor self)) = Nat.min n 1000.
Proof.
  intros self n.
  assert (Hb : bookkeeping (n + 0) self).
  { apply bookkeeping_system_run. repeat split. }
  rewrite Nat.add_0_r in Hb. destruct Hb as (Hc & Hm & Hl & Ht).
  repeat split; try assumption.
  rewrite Hl. unfold Py.last_n. rewrite length_map, length_seq.
  change (map Z.of_nat) with (fmap (M := list) Z.of_nat).
  rewrite <- fmap_drop. f_equal.
  change (@drop nat) with (@skipn nat). rewrite skipn_seq. f_equal; lia.
Qed.

(* ===================================================================== *)
(** ** InteractiveTrafficControlSystem: scenarios *)
(* ===================================================================== *)

Lemma set_max_cars_per_lane self value :
  ConfigurationManager.set self "intersections.max_cars_per_lane" value
  = match from_option id (CDict ∅)
            (ConfigurationManager.config self !! "intersections") with
    | CDict section =>
        Some (ConfigurationManager.mk
                (<["intersections" :=
                     CDict (<["max_cars_per_lane" := value]> section)]>
                   (ConfigurationManager.config self)))
    | _ => None
    end.
Proof.
  unfold ConfigurationManager.set.
  replace (split_dot "intersections.max_cars_per_lane")
    with ["intersections"; "max_cars_per_lane"] by reflexivity.
  cbn [ConfigurationManager.set_loop].
  now destruct (from_option id (CDict ∅)
                  (ConfigurationManager.config self !! "intersections")).
Qed.

Lemma get_max_cars_per_lane m section value default :
  ConfigurationManager.get
    (ConfigurationManager.mk
       (<["intersections" := CDict (<["max_cars_per_lane" := value]> section)]> m))
    "intersections.max_cars_per_lane" default
  = value.
Proof.
  unfold ConfigurationManager.get.
  replace (split_dot "intersections.max_cars_per_lane")
    with ["intersections"; "max_cars_per_lane"] by reflexivity.
  cbn [ConfigurationManager.get_loop ConfigurationManager.config].
  rewrite lookup_insert_eq. cbn [from_option id].
  rewrite lookup_insert_eq. reflexivity.
Qed.

(** X24.  [load_scenario] always records the scenario and sets each of the
    three flags to whether the scenario is its own, so at most one is set.
    It fails exactly when the configuration has an entry [intersections]
    that is no dictionary, and then the weather, the status and the
    configuration are as before although the scenario and the flags have
    changed.  When it succeeds, the weather is the scenario's (CLEAR for
    the scenarios without one), the status is FAILURE under a power outage
    and NORMAL otherwise, and the configuration reads 8 cars per lane in
    the rush hour and 4 otherwise. *)
Theorem load_scenario_spec self scenario default :
  let r := TrafficSystem.load_scenario self scenario in
  let self' := snd r in
  (TrafficSystem.current_scenario self' = scenario
   /\ TrafficSystem.power_outage self'
      = bool_decide (scenario = Scenario.POWER_OUTAGE)
   /\ TrafficSystem.is_rush_hour self'
      = bool_decide (scenario = Scenario.RUSH_HOUR)
   /\ TrafficSystem.is_pedestrian_scramble self'
      = bool_decide (scenario = Scenario.PEDESTRIAN_SCRAMBLE))
  /\ (fst r = false
      <-> exists v,
            ConfigurationManager.config (TrafficSystem.config_manager self)
              !! "intersections" = Some v
            /\ is_dict v = false)
  /\ (fst r = false ->
      TrafficSystem.current_weather self' = TrafficSystem.current_weather self
      /\ TrafficSystem.system_status self' = TrafficSystem.system_status self
      /\ TrafficSystem.config_manager self' = TrafficSystem.config_manager self)
  /\ (fst r = true ->
      TrafficSystem.current_weather self'
      = match scenario with
        | Scenario.HEAVY_RAIN => RAIN
        | Scenario.SNOW_BLIZZARD => SNOW
        | Scenario.DENSE_FOG => FOG
        | Scenario.NIGHT => NIGHT
        | _ => CLEAR
        end
      /\ TrafficSystem.system_status self'
         = (if bool_decide (scenario = Scenario.POWER_OUTAGE)
            then SystemStatus.FAILURE else SystemStatus.NORMAL)
      /\ ConfigurationManager.get (TrafficSystem.config_manager self')
           "intersections.max_cars_per_lane" default
         = CInt (if bool_decide (scenario = Scenario.RUSH_HOUR) then 8 else 4)).
Proof.
  intros r self'. subst self' r. unfold TrafficSystem.load_scenario.
  cbn [TrafficSystem.config_manager TrafficSystem.set_scenario
       TrafficSystem.is_rush_hour].
  rewrite set_max_cars_per_lane.
  destruct (ConfigurationManager.config (TrafficSystem.config_manager self)
              !! "intersections") as [v|] eqn:E; cbn [from_option id].
  - destruct v; cbn [fst snd]; (split; [now repeat split|]);
      (split; [|split]);
      try (split; [intros _; eexists; split; [reflexivity|reflexivity]
                  |intros _; reflexivity]);
      try (split; [discriminate|intros (v & [= <-] & Hd); discriminate]);
      try discriminate;
      try (intros _; now repeat split).
    intros _. split; [reflexivity|]. split; [reflexivity|].
    cbn [TrafficSystem.config_manager TrafficSystem.set_system_status
         TrafficSystem.set_current_weather TrafficSystem.set_config_manager].
    apply get_max_cars_per_lane.
  - cbn [fst snd]. split; [now repeat split|]. split; [|split].
    + split; [discriminate|intros (v & Hv & _); discriminate].
    + discriminate.
    + intros _. split; [reflexivity|]. split; [reflexivity|].
      cbn [TrafficSystem.config_manager TrafficSystem.set_system_status
           TrafficSystem.set_current_weather TrafficSystem.set_config_manager].
      apply get_max_cars_per_lane.
Qed.

(** X25.  Scenarios do not combine and nothing set before survives a
    successful [load_scenario]: loading a scenario after another one, or
    after [update_weather], leaves exactly the system that loading it alone
    leaves. *)
Theorem load_scenario_last_wins self earlier weather scenario :
  fst (TrafficSystem.load_scenario self scenario) = true ->
  TrafficSystem.load_scenario
    (snd (TrafficSystem.load_scenario self earlier)) scenario
  = TrafficSystem.load_scenario self scenario
  /\ TrafficSystem.load_scenario
       (TrafficSystem.update_weather self weather) scenario
     = TrafficSystem.load_scenario self scenario.
Proof.
  destruct self as [cm pm ints sens mon ems st w sc po rh ps cs sl].
  unfold TrafficSystem.load_scenario, TrafficSystem.update_weather.
  cbn [TrafficSystem.config_manager TrafficSystem.set_scenario
       TrafficSystem.is_rush_hour TrafficSystem.set_current_weather].
  rewrite !set_max_cars_per_lane.
  destruct (ConfigurationManager.config cm !! "intersections")
    as [v|] eqn:E; cbn [from_option id].
  - destruct v; cbn [fst snd]; try discriminate. intros _.
    cbn [TrafficSystem.config_manager TrafficSystem.set_scenario
         TrafficSystem.is_rush_hour TrafficSystem.set_current_weather
         TrafficSystem.set_config_manager TrafficSystem.set_system_status
         TrafficSystem.power_outage].
    cbn [ConfigurationManager.config]. rewrite lookup_insert_eq.
    cbn [from_option id]. rewrite !insert_insert_eq.
    split; reflexivity.
  - cbn [fst snd]. intros _.
    cbn [TrafficSystem.config_manager TrafficSystem.set_scenario
         TrafficSystem.is_rush_hour TrafficSystem.set_current_weather
         TrafficSystem.set_config_manager TrafficSystem.set_system_status
         TrafficSystem.power_outage].
    cbn [ConfigurationManager.config]. rewrite lookup_insert_eq.
    cbn [from_option id]. rewrite !insert_insert_eq.
    split; reflexivity.
Qed.

Lemma load_scenario_last_wins_witness :
  TrafficSystem.load_scenario
    (snd (TrafficSystem.load_scenario sample_system Scenario.RUSH_HOUR))
    Scenario.HEAVY_RAIN
  = TrafficSystem.load_scenario sample_system Scenario.HEAVY_RAIN.
Proof.
  refine (proj1 (load_scenario_last_wins sample_system Scenario.RUSH_HOUR STORM
                   Scenario.HEAVY_RAIN _)).
  vm_compute. reflexivity.
Defined.

(* ===================================================================== *)
(** ** InteractiveTrafficControlSystem: emergencies and status queries *)
(* ===================================================================== *)

(** X26.  [handle_emergency_vehicle] rejects a vehicle of level NONE and
    leaves the system as it was.  Any other vehicle is accepted: the
    registry then holds it under its id with its priority set to the
    priority computed for the current weather, which is also the priority
    reported; the other entries are untouched; the route reported and
    stored is the ids of the first three intersections in the order they
    were added, whatever the vehicle's position and destination; and the
    metric [emergency_responses], an [int] n before, is n + 1. *)
Theorem handle_emergency_vehicle_spec self vehicle n :
  PerformanceMonitor.metrics (TrafficSystem.performance_monitor self)
    !! "emergency_responses" = Some (Py.Int n) ->
  let r := TrafficSystem.handle_emergency_vehicle self vehicle in
  let self' := snd r in
  let emergency' := TrafficSystem.emergency_system self' in
  let priority :=
    calculate_priority (TrafficSystem.emergency_system self) vehicle
      (TrafficSystem.current_weather self) in
  let route :=
    map IntersectionConfig.id
      (take 3 (map config (odict_values (TrafficSystem.intersections self)))) in
  (EmergencyResult.success (fst r) = true
   <-> Vehicle.emergency_level vehicle <> NONE)
  /\ (Vehicle.emergency_level vehicle = NONE -> self' = self)
  /\ (Vehicle.emergency_level vehicle <> NONE ->
      (exists stored,
         active_emergencies emergency' !! Vehicle.id vehicle = Some stored
         /\ Vehicle.priority stored = priority
         /\ Vehicle.id stored = Vehicle.id vehicle
         /\ Vehicle.type stored = Vehicle.type vehicle
         /\ Vehicle.emergency_level stored = Vehicle.emergency_level vehicle)
      /\ (forall vid, vid <> Vehicle.id vehicle ->
            active_emergencies emergency' !! vid
            = active_emergencies (TrafficSystem.emergency_system self) !! vid)
      /\ EmergencyResult.priority (fst r) = Some priority
      /\ EmergencyResult.route (fst r) = Some route
      /\ priority_routes emergency' !! Vehicle.id vehicle = Some route
      /\ PerformanceMonitor.metrics (TrafficSystem.performance_monitor self')
           !! "emergency_responses" = Some (Py.Int (n + 1))).
Proof.
  intros Hn r self' emergency' priority route.
  subst emergency' self' r.
  destruct (handle_emergency_vehicle_eq self vehicle) as [Hf Hs].
  cbv zeta in Hf, Hs. fold priority route in Hs.
  destruct (decide (Vehicle.emergency_level vehicle = NONE)) as [E|N].
  - rewrite (Hf E). cbn [fst snd EmergencyResult.success].
    split; [split; [discriminate|contradiction]|].
    split; [reflexivity|contradiction].
  - rewrite (Hs N).
    cbn [fst snd EmergencyResult.success EmergencyResult.priority
         EmergencyResult.route TrafficSystem.emergency_system
         TrafficSystem.performance_monitor
         TrafficSystem.set_performance_monitor
         TrafficSystem.set_emergency_system active_emergencies
         priority_routes].
    split; [split; [intros _; exact N|reflexivity]|].
    split; [contradiction|]. intros _.
    split; [|split; [|split; [|split; [|split]]]].
    + eexists. rewrite lookup_insert_eq. split; [reflexivity|]. now repeat split.
    + intros vid Hne. now rewrite lookup_insert_ne.
    + reflexivity.
    + reflexivity.
    + now rewrite lookup_insert_eq.
    + unfold PerformanceMonitor.increment_metric. rewrite Hn.
      cbn [PerformanceMonitor.metrics]. now rewrite lookup_insert_eq.
Qed.

Lemma handle_emergency_vehicle_spec_witness :
  let self := snd (system_run (two_sensor_store, sample_system)
                     [AddIntersection sample_config;
                      UpdateWeather STORM]) in
  let vehicle := sample_vehicle "ambulance_1" EMERGENCY HIGH in
  EmergencyResult.success
    (fst (TrafficSystem.handle_emergency_vehicle self vehicle)) = true.
Proof.
  intros self vehicle.
  refine (proj2 (proj1 (handle_emergency_vehicle_spec self vehicle 0 _)) _).
  - vm_compute. reflexivity.
  - discriminate.
Defined.

(** X27.  A status query is not read-only: it runs the sensors through the
    monitor like a step does, so each query adds every sensor of the system
    to the history of its id (which stops growing at 100 entries).  All
    other parts of the system are left as they are, and the numbers of
    sensors and intersections reported are those of the system. *)
Theorem get_system_status_appends now1 now2 H self a :
  In a (TrafficSystem.get_all_sensors self) ->
  let sid := TrafficSensor.id (H a) in
  let before := history_of (TrafficSystem.monitoring_system self) sid in
  let r := TrafficSystem.get_system_status now1 now2 H self in
  let after := history_of (TrafficSystem.monitoring_system (snd r)) sid in
  (length before < 100 -> length before < length after)%nat
  /\ (length before <= 100 ->
      length after
      = Nat.min 100 (length before
                     + length (arrivals H sid (TrafficSystem.get_all_sensors self))))%nat
  /\ snd r = TrafficSystem.set_monitoring_system
               (TrafficSystem.monitoring_system (snd r)) self
  /\ StatusReport.sensor_count (fst r)
     = Py.len (TrafficSystem.get_all_sensors self)
  /\ StatusReport.intersection_count (fst r)
     = Py.len (TrafficSystem.intersections self).
Proof.
  intros Hin sid before r after. subst after r.
  pose proof (get_system_status_fields now1 now2 H self)
    as (Es & _ & _ & _ & _ & Ec & Ei).
  cbv zeta in Es, Ec, Ei. rewrite Es, Ec, Ei.
  cbn [TrafficSystem.monitoring_system TrafficSystem.set_monitoring_system].
  assert (Harr : In a (arrivals H sid (TrafficSystem.get_all_sensors self)))
    by now apply arrivals_In.
  pose proof (process_sensor_data_history_length H
                (TrafficSystem.monitoring_system self)
                (TrafficSystem.get_all_sensors self) sid) as Hlen.
  fold before in Hlen.
  assert (Hpos : (0 < length (arrivals H sid (TrafficSystem.get_all_sensors self)))%nat)
    by (destruct (arrivals H sid (TrafficSystem.get_all_sensors self));
        [destruct Harr|cbn; lia]).
  split; [intros Hlt; rewrite Hlen by lia; lia|].
  split; [exact Hlen|]. now repeat split.
Qed.

Lemma get_system_status_appends_witness :
  let self := snd (system_run (two_sensor_store, sample_system)
                     [AddSensor 0%nat; AddSensor 1%nat]) in
  let r := TrafficSystem.get_system_status 5 6 two_sensor_store self in
  (length (history_of (TrafficSystem.monitoring_system self) "sensor_0_0_1")
   < length (history_of (TrafficSystem.monitoring_system (snd r)) "sensor_0_0_1"))%nat.
Proof.
  intros self r.
  refine (proj1 (get_system_status_appends 5 6 two_sensor_store self 1%nat _) _).
  - right. left. reflexivity.
  - vm_compute. lia.
Defined.

(* ===================================================================== *)
(** ** PerformanceMonitor *)
(* ===================================================================== *)

Lemma get_metrics_summary_average_step_time self now :
  PerformanceMonitor.get_metrics_summary self now !! "average_step_time"
  = Some match PerformanceMonitor.step_times self with
         | [] => Py.Int 0
         | _ :: _ => Py.Float (mean_float (PerformanceMonitor.step_times self))
         end.
Proof.
  unfold PerformanceMonitor.get_metrics_summary.
  rewrite lookup_insert_ne by discriminate. now rewrite lookup_insert_eq.
Qed.

Lemma track_step_start_time self d :
  PerformanceMonitor.start_time (PerformanceMonitor.track_step self d)
  = PerformanceMonitor.start_time self.
Proof. reflexivity. Qed.

Lemma track_step_fold ds : forall self n,
  PerformanceMonitor.metrics self !! "total_steps" = Some (Py.Int n) ->
  (length (PerformanceMonitor.step_times self) <= 1000)%nat ->
  let self' := fold_left PerformanceMonitor.track_step ds self in
  PerformanceMonitor.metrics self' !! "total_steps"
  = Some (Py.Int (n + Py.len ds))
  /\ PerformanceMonitor.step_times self'
     = Py.last_n 1000 (PerformanceMonitor.step_times self ++ ds)
  /\ (forall name, name <> "total_steps" ->
        PerformanceMonitor.metrics self' !! name
        = PerformanceMonitor.metrics self !! name)
  /\ PerformanceMonitor.start_time self' = PerformanceMonitor.start_time self.
Proof.
  induction ds as [|d ds IH]; intros self n Hn Hlen self'; subst self'.
  - cbn [fold_left]. unfold Py.len. cbn [length]. rewrite Z.add_0_r, app_nil_r.
    rewrite last_n_all by assumption. now repeat split.
  - cbn [fold_left].
    destruct (IH (PerformanceMonitor.track_step self d) (n + 1)
                (track_step_total_steps _ _ _ Hn)) as (E1 & E2 & E3 & E4).
    { rewrite track_step_step_times, last_n_length. lia. }
    rewrite E1, E2, E4, track_step_step_times, last_n_app_last_n, <- app_assoc.
    split; [|split; [reflexivity|split; [|reflexivity]]].
    + do 2 f_equal. unfold Py.len. cbn [length]. lia.
    + intros name Hne. rewrite (E3 name Hne). now apply track_step_other.
Qed.

(** X28.  Tracking steps counts every step but remembers only the last
    1000 durations.  After the durations [ds] have been tracked by a
    monitor whose counter [total_steps] read n, the counter reads n plus
    their number, no other metric and not the start time has changed, and
    the summary's [average_step_time] is the mean of the last 1000
    durations tracked so far (0 when there is none): older steps no longer
    weigh in. *)
Theorem track_step_run ds self n now :
  PerformanceMonitor.metrics self !! "total_steps" = Some (Py.Int n) ->
  (length (PerformanceMonitor.step_times self) <= 1000)%nat ->
  let self' := fold_left PerformanceMonitor.track_step ds self in
  let kept := Py.last_n 1000 (PerformanceMonitor.step_times self ++ ds) in
  PerformanceMonitor.metrics self' !! "total_steps"
  = Some (Py.Int (n + Py.len ds))
  /\ (forall name, name <> "total_steps" ->
        PerformanceMonitor.metrics self' !! name
        = PerformanceMonitor.metrics self !! name)
  /\ PerformanceMonitor.start_time self' = PerformanceMonitor.start_time self
  /\ PerformanceMonitor.step_times self' = kept
  /\ PerformanceMonitor.get_metrics_summary self' now !! "average_step_time"
     = Some match kept with
            | [] => Py.Int 0
            | _ :: _ => Py.Float (mean_float kept)
            end.
Proof.
  intros Hn Hlen self' kept.
  destruct (track_step_fold ds self n Hn Hlen) as (E1 & E2 & E3 & E4).
  fold self' in E1, E2, E3, E4. fold kept in E2.
  repeat split; try assumption.
  rewrite get_metrics_summary_average_step_time, E2. reflexivity.
Qed.

Lemma track_step_run_witness :
  PerformanceMonitor.metrics
    (fold_left PerformanceMonitor.track_step [0.5%float; 0.25%float]
       (PerformanceMonitor.new 0))
    !! "total_steps" = Some (Py.Int 2).
Proof.
  refine (proj1 (track_step_run [0.5%float; 0.25%float]
                   (PerformanceMonitor.new 0) 0 0 _ _)).
  - vm_compute. reflexivity.
  - cbn. lia.
Defined.
